(** * BIRS tax-collection dashboard: aggregation, ranking and entry store

    A shallow embedding of the Flask application in [app.py], its models
    ([models.py]) and the two payment verifiers ([payment_api.py]), followed
    by the properties of the aggregation and ranking code.

    Modelling conventions.
    - Python numbers (SQL [Float] columns, [int] and [float] values) are exact
      rationals [Q]; binary64 rounding error, NaN and infinities are outside
      the model.  Division is partial: a zero divisor raises
      [ZeroDivisionError].
    - A nullable column is an [option]; [None] is SQL NULL / Python [None].
    - A table is the list of its rows in storage order.
    - SQL is read as SQLite reads it, the engine that the application
      uses unless [DATABASE_URL] names another ([sqlite:///birs.db]).
      Where a grouped query selects a column that is neither grouped nor
      aggregated, the row at which the engine evaluates it is a parameter
      [bare_row] of the model.
    - The network, the random generator and the clock are oracles of the
      environment [Env]; the position reached in each oracle is part of the
      state [World]. *)

From Stdlib Require Import List ZArith QArith Qround String Ascii Bool Lia.
From Stdlib Require Import Permutation Sorted DecimalString.
Import ListNotations.

Local Open Scope string_scope.
Local Open Scope list_scope.
Local Open Scope Z_scope.

(* ================================================================== *)
(** * Python values *)
(* ================================================================== *)

Module Py.

(** The exceptions that the modelled code can raise. *)
Inductive exn : Type :=
| ZeroDivisionError
| TypeError
| ValueError
| AttributeError
| OverflowError
| BuildError.             (* werkzeug: [url_for] of a name that is no endpoint *)

(** [A] or a raised exception. *)
Definition result (A : Type) : Type := (exn + A)%type.

(** Truth value of an optional string: [None] and [''] are false. *)
Definition truthy_str (s : option string) : bool :=
  match s with
  | None => false
  | Some EmptyString => false
  | Some (String _ _) => true
  end.

(** Truth value of an optional number: [None] and zero are false. *)
Definition truthy_num (x : option Q) : bool :=
  match x with
  | None => false
  | Some q => negb (Qeq_bool q 0)
  end.

(** [x or 0]. *)
Definition or_zero (x : option Q) : Q :=
  match x with
  | None => 0%Q
  | Some q => if Qeq_bool q 0 then 0%Q else q
  end.

(** [sum(xs)]: starts from 0 and adds from the left. *)
Definition sum (xs : list Q) : Q := fold_left Qplus xs 0%Q.

(** [x / y] (true division). *)
Definition truediv (x y : Q) : result Q :=
  if Qeq_bool y 0 then inl ZeroDivisionError else inr (x / y)%Q.

(** [x > y]. *)
Definition gt (x y : Q) : bool := negb (Qle_bool x y).

(** Nearest integer, ties to the even neighbour. *)
Definition round_half_even (x : Q) : Z :=
  let f := Qfloor x in
  let twice_frac := ((x - inject_Z f) * 2)%Q in
  if Qle_bool twice_frac 1
  then (if Qeq_bool twice_frac 1
        then (if Z.even f then f else f + 1)
        else f)
  else f + 1.

(** [round(x, ndigits)] for [ndigits >= 0], on exact numbers.  Python
    rounds the binary floating-point number that the division has left,
    which can lie just below or above the exact quotient: in the last
    digit the two may differ (1.015 is rounded to 1.01 by Python and to
    1.02 here). *)
Definition round (x : Q) (ndigits : nat) : Q :=
  let scale := inject_Z (10 ^ Z.of_nat ndigits) in
  (inject_Z (round_half_even (x * scale)) / scale)%Q.

(** The characters of a string that is known to be present. *)
Definition str_of (s : option string) : string :=
  match s with
  | Some x => x
  | None => ""
  end.

(** Equality of optional strings, as [==] on [str | None]. *)
Definition opt_str_eqb (a b : option string) : bool :=
  match a, b with
  | None, None => true
  | Some x, Some y => String.eqb x y
  | _, _ => false
  end.

(** [range(lo, hi)] for integers. *)
Definition range (lo hi : Z) : list Z :=
  map (fun i => lo + Z.of_nat i) (seq 0 (Z.to_nat (hi - lo))).

(** [calendar.month_name]. *)
Definition month_name : list string :=
  [""; "January"; "February"; "March"; "April"; "May"; "June"; "July";
   "August"; "September"; "October"; "November"; "December"].

(** [datetime.datetime]; the time of day is kept in microseconds. *)
Record datetime : Type := mk_datetime {
  dt_year : Z;
  dt_month : Z;
  dt_day : Z;
  dt_time : Z
}.

(** [a <= b] on datetimes: lexicographic on (year, month, day, time). *)
Definition datetime_leb (a b : datetime) : bool :=
  if dt_year a <? dt_year b then true
  else if dt_year b <? dt_year a then false
  else if dt_month a <? dt_month b then true
  else if dt_month b <? dt_month a then false
  else if dt_day a <? dt_day b then true
  else if dt_day b <? dt_day a then false
  else dt_time a <=? dt_time b.

(** Decimal digits of a non-negative integer, left-padded with zeros. *)
Definition zero_padded (width : nat) (n : Z) : string :=
  let digits := NilZero.string_of_uint (N.to_uint (Z.to_N n)) in
  let missing := (width - String.length digits)%nat in
  (String.concat "" (repeat "0" missing) ++ digits)%string.

(** [d.strftime('%Y-%m-%d')]. *)
Definition strftime_ymd (d : datetime) : string :=
  (zero_padded 4 (dt_year d) ++ "-" ++ zero_padded 2 (dt_month d)
     ++ "-" ++ zero_padded 2 (dt_day d))%string.

(** A [dict] with string keys, in insertion order. *)
Definition dict : Type := list (string * string).

Fixpoint dict_get (d : dict) (k : string) : option string :=
  match d with
  | [] => None
  | (k', v) :: rest => if String.eqb k' k then Some v else dict_get rest k
  end.

(** [d[k] = v]: an existing key keeps its position. *)
Fixpoint dict_set (d : dict) (k v : string) : dict :=
  match d with
  | [] => [(k, v)]
  | (k', v') :: rest =>
      if String.eqb k' k then (k, v) :: rest else (k', v') :: dict_set rest k v
  end.

(** [k in keys]. *)
Definition str_in (k : string) (keys : list string) : bool :=
  existsb (String.eqb k) keys.

(** [x] goes in front of a list already in order, behind the elements
    that are strictly [ahead] of it and in front of all the others. *)
Fixpoint insert_by {A} (ahead : A -> A -> bool) (x : A) (l : list A)
  : list A :=
  match l with
  | [] => [x]
  | y :: rest =>
      if ahead y x then y :: insert_by ahead x rest else x :: y :: rest
  end.

(** [l.sort(key=key, reverse=True)].  Python's sort is stable, also under
    [reverse=True]; the outcome of a stable sort is fixed by the keys and
    the input order, so insertion from the right computes the same list. *)
Definition sort_desc {A} (key : A -> Q) (l : list A) : list A :=
  fold_right (insert_by (fun y x => gt (key y) (key x))) [] l.

Definition bind_result {A B} (m : result A) (k : A -> result B)
  : result B :=
  match m with
  | inl e => inl e
  | inr a => k a
  end.

(** [[f(x) for x in xs]], stopping at the first exception. *)
Fixpoint for_each {A B} (f : A -> result B) (xs : list A)
  : result (list B) :=
  match xs with
  | [] => inr []
  | x :: rest =>
      bind_result (f x) (fun y =>
      bind_result (for_each f rest) (fun ys => inr (y :: ys)))
  end.

(** [float(x)] of a query result. *)
Definition float (x : option Q) : result Q :=
  match x with
  | Some q => inr q
  | None => inl TypeError
  end.

(** [int(x)] of an integer column read from a row: NULL arrives as
    [None], on which [int] raises TypeError. *)
Definition int (x : option Z) : result Z :=
  match x with
  | Some n => inr n
  | None => inl TypeError
  end.

End Py.

Notation "'let?' x ':=' m 'in' k" := (Py.bind_result m (fun x => k))
  (at level 10, x name, m at level 100, k at level 200).

(* ================================================================== *)
(** * The SQL that the queries use *)
(* ================================================================== *)

Module Sql.

(** [SUM(x)] over the rows of a group: NULLs are skipped, and the sum of
    no value at all is NULL. *)
Definition sum (xs : list (option Q)) : option Q :=
  fold_left (fun acc x =>
               match x, acc with
               | None, _ => acc
               | Some q, None => Some q
               | Some q, Some a => Some (a + q)%Q
               end) xs None.

(** [CASE WHEN c THEN x ELSE 0 END]. *)
Definition case_else_zero (c : bool) (x : option Q) : option Q :=
  if c then x else Some 0%Q.

(** The distinct keys, each at its first appearance. *)
Fixpoint distinct {K} (eqb : K -> K -> bool) (ks : list K) : list K :=
  match ks with
  | [] => []
  | k :: rest => k :: filter (fun k' => negb (eqb k k')) (distinct eqb rest)
  end.

(** [GROUP BY key]: one group per distinct key, holding its rows.  SQL
    leaves the order of the groups open; here it is first appearance. *)
Definition group_by {R K} (eqb : K -> K -> bool) (key : R -> K)
    (rows : list R) : list (K * list R) :=
  map (fun k => (k, filter (fun r => eqb k (key r)) rows))
      (distinct eqb (map key rows)).

(** [ORDER BY key] ascending on an integer key. *)
Definition order_by {R} (key : R -> Z) (rows : list R) : list R :=
  fold_right (Py.insert_by (fun y x => key y <? key x)) [] rows.

(** Equality of nullable integers and numbers as grouping keys (NULLs
    group together). *)
Definition opt_Z_eqb (a b : option Z) : bool :=
  match a, b with
  | None, None => true
  | Some x, Some y => x =? y
  | _, _ => false
  end.

Definition opt_Q_eqb (a b : option Q) : bool :=
  match a, b with
  | None, None => true
  | Some x, Some y => Qeq_bool x y
  | _, _ => false
  end.

End Sql.

(* ================================================================== *)
(** * models.py *)
(* ================================================================== *)

Module Models.

Record User : Type := mk_User {
  user_id : Z;
  username : string;
  role : string
}.

Record PerformanceTarget : Type := mk_PerformanceTarget {
  pt_id : Z;
  pt_user_id : option Z;
  target_amount : option Q
}.

Record TaxEntry : Type := mk_TaxEntry {
  id : Z;
  tax_item : option string;
  subhead : option string;
  rrr : option string;
  paydirect_ref : option string;
  rrr_verified : bool;
  paydirect_verified : bool;
  rrr_amount : option Q;
  paydirect_amount : option Q;
  uploaded_by : Z;
  data : Py.dict;
  date_uploaded : Py.datetime;
  month : option Z;
  year : option Z
}.

(** The tables read and written by the routes. *)
Record Database : Type := mk_Database {
  users : list User;
  targets : list PerformanceTarget;
  tax_entries : list TaxEntry
}.

End Models.

(* ================================================================== *)
(** * Environment and state *)
(* ================================================================== *)

Module Sys.
Import Py Models.

(** What [data.get("amount", 0)] holds in a decoded JSON object.  Numbers
    are rationals here: an amount that float() reads as nan or inf has no
    counterpart and is not among the answers of a provider. *)
Inductive JsonAmount : Type :=
| AmountMissing                    (* no such key: the default 0 *)
| AmountNumber (q : Q)             (* a number or a string of which float()
                                      is the finite value [q] *)
| AmountUnreadable                 (* a string float() rejects: ValueError *)
| AmountOverflow                   (* an integer beyond the range of float:
                                      OverflowError *)
| AmountNotNumeric.                (* null, array or object: TypeError *)

(** What one HTTP exchange with a payment provider comes to. *)
Inductive HttpOutcome : Type :=
| RequestFailed                    (* requests.get / raise_for_status raised *)
| NotJson                          (* another content type: data = {} *)
| BadJson                          (* response.json() raised ValueError *)
| JsonNotObject                    (* decoded, but not a dict *)
| JsonObject (status : option string) (amount : JsonAmount).

Inductive Channel : Type := Remita | PayDirect.

(** One invocation of a verifier of payment_api.py. *)
Record VerifierCall : Type := mk_call {
  call_channel : Channel;
  call_reference : option string
}.

Record Env : Type := mk_Env {
  USE_LIVE_API : bool;
  (** provider answers; the first argument counts the earlier verifier calls *)
  remita_api : nat -> string -> HttpOutcome;
  interswitch_api : nat -> string -> HttpOutcome;
  (** raw output of the random generator, by draw *)
  entropy : nat -> Z;
  (** [datetime.utcnow()], by read *)
  clock : nat -> datetime;
  (** [datetime.strptime(s, "%Y-%m-%d")]; [None] is its ValueError *)
  strptime_ymd : string -> option datetime;
  (** the storage engine's [column >= text] and [column <= text] on a
      DateTime column compared with the raw request string *)
  column_ge : datetime -> string -> bool;
  column_le : datetime -> string -> bool
}.

Record World : Type := mk_World {
  db : Database;
  verifier_calls : list VerifierCall;
  draws : nat;
  ticks : nat
}.

(** Computations that read and write the world and may raise. *)
Definition M (A : Type) : Type := World -> result A * World.

Definition ret {A} (a : A) : M A := fun w => (inr a, w).

Definition raise {A} (e : exn) : M A := fun w => (inl e, w).

Definition bind {A B} (m : M A) (k : A -> M B) : M B :=
  fun w =>
    match m w with
    | (inl e, w') => (inl e, w')
    | (inr a, w') => k a w'
    end.

Definition set_db (d : Database) (w : World) : World :=
  mk_World d (verifier_calls w) (draws w) (ticks w).

Definition set_tax_entries (es : list TaxEntry) (w : World) : World :=
  set_db (mk_Database (users (db w)) (targets (db w)) es) w.

(** [datetime.utcnow()]. *)
Definition utcnow (env : Env) : M datetime :=
  fun w => (inr (clock env (ticks w)),
            mk_World (db w) (verifier_calls w) (draws w) (S (ticks w))).

(** [random.randint(a, b)]: an integer of [a..b]. *)
Definition randint (env : Env) (a b : Z) : M Z :=
  fun w => (inr (a + entropy env (draws w) mod (b - a + 1)),
            mk_World (db w) (verifier_calls w) (S (draws w)) (ticks w)).

(** Ghost step: note that a verifier was entered. *)
Definition note_call (c : Channel) (ref : option string) : M unit :=
  fun w => (inr tt,
            mk_World (db w) (verifier_calls w ++ [mk_call c ref])
                     (draws w) (ticks w)).

End Sys.

Declare Scope world_scope.
Delimit Scope world_scope with world.
Notation "x <- m ;; k" := (Sys.bind m (fun x => k))
  (at level 61, m at next level, right associativity) : world_scope.
Notation "m ;;; k" := (Sys.bind m (fun _ => k))
  (at level 61, right associativity) : world_scope.

(* ================================================================== *)
(** * payment_api.py *)
(* ================================================================== *)

Module Payment_api.
Import Py Models Sys.
Local Open Scope world_scope.

(** The dict both verifiers return. *)
Record Verification : Type := mk_Verification {
  verified : bool;
  amount : Q
}.

Definition unverified : Verification := mk_Verification false 0%Q.

(** The body of [try: ... except (RequestException, ValueError)] once the
    exchange is over; OverflowError, TypeError and AttributeError are not
    among the exceptions that the handler catches. *)
Definition live_answer (o : HttpOutcome) : result Verification :=
  match o with
  | RequestFailed => inr unverified
  | BadJson => inr unverified
  | NotJson => inr (mk_Verification false 0%Q)
  | JsonNotObject => inl AttributeError
  | JsonObject status amt =>
      let ok := opt_str_eqb status (Some "SUCCESS") in
      match amt with
      | AmountMissing => inr (mk_Verification ok 0%Q)
      | AmountNumber q => inr (mk_Verification ok q)
      | AmountUnreadable => inr unverified
      | AmountOverflow => inl OverflowError
      | AmountNotNumeric => inl TypeError
      end
  end.

Section Verifiers.
Variable env : Env.

Definition verify_remita_rrr (rrr : option string) : M Verification :=
  note_call Remita rrr ;;;
  if negb (truthy_str rrr) then ret unverified
  else if USE_LIVE_API env then
    fun w => (live_answer
                (remita_api env (List.length (verifier_calls w) - 1)
                            (str_of rrr)), w)
  else
    mock_amount <- randint env 10000 200000 ;;
    ret (mk_Verification true (inject_Z mock_amount)).

Definition verify_paydirect_reference (reference : option string)
  : M Verification :=
  note_call PayDirect reference ;;;
  if negb (truthy_str reference) then ret unverified
  else if USE_LIVE_API env then
    fun w => (live_answer
                (interswitch_api env (List.length (verifier_calls w) - 1)
                                 (str_of reference)), w)
  else
    mock_amount <- randint env 15500 502000 ;;
    ret (mk_Verification true (inject_Z mock_amount)).

End Verifiers.

End Payment_api.

(* ================================================================== *)
(** * app.py: aggregation and ranking *)
(* ================================================================== *)

Module App.
Import Py Models Sys Payment_api.

Definition is_ato (u : User) : bool := String.eqb (role u) "ato".

(** [TaxEntry.query.filter_by(uploaded_by=uid).all()]. *)
Definition entries_of (d : Database) (uid : Z) : list TaxEntry :=
  filter (fun e => uploaded_by e =? uid) (tax_entries d).

(** [get_target_for_ato]: the amount of the first target of the user, 0
    when there is none. *)
Definition get_target_for_ato (d : Database) (user : User) : option Q :=
  match find (fun t => Sql.opt_Z_eqb (pt_user_id t) (Some (user_id user)))
             (targets d) with
  | Some target_record => target_amount target_record
  | None => Some 0%Q
  end.

(* ---------------------------------------------------------------- *)
(** ** get_league_table_data *)

Record LeagueDataRow : Type := mk_LeagueDataRow {
  ato_name : string;
  target : Q;
  total_returns : Q;
  percent_met : Q
}.

(** [sum((e.rrr_amount or 0) + (e.paydirect_amount or 0) for e in entries
        if e.rrr_verified or e.paydirect_verified)]. *)
Definition sum_of_verified_entries (entries : list TaxEntry) : Q :=
  Py.sum (map (fun e => (or_zero (rrr_amount e)
                         + or_zero (paydirect_amount e))%Q)
              (filter (fun e => rrr_verified e || paydirect_verified e)
                      entries)).

(** [round((total / target * 100), ndigits) if target else 0]. *)
Definition percent_if_target (ndigits : nat) (total : Q)
    (target : option Q) : result Q :=
  if truthy_num target then
    match target with
    | Some t => let? q := truediv total t in inr (round (q * 100) ndigits)
    | None => inl TypeError
    end
  else inr 0%Q.

Definition get_league_table_data (d : Database)
  : result (list LeagueDataRow) :=
  let all_atos := filter is_ato (users d) in
  let? league :=
    for_each (fun ato =>
      let entries := entries_of d (user_id ato) in
      let total_returns := sum_of_verified_entries entries in
      let target := get_target_for_ato d ato in
      let? percent_met := percent_if_target 2 total_returns target in
      inr (mk_LeagueDataRow (username ato) (or_zero target)
                            total_returns percent_met))
      all_atos in
  inr (sort_desc percent_met league).

(* ---------------------------------------------------------------- *)
(** ** get_user_summary *)

Record UserSummary : Type := mk_UserSummary {
  rrr_total : Q;
  paydirect_total : Q;
  total_amount : Q
}.

Definition get_user_summary (d : Database) (uid : Z) : UserSummary :=
  let rows :=
    filter (fun e => (uploaded_by e =? uid)
                     && (rrr_verified e || paydirect_verified e))
           (tax_entries d) in
  let rrr_total := or_zero (Sql.sum (map rrr_amount rows)) in
  let paydirect_total := or_zero (Sql.sum (map paydirect_amount rows)) in
  mk_UserSummary rrr_total paydirect_total (rrr_total + paydirect_total)%Q.

(* ---------------------------------------------------------------- *)
(** ** dashboards, the admin and chairman branch: the summary of an ATO *)

Record AtoSummary : Type := mk_AtoSummary {
  s_username : string;
  s_rrr_total : Q;
  s_paydirect_total : Q;
  s_total_amount : Q;
  s_target : Q;
  s_percent : Q
}.

(** [sum(e.rrr_amount or 0 for e in entries if e.rrr_verified)]. *)
Definition verified_rrr_total (entries : list TaxEntry) : Q :=
  Py.sum (map (fun e => or_zero (rrr_amount e))
              (filter rrr_verified entries)).

(** [sum(e.paydirect_amount or 0 for e in entries if e.paydirect_verified)]. *)
Definition verified_paydirect_total (entries : list TaxEntry) : Q :=
  Py.sum (map (fun e => or_zero (paydirect_amount e))
              (filter paydirect_verified entries)).

(* ---------------------------------------------------------------- *)
(** ** league_table *)

(** A row of [User JOIN TaxEntry LEFT OUTER JOIN PerformanceTarget]. *)
Definition Joined : Type := (User * TaxEntry * option PerformanceTarget)%type.

Definition j_user (j : Joined) : User := fst (fst j).
Definition j_entry (j : Joined) : TaxEntry := snd (fst j).
Definition j_target_amount (j : Joined) : option Q :=
  match snd j with
  | Some t => target_amount t
  | None => None
  end.

(** The targets that the outer join pairs with a user: all that point to
    the user, or one NULL row when none does. *)
Definition outer_targets (d : Database) (u : User)
  : list (option PerformanceTarget) :=
  match filter (fun t => Sql.opt_Z_eqb (pt_user_id t) (Some (user_id u)))
               (targets d) with
  | [] => [None]
  | ts => map Some ts
  end.

Definition league_join (d : Database) : list Joined :=
  flat_map (fun u =>
    flat_map (fun e =>
      if user_id u =? uploaded_by e
      then map (fun t => (u, e, t)) (outer_targets d u)
      else [])
      (tax_entries d))
    (users d).

(** The columns of the query before enrichment. *)
Record LeagueQueryRow : Type := mk_LeagueQueryRow {
  q_user_id : Z;
  q_ATO : string;
  q_RRR : option Q;
  q_Paydirect : option Q;
  q_Target : option Q
}.

Definition LeagueKey : Type := (Z * string * option Q)%type.

Definition league_key (j : Joined) : LeagueKey :=
  (user_id (j_user j), username (j_user j), j_target_amount j).

Definition league_key_eqb (a b : LeagueKey) : bool :=
  (fst (fst a) =? fst (fst b))
  && String.eqb (snd (fst a)) (snd (fst b))
  && Sql.opt_Q_eqb (snd a) (snd b).

Definition league_query (env : Env) (d : Database)
    (from_date to_date : option string) : list LeagueQueryRow :=
  let query := filter (fun j => is_ato (j_user j)) (league_join d) in
  let query :=
    if truthy_str from_date
    then filter (fun j => column_ge env (date_uploaded (j_entry j))
                                    (str_of from_date)) query
    else query in
  let query :=
    if truthy_str to_date
    then filter (fun j => column_le env (date_uploaded (j_entry j))
                                    (str_of to_date)) query
    else query in
  map (fun kg : LeagueKey * list Joined =>
         let (k, g) := kg in
         mk_LeagueQueryRow
           (fst (fst k)) (snd (fst k))
           (Sql.sum (map (fun j => Sql.case_else_zero
                                     (rrr_verified (j_entry j))
                                     (rrr_amount (j_entry j))) g))
           (Sql.sum (map (fun j => Sql.case_else_zero
                                     (paydirect_verified (j_entry j))
                                     (paydirect_amount (j_entry j))) g))
           (snd k))
      (Sql.group_by league_key_eqb league_key query).

Record LeagueRow : Type := mk_LeagueRow {
  l_user_id : Z;
  l_ATO : string;
  l_RRR : Q;
  l_Paydirect : Q;
  l_Target : Q;
  l_Actual : Q;
  l_Percent : Q
}.

(** [round((total / target * 100), 2) if target > 0 else 0]. *)
Definition percent_if_positive (total target : Q) : result Q :=
  if gt target 0
  then let? q := truediv total target in inr (round (q * 100) 2)
  else inr 0%Q.

Definition enrich (entry : LeagueQueryRow) : result LeagueRow :=
  let rrr := or_zero (q_RRR entry) in
  let paydirect := or_zero (q_Paydirect entry) in
  let target := or_zero (q_Target entry) in
  let total := (rrr + paydirect)%Q in
  let? percent := percent_if_positive total target in
  inr (mk_LeagueRow (q_user_id entry) (q_ATO entry) rrr paydirect
                    target total percent).

(** The [league] handed to the template by the route. *)
Definition league_table (env : Env) (d : Database)
    (from_date to_date : option string) : result (list LeagueRow) :=
  let league := league_query env d from_date to_date in
  let? enriched_league := for_each enrich league in
  inr (sort_desc l_Percent enriched_league).

(* ---------------------------------------------------------------- *)
(** ** dashboard, admin view: enrichment and ordering of the league rows
    that its query returned *)

Record DashboardRow : Type := mk_DashboardRow {
  d_row : LeagueQueryRow;
  d_Percent : Q;
  d_Actual : Q
}.

Definition dashboard_league (league_table : list LeagueQueryRow)
  : result (list DashboardRow) :=
  let? enriched_league :=
    for_each (fun entry =>
      let total := (or_zero (q_RRR entry) + or_zero (q_Paydirect entry))%Q in
      let target := or_zero (q_Target entry) in
      let? percent := percent_if_target 1 total (Some target) in
      inr (mk_DashboardRow entry percent total))
      league_table in
  inr (sort_desc d_Percent enriched_league).

(* ---------------------------------------------------------------- *)
(** ** get_analytics_data_filtered *)

(** A row of the grouped query: the month of the group and its two sums. *)
Record MonthSums : Type := mk_MonthSums {
  g_month : Z;
  g_rrr : option Q;
  g_paydirect : option Q
}.

(** [extract('month', TaxEntry.date_uploaded)]. *)
Definition month_of (e : TaxEntry) : Z := dt_month (date_uploaded e).

Definition monthly_sums (query : list TaxEntry) : list MonthSums :=
  Sql.order_by g_month
    (map (fun kg : Z * list TaxEntry =>
            let (k, g) := kg in
            mk_MonthSums k
              (Sql.sum (map (fun e => Sql.case_else_zero (rrr_verified e)
                                                         (rrr_amount e)) g))
              (Sql.sum (map (fun e => Sql.case_else_zero
                                        (paydirect_verified e)
                                        (paydirect_amount e)) g)))
         (Sql.group_by Z.eqb month_of query)).

Record AnalyticsRow : Type := mk_AnalyticsRow {
  a_month : Z;
  a_month_name : string;
  a_rrr : Q;
  a_paydirect : Q;
  a_total : Q
}.

(** [datetime.strptime(s, "%Y-%m-%d")]. *)
Definition strptime (env : Env) (s : string) : result datetime :=
  match strptime_ymd env s with
  | Some d => inr d
  | None => inl ValueError
  end.

(** [next((float(col(r)) for r in results if int(r.month) == m), 0)]. *)
Definition first_of_month (results : list MonthSums)
    (col : MonthSums -> option Q) (m : Z) : result Q :=
  match find (fun r => g_month r =? m) results with
  | Some r => float (col r)
  | None => inr 0%Q
  end.

(** The entries that the two optional [filter] calls leave. *)
Definition entries_in_range (env : Env) (d : Database)
    (from_date to_date : option string) : result (list TaxEntry) :=
  let query := tax_entries d in
  let? query :=
    if truthy_str from_date then
      let? from_date_obj := strptime env (str_of from_date) in
      inr (filter (fun e => datetime_leb from_date_obj (date_uploaded e))
                  query)
    else inr query in
  if truthy_str to_date then
    let? to_date_obj := strptime env (str_of to_date) in
    inr (filter (fun e => datetime_leb (date_uploaded e) to_date_obj)
                query)
  else inr query.

(** The body of [for m in range(1, 13)]. *)
Definition month_row (results : list MonthSums) (m : Z)
  : result AnalyticsRow :=
  let? rrr := first_of_month results g_rrr m in
  let? paydirect := first_of_month results g_paydirect m in
  let total := (rrr + paydirect)%Q in
  inr (mk_AnalyticsRow m (nth (Z.to_nat m) month_name "") rrr paydirect
                       total).

Definition get_analytics_data_filtered (env : Env) (d : Database)
    (from_date to_date : option string) : result (list AnalyticsRow) :=
  let? query := entries_in_range env d from_date to_date in
  let results := monthly_sums query in
  for_each (month_row results) (range 1 13).

(* ---------------------------------------------------------------- *)
(** ** Queries that say [group_by('month')] *)

(** NULL sorts in front of every number. *)
Definition stored_month_ltb (a b : option Z) : bool :=
  match a, b with
  | None, None => false
  | None, Some _ => true
  | Some _, None => false
  | Some x, Some y => x <? y
  end.

(** In [GROUP BY month] the name is resolved to a column of [tax_entry]
    before the labels of the select list are looked at, and [tax_entry]
    has a column [month]: the groups are those of the stored month, NULL
    being a group of its own, not those of the month that the select list
    extracts from the upload date.  The engine forms the groups by sorting
    on that column and returns them in its order. *)
Definition group_by_stored_month (query : list TaxEntry)
  : list (option Z * list TaxEntry) :=
  fold_right
    (insert_by (fun y x : option Z * list TaxEntry =>
                  stored_month_ltb (fst y) (fst x)))
    []
    (Sql.group_by Sql.opt_Z_eqb Models.month query).

(** A selected column that is neither grouped nor aggregated is evaluated
    at one row of the group; the engine does not say at which, and a
    function [bare_row] stands for its choice.  This is
    [extract('month', TaxEntry.date_uploaded)] as such a column. *)
Definition bare_month (bare_row : list TaxEntry -> option TaxEntry)
    (g : list TaxEntry) : option Z :=
  match bare_row g with
  | Some e => Some (dt_month (date_uploaded e))
  | None => None
  end.



(* ---------------------------------------------------------------- *)
(** ** get_analytics_data: the series by year and month *)



Section Grouped.
(** The row at which the engine evaluates the label of a group. *)
Variable bare_row : list TaxEntry -> option TaxEntry.


End Grouped.

(* ---------------------------------------------------------------- *)
(** ** The entry store and the routes that write to it *)

Local Open Scope world_scope.

(** The message flashed before the redirect. *)
Inductive Flash : Type :=
| RrrAlreadyUsed          (* "This Remita RRR has already been used. ..." *)
| PayDirectAlreadyUsed    (* "This PayDirect reference has already been used. ..." *)
| EntrySubmitted          (* "<tax_item> entry submitted successfully." *)
| DuplicateNotSaved       (* IntegrityError: "Duplicate RRR or PayDirect
                             reference detected. Entry not saved." *)
| EntryDeleted            (* "Entry deleted successfully." *)
| CannotDeleteVerified    (* "Cannot delete verified entry." *)
| VerificationUpdated.    (* "Verification updated.", before
                             [url_for('my_submissions')] *)

Inductive Response : Type :=
| Redirect (endpoint : string) (flashed : Flash)
| NotFound.               (* get_or_404 aborted with 404 *)

(** [request.form.get(key)]: the first value sent for the key. *)
Definition form_get (form : dict) (key : string) : option string :=
  dict_get form key.

(** [request.form.items()]: every key once, with its first value. *)
Fixpoint form_items (form : dict) : dict :=
  match form with
  | [] => []
  | (k, v) :: rest =>
      (k, v) :: filter (fun kv => negb (String.eqb k (fst kv)))
                       (form_items rest)
  end.

(** [TaxEntry.query.filter(p).first()]. *)
Definition query_first (p : TaxEntry -> bool) : M (option TaxEntry) :=
  fun w => (inr (find p (tax_entries (db w))), w).

(** The primary key that the table gives to the next row. *)
Definition next_id (es : list TaxEntry) : Z :=
  1 + fold_right Z.max 0 (map id es).

(** The two UNIQUE columns: a non-NULL reference may occur once. *)
Definition breaks_unique (rrr' paydirect' : option string)
    (es : list TaxEntry) : bool :=
  existsb (fun e =>
             match rrr' with
             | Some r => opt_str_eqb (rrr e) (Some r)
             | None => false
             end
             || match paydirect' with
                | Some r => opt_str_eqb (paydirect_ref e) (Some r)
                | None => false
                end) es.

(** [db.session.add(new_entry); db.session.commit()]: [true] when the row
    is stored, [false] when the commit raised IntegrityError and was
    rolled back. *)
Definition add_and_commit (new_entry : Z -> TaxEntry) : M bool :=
  fun w =>
    let es := tax_entries (db w) in
    let row := new_entry (next_id es) in
    if breaks_unique (rrr row) (paydirect_ref row) es
    then (inr false, w)
    else (inr true, set_tax_entries (es ++ [row]) w).

(** The endpoints of the application: the view functions that app.py
    registers with [@app.route]. *)
Definition endpoints : list string :=
  ["index"; "logout"; "login"; "dashboard"; "download_submissions";
   "dashboards"; "manage_users"; "create_user"; "view_entries"; "edit_user";
   "delete_user"; "enter_tax_data"; "submit_tax_item"; "delete_entry";
   "performance_tracker"; "analytics_dashboard"; "analytics_admin";
   "export_analytics"; "league_table"; "create_ato"; "compare_atos";
   "ato_detail"; "submit_entry"; "reverify_entry"; "export_excel";
   "export_pdf"].

(** [url_for(endpoint)] raises BuildError for a name that is no
    endpoint. *)
Definition url_for (endpoint : string) : M unit :=
  if str_in endpoint endpoints then ret tt else raise BuildError.

Section Routes.
Variable env : Env.

Definition submit_tax_item (current_user_id : Z) (form : dict)
  : M Response :=
  let tax_item := form_get form "tax_item" in
  let road_subhead :=
    if opt_str_eqb tax_item (Some "Road")
    then form_get form "road_subhead" else None in
  let remita_rrr := form_get form "remita_rrr" in
  let paydirect_ref := form_get form "paydirect" in
  existing_rrr <-
    (if truthy_str remita_rrr
     then query_first (fun e => opt_str_eqb (rrr e) remita_rrr)
     else ret None) ;;
  match existing_rrr with
  | Some _ => ret (Redirect "enter_tax_data" RrrAlreadyUsed)
  | None =>
  existing_paydirect <-
    (if truthy_str paydirect_ref
     then query_first (fun e => opt_str_eqb (Models.paydirect_ref e)
                                            paydirect_ref)
     else ret None) ;;
  match existing_paydirect with
  | Some _ => ret (Redirect "enter_tax_data" PayDirectAlreadyUsed)
  | None =>
  rrr_result <-
    (if truthy_str remita_rrr
     then verify_remita_rrr env remita_rrr else ret unverified) ;;
  paydirect_result <-
    (if truthy_str paydirect_ref
     then verify_paydirect_reference env paydirect_ref
     else ret unverified) ;;
  today <- utcnow env ;;
  let date_of_collection := strftime_ymd today in
  let rrr_verified := verified rrr_result in
  let rrr_amount := amount rrr_result in
  let paydirect_verified := verified paydirect_result in
  let paydirect_amount := amount paydirect_result in
  let data :=
    filter (fun kv =>
              negb (str_in (fst kv)
                      ["tax_item"; "road_subhead"; "remita_rrr";
                       "paydirect"]))
           (form_items form) in
  let data := dict_set data "date_of_collection" date_of_collection in
  now <- utcnow env ;;
  let month := dt_month now in
  let year := dt_year now in
  uploaded <- utcnow env ;;
  stored <- add_and_commit (fun new_id =>
    mk_TaxEntry new_id tax_item road_subhead remita_rrr paydirect_ref
                rrr_verified paydirect_verified
                (Some rrr_amount) (Some paydirect_amount)
                current_user_id data uploaded (Some month) (Some year)) ;;
  if stored
  then ret (Redirect "enter_tax_data" EntrySubmitted)
  else ret (Redirect "enter_tax_data" DuplicateNotSaved)
  end
  end.

(** [db.session.delete(entry); db.session.commit()]. *)
Definition delete_and_commit (entry : TaxEntry) : M unit :=
  fun w =>
    (inr tt,
     set_tax_entries
       (filter (fun e => negb (id e =? id entry)) (tax_entries (db w))) w).

Definition delete_entry (entry_id : Z) : M Response :=
  found <- query_first (fun e => id e =? entry_id) ;;
  match found with
  | None => ret NotFound
  | Some entry =>
      if negb (rrr_verified entry) && negb (paydirect_verified entry)
      then delete_and_commit entry ;;;
           ret (Redirect "enter_tax_data" EntryDeleted)
      else ret (Redirect "enter_tax_data" CannotDeleteVerified)
  end.

(** [entry.rrr_verified = ...; entry.rrr_amount = ...]. *)
Definition set_rrr_result (e : TaxEntry) (r : Verification) : TaxEntry :=
  mk_TaxEntry (id e) (tax_item e) (subhead e) (rrr e) (paydirect_ref e)
              (verified r) (paydirect_verified e)
              (Some (amount r)) (paydirect_amount e)
              (uploaded_by e) (data e) (date_uploaded e)
              (month e) (year e).

(** [entry.paydirect_verified = ...; entry.paydirect_amount = ...]. *)
Definition set_paydirect_result (e : TaxEntry) (r : Verification)
  : TaxEntry :=
  mk_TaxEntry (id e) (tax_item e) (subhead e) (rrr e) (paydirect_ref e)
              (rrr_verified e) (verified r)
              (rrr_amount e) (Some (amount r))
              (uploaded_by e) (data e) (date_uploaded e)
              (month e) (year e).

(** [db.session.commit()] of a changed entry: the row with its primary
    key is rewritten in place. *)
Definition commit_entry (entry : TaxEntry) : M unit :=
  fun w =>
    (inr tt,
     set_tax_entries
       (map (fun e => if id e =? id entry then entry else e)
            (tax_entries (db w))) w).

Definition reverify_entry (entry_id : Z) : M Response :=
  found <- query_first (fun e => id e =? entry_id) ;;
  match found with
  | None => ret NotFound
  | Some entry =>
      entry <-
        (if truthy_str (rrr entry)
         then rrr_result <- verify_remita_rrr env (rrr entry) ;;
              ret (set_rrr_result entry rrr_result)
         else ret entry) ;;
      entry <-
        (if truthy_str (paydirect_ref entry)
         then paydirect_result <-
                verify_paydirect_reference env (paydirect_ref entry) ;;
              ret (set_paydirect_result entry paydirect_result)
         else ret entry) ;;
      commit_entry entry ;;;
      url_for "my_submissions" ;;;
      ret (Redirect "my_submissions" VerificationUpdated)
  end.

End Routes.

End App.

(* ================================================================== *)
(** * app.py: further routes *)
(* ================================================================== *)

Module Views.
Import Py Models Sys Payment_api App.
Local Open Scope world_scope.

(* ------------------------------------------------------------------ *)
(** ** submit_entry *)

(** The message flashed before [redirect(url_for('my_submissions'))]. *)
Inductive EntryFlash : Type :=
| EntrySaved              (* "Entry submitted successfully." *)
| ErrorSavingEntry.       (* "Error saving entry: ..." after the rollback *)

(** The route up to its last statement: what it stores and flashes. *)
Definition save_entry (env : Env) (current_user_id : Z) (form : dict)
  : M EntryFlash :=
  let rrr := form_get form "rrr" in
  let paydirect_ref := form_get form "paydirect_ref" in
  rrr_result <-
    (if truthy_str rrr then verify_remita_rrr env rrr else ret unverified) ;;
  paydirect_result <-
    (if truthy_str paydirect_ref
     then verify_paydirect_reference env paydirect_ref
     else ret unverified) ;;
  uploaded <- utcnow env ;;
  stored <- add_and_commit (fun new_id =>
    mk_TaxEntry new_id (form_get form "tax_item") (form_get form "subhead")
                rrr paydirect_ref
                (verified rrr_result) (verified paydirect_result)
                (Some (amount rrr_result)) (Some (amount paydirect_result))
                current_user_id (form_items form) uploaded None None) ;;
  if stored then ret EntrySaved else ret ErrorSavingEntry.

(** The route: its last statement asks for the URL of [my_submissions],
    which app.py does not define. *)
Definition submit_entry (env : Env) (current_user_id : Z) (form : dict)
  : M EntryFlash :=
  flashed <- save_entry env current_user_id form ;;
  url_for "my_submissions" ;;;
  ret flashed.

(* ------------------------------------------------------------------ *)
(** ** dashboard, admin view: totals and leaders of the sorted league *)

Record DashboardTotals : Type := mk_DashboardTotals {
  total_rrr : Q;
  total_paydirect : Q;
  grand_total : Q;
  avg_percent : Q;
  top5_labels : list string;
  top5_values : list Q;
  bottom5_labels : list string;
  bottom5_values : list Q
}.

(** [l[-n:]]: the last [n] elements; [l[-0:]] is the whole list. *)
Definition slice_last {A} (n : nat) (l : list A) : list A :=
  if (n =? 0)%nat then l else skipn (List.length l - n) l.

Definition dashboard_totals (enriched_league : list DashboardRow)
  : Py.result DashboardTotals :=
  let total_rrr :=
    Py.sum (map (fun r => or_zero (q_RRR (d_row r))) enriched_league) in
  let total_paydirect :=
    Py.sum (map (fun r => or_zero (q_Paydirect (d_row r))) enriched_league) in
  let total_all := (total_rrr + total_paydirect)%Q in
  let? avg_percent :=
    match enriched_league with
    | [] => inr 0%Q
    | _ :: _ =>
        let? q := truediv (Py.sum (map d_Percent enriched_league))
                          (inject_Z (Z.of_nat (List.length enriched_league))) in
        inr (round q 1)
    end in
  let top_5 := firstn 5 enriched_league in
  let bottom_5 :=
    if (5 <=? List.length enriched_league)%nat
    then slice_last 5 enriched_league
    else slice_last (List.length enriched_league) enriched_league in
  inr (mk_DashboardTotals total_rrr total_paydirect total_all avg_percent
         (map (fun r => q_ATO (d_row r)) top_5) (map d_Percent top_5)
         (map (fun r => q_ATO (d_row r)) bottom_5) (map d_Percent bottom_5)).

(* ------------------------------------------------------------------ *)
(** ** analytics_dashboard: the chart of the current user *)

(** [func.coalesce(x, 0)]. *)
Definition coalesce (x : option Q) : Q :=
  match x with
  | Some q => q
  | None => 0%Q
  end.

(** A dict with integer keys, in insertion order. *)
Fixpoint int_dict_set (d : list (Z * Q)) (k : Z) (v : Q) : list (Z * Q) :=
  match d with
  | [] => [(k, v)]
  | (k', v') :: rest =>
      if k' =? k then (k, v) :: rest else (k', v') :: int_dict_set rest k v
  end.

Fixpoint int_dict_get (d : list (Z * Q)) (k : Z) : option Q :=
  match d with
  | [] => None
  | (k', v) :: rest => if k' =? k then Some v else int_dict_get rest k
  end.

(** [request.args.get('month', type=int)] is [None] for a missing or
    unreadable parameter; [if month:] also skips 0. *)
Definition truthy_int (x : option Z) : bool :=
  match x with
  | None => false
  | Some n => negb (n =? 0)
  end.

Section Charts.
(** The row at which the engine evaluates the month of a group. *)
Variable bare_row : list TaxEntry -> option TaxEntry.

Definition analytics_chart (d : Database) (current_user_id : Z)
    (month : option Z) : Py.result (list (Z * Q)) :=
  let chart_query := entries_of d current_user_id in
  let chart_query :=
    if truthy_int month
    then filter (fun e => Sql.opt_Z_eqb (Some (month_of e)) month) chart_query
    else chart_query in
  let monthly_data :=
    map (fun kg : option Z * list TaxEntry =>
           (bare_month bare_row (snd kg),
            Sql.sum (map (fun e => Some (coalesce (rrr_amount e)
                                         + coalesce (paydirect_amount e))%Q)
                         (snd kg))))
        (group_by_stored_month chart_query) in
  let? mon_map :=
    fold_left (fun acc mt =>
                 let? dict := acc in
                 let? m := int (fst mt) in
                 let? t := float (snd mt) in
                 inr (int_dict_set dict m t))
              monthly_data (inr []) in
  inr (map (fun m => (m, match int_dict_get mon_map m with
                         | Some t => t
                         | None => 0%Q
                         end))
           (range 1 13)).

End Charts.

(* ------------------------------------------------------------------ *)
(** ** dashboard, the view of an ATO *)

(** What the view can raise: an index outside [calendar.month_name], or
    an exception of the shared helpers. *)
Inductive ViewError : Type :=
| IndexError
| Raised (e : exn).

Definition lift {A} (m : Py.result A) : ViewError + A :=
  match m with
  | inl e => inl (Raised e)
  | inr a => inr a
  end.

(** [calendar.month_name[i]]: thirteen names, the first one empty;
    negative indices count from the end. *)
Definition month_name_at (i : Z) : ViewError + string :=
  if (0 <=? i) && (i <? 13)
  then inr (nth (Z.to_nat i) month_name "")
  else if (-13 <=? i) && (i <? 0)
  then inr (nth (Z.to_nat (13 + i)) month_name "")
  else inl IndexError.

(** [[calendar.month_name[int(row.month)] for row in monthly_data]]. *)
Fixpoint month_labels (rows : list MonthSums) : ViewError + list string :=
  match rows with
  | [] => inr []
  | row :: rest =>
      match month_name_at (g_month row) with
      | inl e => inl e
      | inr name =>
          match month_labels rest with
          | inl e => inl e
          | inr names => inr (name :: names)
          end
      end
  end.

(** [ORDER BY date_uploaded DESC]; entries uploaded at the same instant
    are left in table order. *)
Definition order_by_date_desc (rows : list TaxEntry) : list TaxEntry :=
  fold_right
    (insert_by (fun y x =>
                  negb (datetime_leb (date_uploaded y) (date_uploaded x))))
    [] rows.

Record AtoDashboard : Type := mk_AtoDashboard {
  v_target : Q;
  v_total : Q;
  v_percent : Q;
  v_records : list TaxEntry;
  v_chart_labels : list string;
  v_ebills_values : list Q;
  v_paydirect_values : list Q;
  v_total_values : list Q
}.

Definition dashboard_ato (d : Database) (current_user : User)
  : ViewError + AtoDashboard :=
  let entries :=
    order_by_date_desc (entries_of d (user_id current_user)) in
  let total_returns := sum_of_verified_entries entries in
  let target := get_target_for_ato d current_user in
  let target_amount := or_zero target in
  match lift (percent_if_target 2 total_returns (Some target_amount)) with
  | inl e => inl e
  | inr percent_met =>
      let monthly_data :=
        monthly_sums (entries_of d (user_id current_user)) in
      match month_labels monthly_data with
      | inl e => inl e
      | inr chart_labels =>
          let ebills_values :=
            map (fun row => or_zero (g_rrr row)) monthly_data in
          let paydirect_values :=
            map (fun row => or_zero (g_paydirect row)) monthly_data in
          let total_values :=
            map (fun xy => (fst xy + snd xy)%Q)
                (combine ebills_values paydirect_values) in
          inr (mk_AtoDashboard target_amount total_returns percent_met
                 entries chart_labels ebills_values paydirect_values
                 total_values)
      end
  end.

(* ------------------------------------------------------------------ *)
(** ** dashboards, the admin and chairman branch *)

(** The position of [chart_data[i]]: a negative index counts from the
    end, and an index outside the list is an IndexError. *)
Definition list_index {A} (l : list A) (i : Z) : option nat :=
  let n := Z.of_nat (List.length l) in
  if (0 <=? i) && (i <? n) then Some (Z.to_nat i)
  else if (- n <=? i) && (i <? 0) then Some (Z.to_nat (n + i))
  else None.

Fixpoint list_set {A} (l : list A) (pos : nat) (x : A) : list A :=
  match l, pos with
  | [], _ => []
  | _ :: rest, O => x :: rest
  | y :: rest, S p => y :: list_set rest p x
  end.

(** [chart_data[int(month)-1] += float(total)]: the index is evaluated
    and the element read before [float(total)] is evaluated. *)
Definition chart_add (chart_data : list Q) (row : option Z * option Q)
  : ViewError + list Q :=
  match lift (int (fst row)) with
  | inl e => inl e
  | inr m =>
      match list_index chart_data (m - 1) with
      | None => inl IndexError
      | Some pos =>
          match lift (float (snd row)) with
          | inl e => inl e
          | inr t =>
              inr (list_set chart_data pos (nth pos chart_data 0 + t)%Q)
          end
      end
  end.

(** What the template receives; the recent records of a summary, which
    are copied from the entries, are left out. *)
Record AdminDashboards : Type := mk_AdminDashboards {
  b_summaries : list AtoSummary;
  b_chart_data : list Q
}.

Section Dashboards.
(** The row at which the engine evaluates the month of a group. *)
Variable bare_row : list TaxEntry -> option TaxEntry.

(** [func.sum(TaxEntry.rrr_amount + TaxEntry.paydirect_amount)] by
    [group_by('month')] for one uploader: a sum with a NULL operand is
    NULL. *)
Definition monthly_totals (entries : list TaxEntry)
  : list (option Z * option Q) :=
  map (fun kg : option Z * list TaxEntry =>
         (bare_month bare_row (snd kg),
          Sql.sum (map (fun e =>
                          match rrr_amount e, paydirect_amount e with
                          | Some a, Some b => Some (a + b)%Q
                          | _, _ => None
                          end) (snd kg))))
      (group_by_stored_month entries).

(** One pass of [for ato in atos]. *)
Definition dashboards_ato (d : Database) (acc : AdminDashboards)
    (ato : User) : ViewError + AdminDashboards :=
  let entries := entries_of d (user_id ato) in
  let rrr_total := verified_rrr_total entries in
  let paydirect_total := verified_paydirect_total entries in
  let combined_total := (rrr_total + paydirect_total)%Q in
  let target := or_zero (get_target_for_ato d ato) in
  match lift (percent_if_target 2 combined_total (Some target)) with
  | inl e => inl e
  | inr percent =>
      let summaries :=
        b_summaries acc
        ++ [mk_AtoSummary (username ato) rrr_total paydirect_total
                          combined_total target percent] in
      match fold_left (fun chart row =>
                         match chart with
                         | inl e => inl e
                         | inr chart_data => chart_add chart_data row
                         end)
                      (monthly_totals entries)
                      (inr (b_chart_data acc)) with
      | inl e => inl e
      | inr chart_data => inr (mk_AdminDashboards summaries chart_data)
      end
  end.

Definition dashboards_admin (d : Database) : ViewError + AdminDashboards :=
  let atos := filter is_ato (users d) in
  fold_left (fun acc ato =>
               match acc with
               | inl e => inl e
               | inr so_far => dashboards_ato d so_far ato
               end)
            atos
            (inr (mk_AdminDashboards [] (repeat 0%Q 12))).

End Dashboards.

(* ------------------------------------------------------------------ *)
(** ** performance_tracker *)

(** The target row of the user and
    [coalesce(sum(coalesce(rrr_amount, 0) + coalesce(paydirect_amount, 0)),
     0) ... .scalar() or 0]. *)
Definition performance_tracker (d : Database) (current_user_id : Z)
  : option PerformanceTarget * Q :=
  let target :=
    find (fun t => Sql.opt_Z_eqb (pt_user_id t) (Some current_user_id))
         (targets d) in
  let actual_sum :=
    or_zero
      (Some (coalesce
               (Sql.sum (map (fun e => Some (coalesce (rrr_amount e)
                                             + coalesce (paydirect_amount e))%Q)
                             (entries_of d current_user_id))))) in
  (target, actual_sum).

(* ------------------------------------------------------------------ *)
(** ** analytics_admin *)

(** A dict from strings to numbers, in insertion order. *)
Definition num_dict : Type := list (string * Q).

Fixpoint num_dict_get (d : num_dict) (k : string) : option Q :=
  match d with
  | [] => None
  | (k', v) :: rest => if String.eqb k' k then Some v else num_dict_get rest k
  end.

Fixpoint num_dict_set (d : num_dict) (k : string) (v : Q) : num_dict :=
  match d with
  | [] => [(k, v)]
  | (k', v') :: rest =>
      if String.eqb k' k then (k, v) :: rest
      else (k', v') :: num_dict_set rest k v
  end.

(** [d[k] += x]; [None] is the KeyError of a missing key. *)
Definition num_dict_add (d : num_dict) (k : string) (x : Q)
  : option num_dict :=
  match num_dict_get d k with
  | Some t => Some (num_dict_set d k (t + x)%Q)
  | None => None
  end.

(** The body of [for entry in entries]. *)
Definition count_entry (d : Database) (ato_totals : num_dict)
    (entry : TaxEntry) : option num_dict :=
  match find (fun u => user_id u =? uploaded_by entry) (users d) with
  | None => Some ato_totals
  | Some user =>
      if negb (is_ato user) then Some ato_totals
      else
        let ato := username user in
        let ato_totals :=
          match num_dict_get ato_totals ato with
          | Some _ => ato_totals
          | None => num_dict_set ato_totals ato 0%Q
          end in
        match (if rrr_verified entry
               then num_dict_add ato_totals ato (or_zero (rrr_amount entry))
               else Some ato_totals) with
        | None => None
        | Some ato_totals =>
            if paydirect_verified entry
            then num_dict_add ato_totals ato
                              (or_zero (paydirect_amount entry))
            else Some ato_totals
        end
  end.

Inductive AdminResponse : Type :=
| AccessDenied            (* "Access denied.", redirect to [dashboard] *)
| Analytics (analytics : list (string * Q)).

(** [None] is a KeyError raised inside the loop. *)
Definition analytics_admin (d : Database) (current_user : User)
  : option AdminResponse :=
  if negb (str_in (role current_user) ["admin"; "reviewer"])
  then Some AccessDenied
  else
    match fold_left (fun acc entry =>
                       match acc with
                       | Some ato_totals => count_entry d ato_totals entry
                       | None => None
                       end)
                    (tax_entries d) (Some []) with
    | None => None
    | Some ato_totals =>
        Some (Analytics (sort_desc (fun kv => snd kv) ato_totals))
    end.

(* ------------------------------------------------------------------ *)
(** ** ato_detail *)

(** [c in s] for a single character. *)
Fixpoint has_char (c : ascii) (s : string) : bool :=
  match s with
  | EmptyString => false
  | String c' rest => Ascii.eqb c' c || has_char c rest
  end.

(** [max(ds, default=None)]: the first of the latest datetimes. *)
Definition latest (ds : list datetime) : option datetime :=
  match ds with
  | [] => None
  | d :: rest =>
      Some (fold_left (fun a b => if datetime_leb b a then a else b) rest d)
  end.

Inductive RangeFlash : Type :=
| NoRangeFlash
| InvalidDateRange.       (* "Invalid date range format. Showing all
                             records." *)

(** What the template of the detail page receives. *)
Record AtoDetail : Type := mk_AtoDetail {
  ad_total_returns : Q;
  ad_target : option Q;
  ad_percent_met : Q;
  ad_last_entry : option string;      (* [None]: the dash of an empty page *)
  ad_chart_labels : list string;
  ad_total_values : list Q;
  ad_ebills_values : list Q;
  ad_paydirect_values : list Q;
  ad_flash : RangeFlash
}.

Inductive DetailResponse : Type :=
| AtoNotFound             (* "ATO not found or invalid access.", redirect to
                             [league_table] *)
| DetailPage (page : AtoDetail).

Section AtoDetail.
Variable env : Env.
(** [datetime.strptime(s, "%Y-%m-%dT%H:%M")]; [None] is its ValueError. *)
Variable strptime_ymd_hm : string -> option datetime.

(** [strptime(s, "%Y-%m-%dT%H:%M") if "T" in s else
     strptime(s, "%Y-%m-%d")]. *)
Definition parse_bound (s : string) : option datetime :=
  if has_char "T" s then strptime_ymd_hm s else strptime_ymd env s.

Definition ato_detail (d : Database) (user_id : Z)
    (from_date_str to_date_str : option string) : Py.result DetailResponse :=
  match find (fun u => Models.user_id u =? user_id) (users d) with
  | None => inr AtoNotFound
  | Some user =>
      if negb (is_ato user) then inr AtoNotFound
      else
        let query := entries_of d (Models.user_id user) in
        let filtered :=
          if truthy_str from_date_str && truthy_str to_date_str
          then
            match parse_bound (str_of from_date_str) with
            | None => (query, InvalidDateRange)
            | Some from_date =>
                match parse_bound (str_of to_date_str) with
                | None => (query, InvalidDateRange)
                | Some to_date =>
                    (filter (fun e =>
                               datetime_leb from_date (date_uploaded e)
                               && datetime_leb (date_uploaded e) to_date)
                            query,
                     NoRangeFlash)
                end
            end
          else (query, NoRangeFlash) in
        let filtered_entries := fst filtered in
        let total_returns := sum_of_verified_entries filtered_entries in
        let target := get_target_for_ato d user in
        let? percent_met := percent_if_target 2 total_returns target in
        let last_entry :=
          match latest (map date_uploaded filtered_entries) with
          | Some last => Some (strftime_ymd last)
          | None => None
          end in
        inr (DetailPage
               (mk_AtoDetail total_returns target percent_met last_entry
                  (map (fun e => strftime_ymd (date_uploaded e))
                       filtered_entries)
                  (map (fun e => (or_zero (rrr_amount e)
                                  + or_zero (paydirect_amount e))%Q)
                       filtered_entries)
                  (map (fun e => or_zero (rrr_amount e)) filtered_entries)
                  (map (fun e => or_zero (paydirect_amount e))
                       filtered_entries)
                  (snd filtered)))
  end.

End AtoDetail.

End Views.

(* ================================================================== *)
(** * Vocabulary of the statements and sample inputs *)
(* ================================================================== *)

Module Vocab.
Import Py Models Sys Payment_api App.

(** [a] may stand in front of [b] in a list of descending keys. *)
Definition descending {A} (key : A -> Q) (a b : A) : Prop :=
  (key b <= key a)%Q.

(** Two entries that agree on the Remita channel as far as it is verified. *)
Definition same_verified_rrr (e e' : TaxEntry) : Prop :=
  rrr_verified e = rrr_verified e'
  /\ (rrr_verified e = true -> rrr_amount e = rrr_amount e').

Definition same_verified_paydirect (e e' : TaxEntry) : Prop :=
  paydirect_verified e = paydirect_verified e'
  /\ (paydirect_verified e = true -> paydirect_amount e = paydirect_amount e').

(** The entry passes the date filters of a league request. *)
Definition in_window (env : Env) (from_date to_date : option string)
    (e : TaxEntry) : bool :=
  (if truthy_str from_date
   then column_ge env (date_uploaded e) (str_of from_date) else true)
  && (if truthy_str to_date
      then column_le env (date_uploaded e) (str_of to_date) else true).

(** The targets that point to a user. *)
Definition targets_of (d : Database) (uid : Z) : list PerformanceTarget :=
  filter (fun t => Sql.opt_Z_eqb (pt_user_id t) (Some uid)) (targets d).

(** [User.id] is a primary key, and no user has two targets (the
    relationship of the model is one-to-one). *)
Definition well_keyed (d : Database) : Prop :=
  NoDup (map user_id (users d))
  /\ forall u, In u (users d) ->
               (List.length (targets_of d (user_id u)) <= 1)%nat.

(** The user has an entry inside the window. *)
Definition active_in (env : Env) (d : Database)
    (from_date to_date : option string) (uid : Z) : Prop :=
  exists e, In e (tax_entries d) /\ uploaded_by e = uid
            /\ in_window env from_date to_date e = true.

(** Every verified channel of every entry carries an amount, as in all
    entries that [submit_tax_item] and [reverify_entry] write. *)
Definition amounts_recorded (es : list TaxEntry) : Prop :=
  forall e, In e es ->
    (rrr_verified e = true -> rrr_amount e <> None)
    /\ (paydirect_verified e = true -> paydirect_amount e <> None).

(** A bound of the date range is absent, or a date that [strptime] reads. *)
Definition bound_parses (env : Env) (bound : option string) : Prop :=
  truthy_str bound = true -> strptime_ymd env (str_of bound) <> None.

(** The entry lies inside the parsed date range. *)
Definition in_date_range (env : Env) (from_date to_date : option string)
    (e : TaxEntry) : bool :=
  (if truthy_str from_date
   then match strptime_ymd env (str_of from_date) with
        | Some from_date_obj => datetime_leb from_date_obj (date_uploaded e)
        | None => true
        end
   else true)
  && (if truthy_str to_date
      then match strptime_ymd env (str_of to_date) with
           | Some to_date_obj => datetime_leb (date_uploaded e) to_date_obj
           | None => true
           end
      else true).

(** [TaxEntry.id] is a primary key. *)
Definition entries_keyed (w : World) : Prop :=
  NoDup (map id (tax_entries (db w))).

(** Everything of an entry that re-verification must leave alone. *)
Definition same_record (e e' : TaxEntry) : Prop :=
  id e' = id e /\ tax_item e' = tax_item e /\ subhead e' = subhead e
  /\ rrr e' = rrr e /\ paydirect_ref e' = paydirect_ref e
  /\ uploaded_by e' = uploaded_by e /\ data e' = data e
  /\ date_uploaded e' = date_uploaded e
  /\ month e' = month e /\ year e' = year e.

Definition channel_eqb (a b : Channel) : bool :=
  match a, b with
  | Remita, Remita => true
  | PayDirect, PayDirect => true
  | _, _ => false
  end.

(** The verifier calls made so far on one channel. *)
Definition calls_on (c : Channel) (w : World) : list VerifierCall :=
  filter (fun k => channel_eqb (call_channel k) c) (verifier_calls w).

(** In live mode both providers answer with payloads that the verifiers
    can decode (no uncaught exception). *)
Definition verifiers_return (env : Env) : Prop :=
  USE_LIVE_API env = true ->
  forall n s,
    (exists v, live_answer (remita_api env n s) = inr v)
    /\ (exists v, live_answer (interswitch_api env n s) = inr v).



(** No submitted reference is stored yet. *)
Definition references_fresh (form : dict) (es : list TaxEntry) : Prop :=
  breaks_unique (form_get form "remita_rrr") (form_get form "paydirect") es
  = false.

(** How [submit_tax_item] records a submission that it stores. *)
Definition recorded_as (env : Env) (uid : Z) (form : dict) (e : TaxEntry)
  : Prop :=
  rrr e = form_get form "remita_rrr"
  /\ paydirect_ref e = form_get form "paydirect"
  /\ uploaded_by e = uid
  /\ rrr_amount e <> None /\ paydirect_amount e <> None
  /\ (truthy_str (rrr e) = false ->
      rrr_verified e = false /\ rrr_amount e = Some 0%Q)
  /\ (truthy_str (paydirect_ref e) = false ->
      paydirect_verified e = false /\ paydirect_amount e = Some 0%Q)
  /\ (USE_LIVE_API env = false -> truthy_str (rrr e) = true ->
      rrr_verified e = true
      /\ exists a, 10000 <= a <= 200000
                   /\ rrr_amount e = Some (inject_Z a))
  /\ (USE_LIVE_API env = false -> truthy_str (paydirect_ref e) = true ->
      paydirect_verified e = true
      /\ exists a, 15500 <= a <= 502000
                   /\ paydirect_amount e = Some (inject_Z a)).




End Vocab.

Module Samples.
Import Py Models Sys Payment_api App.

Definition noon : datetime := mk_datetime 2025 3 14 43200000000.

(** Mock mode; the generator yields 0, 7919, 15838, ... *)
Definition mock_env : Env :=
  mk_Env false (fun _ _ => RequestFailed) (fun _ _ => RequestFailed)
         (fun n => Z.of_nat n * 7919) (fun _ => noon) (fun _ => None)
         (fun _ _ => true) (fun _ _ => true).

(** Live mode: Remita reports a successful payment of 1000, Interswitch
    a pending one of 5000. *)
Definition live_env : Env :=
  mk_Env true
         (fun _ _ => JsonObject (Some "SUCCESS") (AmountNumber 1000))
         (fun _ _ => JsonObject (Some "PENDING") (AmountNumber 5000))
         (fun _ => 0) (fun _ => noon) (fun _ => None)
         (fun _ _ => true) (fun _ _ => true).

Definition bob : User := mk_User 1 "bob" "ato".
Definition alice : User := mk_User 2 "alice" "ato".

(** One agent with a target of 10000 and nothing submitted yet. *)
Definition one_ato_db : Database :=
  mk_Database [bob] [mk_PerformanceTarget 1 (Some 1) (Some 10000%Q)] [].

Definition start_of (d : Database) : World := mk_World d [] 0 0.

Definition both_channels_form : dict :=
  [("tax_item", "Market"); ("remita_rrr", "RRR-123"); ("paydirect", "PD-9")].

(** A verified Remita payment of [a] by user [uid] in month [m]. *)
Definition remita_entry (i uid : Z) (ref : string) (a : Q) (m : Z)
  : TaxEntry :=
  mk_TaxEntry i (Some "Market") None (Some ref) None true false
              (Some a) (Some 0%Q) uid [] (mk_datetime 2025 m 1 0)
              (Some m) (Some 2025).

(** An entry that no provider has confirmed. *)
Definition pending_entry (i uid : Z) (ref : string) : TaxEntry :=
  mk_TaxEntry i (Some "Market") None (Some ref) None false false
              (Some 0%Q) (Some 0%Q) uid [] (mk_datetime 2025 4 2 0)
              (Some 4) (Some 2025).

(** A target below zero, as [create_ato] stores it for the input "-100". *)
Definition negative_target_db : Database :=
  mk_Database [bob] [mk_PerformanceTarget 1 (Some 1) (Some (-100)%Q)]
              [remita_entry 1 1 "RRR-1" 50 3].

(** Two agents, of whom only alice has submitted. *)
Definition idle_agent_db : Database :=
  mk_Database [bob; alice] [] [remita_entry 1 2 "RRR-1" 50 3].

(** An environment whose [strptime] reads "2025-01-01" and nothing else. *)
Definition new_year_env : Env :=
  mk_Env false (fun _ _ => RequestFailed) (fun _ _ => RequestFailed)
         (fun n => Z.of_nat n) (fun _ => noon)
         (fun s => if String.eqb s "2025-01-01"
                   then Some (mk_datetime 2025 1 1 0) else None)
         (fun _ _ => true) (fun _ _ => true).

(** One agent with payments in March and May. *)
Definition spring_db : Database :=
  mk_Database [bob] [mk_PerformanceTarget 1 (Some 1) (Some 10000%Q)]
              [remita_entry 1 1 "RRR-1" 400 3; remita_entry 2 1 "RRR-2" 250 5;
               pending_entry 3 1 "RRR-3"].

(** Two query rows with the same returns and the same target. *)
Definition tied_rows : list LeagueQueryRow :=
  [mk_LeagueQueryRow 1 "bob" (Some 50%Q) None (Some 100%Q);
   mk_LeagueQueryRow 2 "alice" (Some 50%Q) None (Some 100%Q)].

(** A store with one verified and one unverified entry. *)
Definition mixed_db : Database :=
  mk_Database [bob] [] [remita_entry 1 1 "RRR-1" 400 3; pending_entry 2 1 "RRR-2"].


(** A submission with an empty Remita field and no PayDirect field. *)
Definition no_reference_form : dict :=
  [("tax_item", "Market"); ("remita_rrr", "")].

(** A choice of the engine: the first row of the group. *)
Definition first_row (g : list TaxEntry) : option TaxEntry := hd_error g.


End Samples.

(* ================================================================== *)
(** * Further vocabulary and sample inputs *)
(* ================================================================== *)

Module Notions.
Import Py Models Sys Payment_api App Views Vocab.

(** The references of a column that are not NULL. *)
Fixpoint present (refs : list (option string)) : list string :=
  match refs with
  | [] => []
  | Some r :: rest => r :: present rest
  | None :: rest => present rest
  end.

(** The two UNIQUE columns hold no reference twice. *)
Definition references_unique (es : list TaxEntry) : Prop :=
  NoDup (present (map rrr es)) /\ NoDup (present (map paydirect_ref es)).

(** Ids are a key and references are unique. *)
Definition store_keyed (w : World) : Prop :=
  entries_keyed w /\ references_unique (tax_entries (db w)).

(** Two entries that the per-channel sums cannot tell apart. *)
Definition same_verified (e e' : TaxEntry) : Prop :=
  uploaded_by e = uploaded_by e'
  /\ same_verified_rrr e e' /\ same_verified_paydirect e e'.

(** The entries of a user inside the window of a league request. *)
Definition window_entries (env : Env) (d : Database)
    (from_date to_date : option string) (uid : Z) : list TaxEntry :=
  filter (in_window env from_date to_date) (entries_of d uid).

(** The entries of a month inside a parsed date range. *)
Definition month_entries (env : Env) (d : Database)
    (from_date to_date : option string) (m : Z) : list TaxEntry :=
  filter (fun e => month_of e =? m)
         (filter (in_date_range env from_date to_date) (tax_entries d)).

(** The entry as [reverify_entry] rewrites it after the verifications
    [v1] and [v2]; a channel without a usable reference is not touched. *)
Definition reverified (entry : TaxEntry) (v1 v2 : Verification) : TaxEntry :=
  let e1 := if truthy_str (rrr entry) then set_rrr_result entry v1
            else entry in
  if truthy_str (paydirect_ref entry) then set_paydirect_result e1 v2
  else e1.

(** A reference sent to [submit_entry] is present and already stored in
    the column of its channel. *)
Definition entry_reference_taken (form : dict) (es : list TaxEntry) : Prop :=
  (exists r, form_get form "rrr" = Some r /\ In (Some r) (map rrr es))
  \/ (exists r, form_get form "paydirect_ref" = Some r
                /\ In (Some r) (map paydirect_ref es)).

(** The call that a route makes for a usable reference, none otherwise. *)
Definition call_for (c : Channel) (ref : option string)
  : list VerifierCall :=
  if truthy_str ref then [mk_call c ref] else [].

(** A request to one of the routes that write entries. *)
Inductive Request : Type :=
| SubmitTaxItem (current_user_id : Z) (form : dict)
| SubmitEntry (current_user_id : Z) (form : dict)
| DeleteEntry (entry_id : Z)
| ReverifyEntry (entry_id : Z).

(** The world after a request, however it was answered. *)
Definition serve (env : Env) (w : World) (q : Request) : World :=
  match q with
  | SubmitTaxItem uid form => snd (submit_tax_item env uid form w)
  | SubmitEntry uid form => snd (submit_entry env uid form w)
  | DeleteEntry i => snd (delete_entry i w)
  | ReverifyEntry i => snd (reverify_entry env i w)
  end.

(** The world after a sequence of requests. *)
Definition serve_all (env : Env) (w : World) (qs : list Request) : World :=
  fold_left (serve env) qs w.

(** A form without a usable reference on either channel. *)
Definition no_references (form : dict) : Prop :=
  truthy_str (form_get form "remita_rrr") = false
  /\ truthy_str (form_get form "paydirect") = false.

(** The structured fields that [submit_tax_item] keeps out of [data]. *)
Definition structured_fields : list string :=
  ["tax_item"; "road_subhead"; "remita_rrr"; "paydirect"].

(** The verifier of a channel and the provider that it asks. *)
Definition verifier (env : Env) (c : Channel)
  : option string -> M Verification :=
  match c with
  | Remita => verify_remita_rrr env
  | PayDirect => verify_paydirect_reference env
  end.

Definition provider (env : Env) (c : Channel) : nat -> string -> HttpOutcome :=
  match c with
  | Remita => remita_api env
  | PayDirect => interswitch_api env
  end.

(** The answer of the provider to a verification that starts in [w]. *)
Definition answer_in (env : Env) (c : Channel) (ref : option string)
    (w : World) : HttpOutcome :=
  provider env c (List.length (verifier_calls w)) (str_of ref).

(** The provider sent a JSON object with status "SUCCESS" whose amount is
    missing or a number. *)
Definition reports_success (o : HttpOutcome) : Prop :=
  exists a, o = JsonObject (Some "SUCCESS") a
            /\ (a = AmountMissing \/ exists q, a = AmountNumber q).

(** The value that float() gives to the amount of the answer, 0 when
    there is none. *)
Definition reported_amount (o : HttpOutcome) : Q :=
  match o with
  | JsonObject _ (AmountNumber q) => q
  | _ => 0%Q
  end.

(** The answer is JSON on which the verifier raises an exception that
    its handler does not catch: not an object (AttributeError), an amount
    that is neither a number nor a string (TypeError), or an integer
    beyond the range of float (OverflowError). *)
Definition undecodable (o : HttpOutcome) : Prop :=
  o = JsonNotObject
  \/ exists s a, o = JsonObject s a
                 /\ (a = AmountNotNumeric \/ a = AmountOverflow).

(** Every channel that is not verified holds no amount, or 0. *)
Definition unverified_amounts_zero (es : list TaxEntry) : Prop :=
  forall e, In e es ->
    (rrr_verified e = false -> (or_zero (rrr_amount e) == 0)%Q)
    /\ (paydirect_verified e = false ->
        (or_zero (paydirect_amount e) == 0)%Q).

(** The entries that the chart of [analytics_dashboard] adds up for a
    month: those of the user, of the requested month if one is given. *)
Definition chart_entries (d : Database) (uid : Z) (month : option Z)
    (m : Z) : list TaxEntry :=
  filter (fun e => month_of e =? m)
         (if truthy_int month
          then filter (fun e => Sql.opt_Z_eqb (Some (month_of e)) month)
                      (entries_of d uid)
          else entries_of d uid).

(** The name under which [analytics_admin] counts an entry: that of its
    uploader, if the uploader exists and is an ATO. *)
Definition counted_for (d : Database) (e : TaxEntry) : option string :=
  match find (fun u => user_id u =? uploaded_by e) (users d) with
  | Some user => if is_ato user then Some (username user) else None
  | None => None
  end.

Definition counted_for_name (d : Database) (name : string) (e : TaxEntry)
  : bool :=
  opt_str_eqb (counted_for d e) (Some name).

(** What the verified channels of an entry hold, NULL as 0. *)
Definition verified_amount (e : TaxEntry) : Q :=
  ((if rrr_verified e then or_zero (rrr_amount e) else 0)
   + (if paydirect_verified e then or_zero (paydirect_amount e) else 0))%Q.

(** The totals after the loop has passed the entries [seen]: one key for
    every name that an entry was counted for, holding what the verified
    channels of those entries add up to. *)
Definition counted (d : Database) (seen : list TaxEntry) (acc : num_dict)
  : Prop :=
  NoDup (map fst acc)
  /\ (forall k, In k (map fst acc)
                <-> exists e, In e seen /\ counted_for d e = Some k)
  /\ (forall k t, num_dict_get acc k = Some t ->
        (t == Py.sum (map verified_amount
                          (filter (counted_for_name d k) seen)))%Q).

(** Every entry was uploaded in one of the twelve months. *)
Definition months_valid (es : list TaxEntry) : Prop :=
  forall e, In e es -> 1 <= month_of e <= 12.

(** Both amounts of an entry, verified or not, NULL as 0. *)
Definition both_amounts (e : TaxEntry) : Q :=
  (coalesce (rrr_amount e) + coalesce (paydirect_amount e))%Q.

(** The engine evaluates a bare column at a row of the group. *)
Definition picks_member (bare_row : list TaxEntry -> option TaxEntry)
  : Prop :=
  forall g, g <> [] -> exists e, bare_row g = Some e /\ In e g.

(** The stored month of every entry is the month of its upload date, as
    in the rows that [submit_tax_item] writes. *)
Definition months_stored (es : list TaxEntry) : Prop :=
  forall e, In e es -> Models.month e = Some (month_of e).

(** Neither amount of an entry is NULL, as in the rows that the routes
    write. *)
Definition amounts_present (es : list TaxEntry) : Prop :=
  forall e, In e es -> rrr_amount e <> None /\ paydirect_amount e <> None.

(** The summary of an ATO on the page of [dashboards]. *)
Definition summary_of (d : Database) (ato : User) : AtoSummary :=
  let rrr_total := verified_rrr_total (entries_of d (user_id ato)) in
  let paydirect_total :=
    verified_paydirect_total (entries_of d (user_id ato)) in
  let target := or_zero (get_target_for_ato d ato) in
  mk_AtoSummary (username ato) rrr_total paydirect_total
    (rrr_total + paydirect_total)%Q target
    (match percent_if_target 2 (rrr_total + paydirect_total)%Q
                             (Some target) with
     | inr percent => percent
     | inl _ => 0%Q
     end).

End Notions.

Module Cases.
Import Py Models Sys Payment_api App Views Vocab Notions Samples.

(** A Remita payment of 1000 that is verified, with a PayDirect amount
    [pending] that is not. *)
Definition half_verified_entry (pending : option Q) : TaxEntry :=
  mk_TaxEntry 1 (Some "Market") None (Some "RRR-1") (Some "PD-1") true false
              (Some 1000%Q) pending 1 [] (mk_datetime 2025 3 1 0)
              (Some 3) (Some 2025).

Definition half_verified_db (pending : option Q) : Database :=
  mk_Database [bob; alice] [mk_PerformanceTarget 1 (Some 1) (Some 10000%Q)]
              [half_verified_entry pending].

(** A form with a free field and no reference. *)
Definition plain_form : dict :=
  [("tax_item", "Market"); ("ward", "North"); ("ward", "South");
   ("remita_rrr", "")].

(** A form of [submit_entry] that repeats the Remita reference "RRR-1". *)
Definition repeated_entry_form : dict :=
  [("tax_item", "Market"); ("rrr", "RRR-1")].

(** An administrator. *)
Definition root : User := mk_User 9 "root" "admin".

(** Two entries of user 1 as [submit_entry] stores them, without month
    and year: 10 uploaded in March and 20 uploaded in June. *)
Definition monthless_db : Database :=
  mk_Database [bob] []
    [mk_TaxEntry 1 (Some "Market") None (Some "RRR-1") None true false
                 (Some 10%Q) (Some 0%Q) 1 [] (mk_datetime 2025 3 1 0)
                 None None;
     mk_TaxEntry 2 (Some "Market") None (Some "RRR-2") None true false
                 (Some 20%Q) (Some 0%Q) 1 [] (mk_datetime 2025 6 1 0)
                 None None].

(** The world after user 1 has submitted [no_reference_form] in mock mode
    to an empty table. *)
Definition after_plain_submission : World :=
  snd (submit_tax_item mock_env 1 no_reference_form (start_of one_ato_db)).

End Cases.

(* ================================================================== *)
(** * Properties *)
(* ================================================================== *)

(** ** Python's stable descending sort *)

Module SortFacts.
Import Py Vocab.

Lemma insert_by_any_perm {A} (ahead : A -> A -> bool) (x : A) (l : list A) :
  Permutation (x :: l) (insert_by ahead x l).
Proof.
  induction l as [| y t IH]; simpl; [reflexivity |].
  destruct (ahead y x); [| reflexivity].
  rewrite perm_swap. now apply perm_skip.
Qed.

Lemma order_by_perm {R} (key : R -> Z) (rows : list R) :
  Permutation rows (Sql.order_by key rows).
Proof.
  induction rows as [| x t IH]; simpl; [constructor |].
  etransitivity; [apply perm_skip, IH | apply insert_by_any_perm].
Qed.

Section Descending.
Context {A : Type}.
Variable key : A -> Q.

Local Abbreviation desc := (descending key).
Local Abbreviation ahead := (fun y x => gt (key y) (key x)).

Lemma gt_true (x y : Q) : gt x y = true <-> (y < x)%Q.
Proof.
  unfold gt. rewrite negb_true_iff. split; intros H.
  - apply Qnot_le_lt. intros Hle. apply Qle_bool_iff in Hle. congruence.
  - destruct (Qle_bool x y) eqn:E; [| reflexivity].
    apply Qle_bool_iff in E. exfalso. exact (Qlt_not_le _ _ H E).
Qed.

Lemma gt_false (x y : Q) : gt x y = false <-> (x <= y)%Q.
Proof.
  unfold gt. rewrite negb_false_iff. apply Qle_bool_iff.
Qed.

Lemma insert_by_perm (x : A) (l : list A) :
  Permutation (x :: l) (insert_by ahead x l).
Proof. apply insert_by_any_perm. Qed.

Lemma sort_desc_perm (l : list A) : Permutation l (sort_desc key l).
Proof.
  induction l as [| x t IH]; simpl; [constructor |].
  etransitivity; [apply perm_skip, IH | apply insert_by_perm].
Qed.

Lemma insert_by_sorted (x : A) (l : list A) :
  StronglySorted desc l -> StronglySorted desc (insert_by ahead x l).
Proof.
  induction 1 as [| y t Hs IH Hall]; simpl.
  - repeat constructor.
  - destruct (gt (key y) (key x)) eqn:E.
    + constructor; [exact IH |].
      apply (Permutation_Forall (insert_by_perm x t)).
      constructor; [| exact Hall].
      apply gt_true in E. unfold desc. now apply Qlt_le_weak.
    + apply gt_false in E.
      constructor; [now constructor |].
      constructor; [exact E |].
      eapply Forall_impl; [| exact Hall].
      intros z Hz. unfold desc in *. now apply Qle_trans with (key y).
Qed.

Lemma sort_desc_sorted (l : list A) : StronglySorted desc (sort_desc key l).
Proof.
  induction l as [| x t IH]; simpl; [constructor |].
  now apply insert_by_sorted.
Qed.

(** A list already in descending order is left as it is. *)
Lemma sort_desc_fixed (l : list A) :
  StronglySorted desc l -> sort_desc key l = l.
Proof.
  induction 1 as [| x t Hs IH Hall]; simpl; [reflexivity |].
  fold (sort_desc key t). rewrite IH.
  destruct t as [| y t']; simpl; [reflexivity |].
  inversion Hall as [| ? ? Hy _]; subst.
  apply gt_false in Hy. now rewrite Hy.
Qed.

Lemma sort_desc_idempotent (l : list A) :
  sort_desc key (sort_desc key l) = sort_desc key l.
Proof. apply sort_desc_fixed, sort_desc_sorted. Qed.

(** Stability: the rows of one key value come out as they went in. *)
Lemma insert_by_same_key (c : Q) (x : A) (l : list A) :
  filter (fun r => Qeq_bool (key r) c) (insert_by ahead x l)
  = filter (fun r => Qeq_bool (key r) c) (x :: l).
Proof.
  induction l as [| y t IH]; [reflexivity |].
  simpl insert_by.
  destruct (gt (key y) (key x)) eqn:E; [| reflexivity].
  simpl in *. rewrite IH.
  destruct (Qeq_bool (key x) c) eqn:Ex; [| reflexivity].
  destruct (Qeq_bool (key y) c) eqn:Ey; [| reflexivity].
  apply Qeq_bool_iff in Ex, Ey. apply gt_true in E.
  rewrite Ex, Ey in E. now apply Qlt_irrefl in E.
Qed.

Lemma sort_desc_stable (c : Q) (l : list A) :
  filter (fun r => Qeq_bool (key r) c) (sort_desc key l)
  = filter (fun r => Qeq_bool (key r) c) l.
Proof.
  induction l as [| x t IH]; [reflexivity |].
  simpl sort_desc. fold (sort_desc key t).
  rewrite insert_by_same_key. simpl. now rewrite IH.
Qed.

End Descending.

End SortFacts.

(** ** The result monad *)

Module ResultFacts.
Import Py.

(** A loop whose body never raises returns one value per element. *)
Lemma for_each_total {A B} (f : A -> result B) (xs : list A) :
  (forall x, In x xs -> exists y, f x = inr y) ->
  exists ys, for_each f xs = inr ys
             /\ Forall2 (fun x y => f x = inr y) xs ys.
Proof.
  induction xs as [| x t IH]; intros Hf; simpl.
  - exists []. split; [reflexivity | constructor].
  - destruct (Hf x (or_introl eq_refl)) as [y Hy].
    destruct IH as [ys [Hys Hall]].
    { intros z Hz. apply Hf. now right. }
    exists (y :: ys). rewrite Hy, Hys. simpl.
    split; [reflexivity | now constructor].
Qed.

Lemma for_each_inr {A B} (f : A -> result B) (xs : list A) (ys : list B) :
  for_each f xs = inr ys -> Forall2 (fun x y => f x = inr y) xs ys.
Proof.
  revert ys. induction xs as [| x t IH]; intros ys H; simpl in H.
  - inversion H. constructor.
  - destruct (f x) as [e | y] eqn:Hy; simpl in H; [discriminate |].
    destruct (for_each f t) as [e | ys'] eqn:Ht; simpl in H; [discriminate |].
    inversion H; subst. constructor; [exact Hy | now apply IH].
Qed.

Lemma Forall2_map_eq {A B C} (f : A -> result B) (g : A -> C) (h : B -> C)
    (xs : list A) (ys : list B) :
  (forall x y, f x = inr y -> h y = g x) ->
  Forall2 (fun x y => f x = inr y) xs ys ->
  map h ys = map g xs.
Proof.
  intros Hgh. induction 1; simpl; [reflexivity |].
  f_equal; [now apply Hgh | assumption].
Qed.

End ResultFacts.

(** ** Percent of target *)

Module PercentFacts.
Import Py App SortFacts.

Lemma Qeq_bool_false (x y : Q) : Qeq_bool x y = false <-> ~ (x == y)%Q.
Proof.
  split.
  - intros H Heq. apply Qeq_bool_iff in Heq. congruence.
  - intros H. destruct (Qeq_bool x y) eqn:E; [| reflexivity].
    apply Qeq_bool_iff in E. contradiction.
Qed.

Lemma truediv_nonzero (x y : Q) :
  ~ (y == 0)%Q -> truediv x y = inr (x / y)%Q.
Proof.
  intros H. unfold truediv. apply Qeq_bool_false in H. now rewrite H.
Qed.

(** The guarded percent of league_table never raises. *)
Lemma percent_if_positive_spec (total target : Q) :
  percent_if_positive total target
  = inr (if gt target 0 then round (total / target * 100) 2 else 0%Q).
Proof.
  unfold percent_if_positive. destruct (gt target 0) eqn:E; [| reflexivity].
  apply gt_true in E. rewrite truediv_nonzero; [reflexivity |].
  intros H. rewrite H in E. now apply Qlt_irrefl in E.
Qed.

(** The truthiness guard never raises either. *)
Lemma percent_if_target_spec (n : nat) (total : Q) (target : option Q) :
  percent_if_target n total target
  = inr (match target with
         | Some t => if Qeq_bool t 0 then 0%Q
                     else round (total / t * 100) n
         | None => 0%Q
         end).
Proof.
  unfold percent_if_target, truthy_num. destruct target as [t |]; [| reflexivity].
  destruct (Qeq_bool t 0) eqn:E; simpl; [reflexivity |].
  apply Qeq_bool_false in E. now rewrite truediv_nonzero.
Qed.

Lemma round_half_even_floor (x : Q) : (Qfloor x <= round_half_even x)%Z.
Proof.
  unfold round_half_even.
  repeat match goal with |- context [if ?b then _ else _] => destruct b end;
    lia.
Qed.

Lemma round_nonneg (x : Q) (n : nat) : (0 <= x)%Q -> (0 <= round x n)%Q.
Proof.
  intros Hx. unfold round.
  assert (Hs : (0 < inject_Z (10 ^ Z.of_nat n))%Q).
  { change 0%Q with (inject_Z 0). rewrite <- Zlt_Qlt.
    apply Z.pow_pos_nonneg; lia. }
  apply Qle_shift_div_l; [exact Hs |].
  rewrite Qmult_0_l. change 0%Q with (inject_Z 0). rewrite <- Zle_Qle.
  etransitivity; [| apply round_half_even_floor].
  change 0%Z with (Qfloor 0). apply Qfloor_resp_le.
  apply Qmult_le_0_compat; [exact Hx | now apply Qlt_le_weak].
Qed.

(** With a non-negative total the percent of league_table is never
    negative. *)
Lemma percent_if_positive_nonneg (total target p : Q) :
  (0 <= total)%Q -> percent_if_positive total target = inr p -> (0 <= p)%Q.
Proof.
  intros Ht H. rewrite percent_if_positive_spec in H.
  inversion H as [Hp]; clear H Hp.
  destruct (gt target 0) eqn:E; [| apply Qle_refl].
  apply gt_true in E. apply round_nonneg.
  apply Qmult_le_0_compat; [| discriminate].
  apply Qle_shift_div_l; [exact E |]. now rewrite Qmult_0_l.
Qed.

End PercentFacts.

(** ** Channel totals *)

Module TotalFacts.
Import Py Models Sys Payment_api App Vocab Samples.

(** The per-channel sums of [dashboards] do not look at the amount of an
    unverified channel. *)
Lemma verified_rrr_total_frame (es es' : list TaxEntry) :
  Forall2 same_verified_rrr es es' ->
  verified_rrr_total es = verified_rrr_total es'.
Proof.
  intros H. unfold verified_rrr_total. f_equal.
  induction H as [| e e' t t' [Hv Ha] _ IH]; [reflexivity |].
  simpl. rewrite <- Hv. destruct (rrr_verified e); [| exact IH].
  simpl. now rewrite IH, (Ha eq_refl).
Qed.

Lemma verified_paydirect_total_frame (es es' : list TaxEntry) :
  Forall2 same_verified_paydirect es es' ->
  verified_paydirect_total es = verified_paydirect_total es'.
Proof.
  intros H. unfold verified_paydirect_total. f_equal.
  induction H as [| e e' t t' [Hv Ha] _ IH]; [reflexivity |].
  simpl. rewrite <- Hv. destruct (paydirect_verified e); [| exact IH].
  simpl. now rewrite IH, (Ha eq_refl).
Qed.

(** C1. Each channel's total should add that channel's amount over the
    entries whose same channel is verified.  [get_user_summary] and
    [get_league_table_data] select an entry when either channel is
    verified and then add both amounts: after one live submission that
    Remita confirms (1000) and Interswitch reports as pending (5000), the
    PayDirect total is 5000 and the agent's returns are 6000, where the
    per-channel sum of [dashboards] gives 0 for PayDirect. *)
Theorem unverified_channel_amount_is_counted :
  exists w,
    submit_tax_item live_env 1 both_channels_form (start_of one_ato_db)
    = (inr (Redirect "enter_tax_data" EntrySubmitted), w)
    /\ map (fun e => (rrr_verified e, rrr_amount e,
                      paydirect_verified e, paydirect_amount e))
           (tax_entries (db w))
       = [(true, Some 1000%Q, false, Some 5000%Q)]
    /\ get_user_summary (db w) 1 = mk_UserSummary 1000 5000 6000
    /\ get_league_table_data (db w)
       = inr [mk_LeagueDataRow "bob" 10000 6000 60.00]
    /\ verified_paydirect_total (entries_of (db w) 1) = 0%Q.
Proof.
  eexists. split; [vm_compute; reflexivity |].
  repeat split; vm_compute; reflexivity.
Qed.

End TotalFacts.

(** ** The divide-by-zero guard *)

Module GuardFacts.
Import Py Models Sys Payment_api App Samples.

(** C2. The percent should be 0 for a target that is zero, negative or
    absent.  [get_league_table_data] guards with the truth value of the
    target, so a negative target passes the guard: for returns of 50
    against a target of -100 it reports -50.00, where the guard
    [target > 0] of [league_table] reports 0. *)
Theorem negative_target_gives_negative_percent :
  percent_if_target 2 50 (Some (-100)%Q) = inr (-50.00)%Q
  /\ get_league_table_data negative_target_db
     = inr [mk_LeagueDataRow "bob" (-100) 50 (-50.00)]
  /\ percent_if_positive 50 (-100) = inr 0%Q.
Proof. repeat split; vm_compute; reflexivity. Qed.

End GuardFacts.

(** ** Grouping *)

Module SqlFacts.
Import Sql.

Section Distinct.
Context {K I : Type}.
Variable eqb : K -> K -> bool.
Variable pr : K -> I.
Hypothesis eqb_refl : forall k, eqb k k = true.
Hypothesis eqb_trans :
  forall a b c, eqb a b = true -> eqb b c = true -> eqb a c = true.
Hypothesis eqb_pr : forall a b, eqb a b = true -> pr a = pr b.

Lemma distinct_incl (ks : list K) (k : K) :
  In k (distinct eqb ks) -> In k ks.
Proof.
  revert k. induction ks as [| a t IH]; intros k H; simpl in *; [exact H |].
  destruct H as [H | H]; [now left |].
  apply filter_In in H. right. now apply IH.
Qed.

Lemma distinct_covers (ks : list K) (k : K) :
  In k ks -> exists k', In k' (distinct eqb ks) /\ eqb k' k = true.
Proof.
  induction ks as [| a t IH]; intros H; simpl in *; [contradiction |].
  destruct H as [-> | H].
  - exists k. split; [now left | apply eqb_refl].
  - destruct (IH H) as [k' [Hin Hk']].
    destruct (eqb a k') eqn:E.
    + exists a. split; [now left | now apply eqb_trans with k'].
    + exists k'. split; [| exact Hk'].
      right. apply filter_In. split; [exact Hin | now rewrite E].
Qed.

Lemma distinct_proj_In (ks : list K) (i : I) :
  In i (map pr (distinct eqb ks)) <-> In i (map pr ks).
Proof.
  rewrite !in_map_iff. split; intros [k [Hk Hin]].
  - exists k. split; [exact Hk | now apply distinct_incl].
  - destruct (distinct_covers ks k Hin) as [k' [Hin' He]].
    exists k'. split; [| exact Hin'].
    rewrite <- Hk. now apply eqb_pr.
Qed.

(** No two of the distinct keys are equal. *)
Lemma distinct_apart (ks : list K) :
  ForallOrdPairs (fun a b => eqb a b = false) (distinct eqb ks).
Proof.
  induction ks as [| a t IH]; simpl; constructor.
  - apply Forall_forall. intros b Hb. apply filter_In in Hb.
    now apply negb_true_iff.
  - clear -IH. induction IH as [| b l Hb _ IH']; simpl; [constructor |].
    destruct (negb (eqb a b)); [| exact IH'].
    constructor; [| exact IH'].
    apply Forall_forall. intros c Hc. apply filter_In in Hc.
    rewrite Forall_forall in Hb. now apply Hb.
Qed.

(** When the keys that share a projection are equal, every projection
    heads one group only. *)
Lemma distinct_proj_NoDup (ks : list K) :
  (forall a b, In a ks -> In b ks -> pr a = pr b -> eqb a b = true) ->
  NoDup (map pr (distinct eqb ks)).
Proof.
  intros Hsame.
  assert (Hin : forall k, In k (distinct eqb ks) -> In k ks)
    by (intros k; apply distinct_incl).
  pose proof (distinct_apart ks) as Hap.
  induction Hap as [| a l Ha _ IH]; simpl; constructor.
  - intros Hmem. apply in_map_iff in Hmem. destruct Hmem as [b [Hb Hbl]].
    rewrite Forall_forall in Ha. specialize (Ha b Hbl).
    rewrite Hsame in Ha; [discriminate | | | now symmetry].
    + apply Hin. now left.
    + apply Hin. now right.
  - apply IH. intros k Hk. apply Hin. now right.
Qed.

End Distinct.

Lemma group_by_keys {R K} (eqb : K -> K -> bool) (key : R -> K)
    (rows : list R) :
  map fst (group_by eqb key rows) = distinct eqb (map key rows).
Proof.
  unfold group_by. rewrite map_map. simpl. apply map_id.
Qed.

End SqlFacts.

(** ** The league roster *)

Module LeagueFacts.
Import Py Models Sys Payment_api App Vocab Samples.
Import SortFacts ResultFacts PercentFacts SqlFacts.

Lemma filter_twice {A} (p q : A -> bool) (l : list A) :
  filter q (filter p l) = filter (fun x => p x && q x) l.
Proof.
  induction l as [| x t IH]; simpl; [reflexivity |].
  destruct (p x); simpl; [| exact IH].
  destruct (q x); now rewrite IH.
Qed.

Lemma Forall2_In_l {A B} (R : A -> B -> Prop) xs ys x :
  Forall2 R xs ys -> In x xs -> exists y, In y ys /\ R x y.
Proof.
  induction 1 as [| a b t t' Hab _ IH]; intros Hin; [contradiction |].
  destruct Hin as [-> | Hin].
  - exists b. split; [now left | exact Hab].
  - destruct (IH Hin) as [y [Hy HR]]. exists y. split; [now right | exact HR].
Qed.

Lemma Forall2_In_r {A B} (R : A -> B -> Prop) xs ys y :
  Forall2 R xs ys -> In y ys -> exists x, In x xs /\ R x y.
Proof.
  induction 1 as [| a b t t' Hab _ IH]; intros Hin; [contradiction |].
  destruct Hin as [-> | Hin].
  - exists a. split; [now left | exact Hab].
  - destruct (IH Hin) as [x [Hx HR]]. exists x. split; [now right | exact HR].
Qed.

(** *** The joined rows *)

Lemma outer_targets_inhabited (d : Database) (u : User) :
  exists t, In t (outer_targets d u).
Proof.
  unfold outer_targets.
  destruct (filter _ (targets d)) as [| t ts].
  - exists None. now left.
  - exists (Some t). now left.
Qed.

Lemma outer_targets_single (d : Database) (u : User) t t' :
  (List.length (targets_of d (user_id u)) <= 1)%nat ->
  In t (outer_targets d u) -> In t' (outer_targets d u) -> t = t'.
Proof.
  unfold outer_targets, targets_of.
  destruct (filter _ (targets d)) as [| a [| b ts]]; simpl; intros Hlen.
  - intros [<- | []] [<- | []]. reflexivity.
  - intros [<- | []] [<- | []]. reflexivity.
  - lia.
Qed.

Lemma league_join_In (d : Database) (j : Joined) :
  In j (league_join d) <->
  In (j_user j) (users d) /\ In (j_entry j) (tax_entries d)
  /\ user_id (j_user j) = uploaded_by (j_entry j)
  /\ In (snd j) (outer_targets d (j_user j)).
Proof.
  unfold league_join. rewrite in_flat_map. split.
  - intros [u [Hu H]]. apply in_flat_map in H. destruct H as [e [He H]].
    destruct (Z.eqb_spec (user_id u) (uploaded_by e)) as [Heq |]; [| contradiction].
    apply in_map_iff in H. destruct H as [t [<- Ht]]. simpl. auto.
  - destruct j as [[u e] t]. unfold j_user, j_entry. simpl.
    intros [Hu [He [Heq Ht]]].
    exists u. split; [exact Hu |]. apply in_flat_map.
    exists e. split; [exact He |].
    rewrite Heq, Z.eqb_refl. apply in_map_iff. now exists t.
Qed.

(** The joined rows that the filters of the request keep. *)
Lemma league_query_groups (env : Env) (d : Database)
    (from_date to_date : option string) :
  map (fun r => (q_user_id r, q_ATO r, q_Target r))
      (league_query env d from_date to_date)
  = Sql.distinct league_key_eqb
      (map league_key
         (filter (fun j => is_ato (j_user j)
                           && in_window env from_date to_date (j_entry j))
                 (league_join d))).
Proof.
  unfold league_query, in_window.
  rewrite map_map, <- group_by_keys, <- (map_map fst (fun k => k)), map_id.
  assert (Hrows :
    (if truthy_str to_date
     then filter (fun j => column_le env (date_uploaded (j_entry j))
                                     (str_of to_date))
                 (if truthy_str from_date
                  then filter (fun j => column_ge env (date_uploaded (j_entry j))
                                                  (str_of from_date))
                              (filter (fun j => is_ato (j_user j)) (league_join d))
                  else filter (fun j => is_ato (j_user j)) (league_join d))
     else (if truthy_str from_date
           then filter (fun j => column_ge env (date_uploaded (j_entry j))
                                           (str_of from_date))
                       (filter (fun j => is_ato (j_user j)) (league_join d))
           else filter (fun j => is_ato (j_user j)) (league_join d)))
    = filter (fun j => is_ato (j_user j)
                && ((if truthy_str from_date
                     then column_ge env (date_uploaded (j_entry j))
                                    (str_of from_date) else true)
                    && (if truthy_str to_date
                        then column_le env (date_uploaded (j_entry j))
                                       (str_of to_date) else true)))
             (league_join d)).
  { destruct (truthy_str from_date), (truthy_str to_date);
      rewrite ?filter_twice; apply filter_ext; intros j;
      destruct (is_ato (j_user j)); simpl; try reflexivity;
      rewrite ?andb_true_r; try reflexivity;
      now rewrite andb_assoc. }
  rewrite Hrows. apply map_ext. intros [k g]. simpl.
  now destruct k as [[i n] t].
Qed.

(** *** The grouping key *)

Lemma opt_Q_eqb_refl (a : option Q) : Sql.opt_Q_eqb a a = true.
Proof. destruct a as [q |]; simpl; [apply Qeq_bool_refl | reflexivity]. Qed.

Lemma opt_Q_eqb_trans (a b c : option Q) :
  Sql.opt_Q_eqb a b = true -> Sql.opt_Q_eqb b c = true ->
  Sql.opt_Q_eqb a c = true.
Proof.
  destruct a, b, c; simpl; try discriminate; try reflexivity.
  intros H1 H2. apply Qeq_bool_iff in H1, H2. apply Qeq_bool_iff.
  now rewrite H1.
Qed.

Lemma league_key_eqb_refl (k : LeagueKey) : league_key_eqb k k = true.
Proof.
  unfold league_key_eqb.
  now rewrite Z.eqb_refl, String.eqb_refl, opt_Q_eqb_refl.
Qed.

Lemma league_key_eqb_trans (a b c : LeagueKey) :
  league_key_eqb a b = true -> league_key_eqb b c = true ->
  league_key_eqb a c = true.
Proof.
  unfold league_key_eqb. rewrite !andb_true_iff.
  intros [[H1 H2] H3] [[H4 H5] H6].
  apply Z.eqb_eq in H1, H4. apply String.eqb_eq in H2, H5.
  rewrite H1, H4, H2, H5, Z.eqb_refl, String.eqb_refl.
  repeat split. now apply opt_Q_eqb_trans with (snd b).
Qed.

Lemma league_key_eqb_id (a b : LeagueKey) :
  league_key_eqb a b = true -> fst (fst a) = fst (fst b).
Proof.
  unfold league_key_eqb. rewrite !andb_true_iff.
  intros [[H _] _]. now apply Z.eqb_eq.
Qed.

Lemma primary_key_inj (us : list User) (u u' : User) :
  NoDup (map user_id us) -> In u us -> In u' us ->
  user_id u = user_id u' -> u = u'.
Proof.
  induction us as [| a t IH]; simpl; intros Hnd Hu Hu' Heq; [contradiction |].
  inversion Hnd as [| ? ? Hnotin Hnd']; subst.
  destruct Hu as [-> | Hu], Hu' as [-> | Hu'].
  - reflexivity.
  - exfalso. apply Hnotin. rewrite Heq. now apply in_map.
  - exfalso. apply Hnotin. rewrite <- Heq. now apply in_map.
  - now apply IH.
Qed.

(** *** The rows of the league *)

Lemma league_query_ids (env : Env) (d : Database)
    (from_date to_date : option string) :
  map q_user_id (league_query env d from_date to_date)
  = map (fun k : LeagueKey => fst (fst k))
      (Sql.distinct league_key_eqb
         (map league_key
            (filter (fun j => is_ato (j_user j)
                              && in_window env from_date to_date (j_entry j))
                    (league_join d)))).
Proof.
  rewrite <- league_query_groups, map_map. apply map_ext. reflexivity.
Qed.

Lemma league_query_NoDup (env : Env) (d : Database)
    (from_date to_date : option string) :
  well_keyed d ->
  NoDup (map q_user_id (league_query env d from_date to_date)).
Proof.
  intros [Hpk Hone]. rewrite league_query_ids.
  apply distinct_proj_NoDup.
  intros a b Ha Hb Hid.
  apply in_map_iff in Ha, Hb.
  destruct Ha as [j [<- Hj]], Hb as [j' [<- Hj']].
  apply filter_In in Hj, Hj'. destruct Hj as [Hj _], Hj' as [Hj' _].
  apply league_join_In in Hj, Hj'.
  destruct Hj as [Hu [_ [_ Ht]]], Hj' as [Hu' [_ [_ Ht']]].
  change (user_id (j_user j) = user_id (j_user j')) in Hid.
  assert (Esame : j_user j = j_user j')
    by (apply (primary_key_inj (users d)); assumption).
  rewrite <- Esame in Ht'.
  assert (Et : snd j = snd j')
    by (apply (outer_targets_single d (j_user j)); auto).
  unfold league_key, j_target_amount. rewrite <- Esame, <- Et.
  apply league_key_eqb_refl.
Qed.

Lemma league_query_In (env : Env) (d : Database)
    (from_date to_date : option string) (i : Z) :
  In i (map q_user_id (league_query env d from_date to_date)) <->
  exists u, In u (users d) /\ is_ato u = true /\ user_id u = i
            /\ active_in env d from_date to_date i.
Proof.
  rewrite league_query_ids.
  rewrite (distinct_proj_In league_key_eqb (fun k : LeagueKey => fst (fst k))
             league_key_eqb_refl league_key_eqb_trans league_key_eqb_id).
  rewrite map_map. simpl. rewrite in_map_iff. split.
  - intros [j [Hid Hj]]. apply filter_In in Hj. destruct Hj as [Hj Hp].
    apply andb_true_iff in Hp. destruct Hp as [Hato Hwin].
    apply league_join_In in Hj. destruct Hj as [Hu [He [Heq _]]].
    exists (j_user j). repeat split; try assumption.
    exists (j_entry j). repeat split; try assumption. congruence.
  - intros [u [Hu [Hato [Hid [e [He [Hup Hwin]]]]]]].
    destruct (outer_targets_inhabited d u) as [t Ht].
    exists (u, e, t). split; [exact Hid |].
    apply filter_In. split.
    + apply league_join_In. unfold j_user, j_entry. simpl.
      repeat split; try assumption. congruence.
    + unfold j_user, j_entry. simpl. now rewrite Hato, Hwin.
Qed.

Lemma enrich_spec (q : LeagueQueryRow) :
  exists p, enrich q
            = inr (mk_LeagueRow (q_user_id q) (q_ATO q) (or_zero (q_RRR q))
                     (or_zero (q_Paydirect q)) (or_zero (q_Target q))
                     (or_zero (q_RRR q) + or_zero (q_Paydirect q))%Q p).
Proof.
  unfold enrich. rewrite percent_if_positive_spec. simpl. eauto.
Qed.

Lemma enrich_id (q : LeagueQueryRow) (r : LeagueRow) :
  enrich q = inr r -> l_user_id r = q_user_id q.
Proof.
  destruct (enrich_spec q) as [p Hp]. rewrite Hp. intros H.
  inversion H. reflexivity.
Qed.

(** The route never raises, and its rows are the enriched rows of the
    query in another order. *)
Lemma league_table_rows (env : Env) (d : Database)
    (from_date to_date : option string) :
  exists enriched,
    for_each enrich (league_query env d from_date to_date) = inr enriched
    /\ league_table env d from_date to_date
       = inr (sort_desc l_Percent enriched)
    /\ map l_user_id enriched
       = map q_user_id (league_query env d from_date to_date).
Proof.
  destruct (for_each_total enrich (league_query env d from_date to_date))
    as [enriched [He Hall]].
  { intros q _. destruct (enrich_spec q) as [p Hp]. eauto. }
  exists enriched. unfold league_table. rewrite He. simpl.
  repeat split. eapply Forall2_map_eq; [| exact Hall].
  intros q r. apply enrich_id.
Qed.

(** *** get_league_table_data *)

Lemma round_half_even_zero (y : Q) : (y == 0)%Q -> round_half_even y = 0.
Proof.
  intros Hy. unfold round_half_even. cbv zeta.
  rewrite (Qfloor_comp _ _ Hy). change (Qfloor 0) with 0%Z.
  assert (Htf : ((y - inject_Z 0) * 2 == 0)%Q) by (rewrite Hy; reflexivity).
  assert (H1 : Qle_bool ((y - inject_Z 0) * 2) 1 = true).
  { apply Qle_bool_iff. rewrite Htf. discriminate. }
  assert (H2 : Qeq_bool ((y - inject_Z 0) * 2) 1 = false).
  { apply Qeq_bool_false. rewrite Htf. discriminate. }
  now rewrite H1, H2.
Qed.

Lemma round_zero (x : Q) (n : nat) : (x == 0)%Q -> (round x n == 0)%Q.
Proof.
  intros Hx. unfold round. cbv zeta.
  rewrite round_half_even_zero; [reflexivity |].
  rewrite Hx. apply Qmult_0_l.
Qed.

Lemma percent_of_nothing (n : nat) (target : option Q) (p : Q) :
  percent_if_target n 0 target = inr p -> (p == 0)%Q.
Proof.
  rewrite percent_if_target_spec. intros H. inversion H as [Hp]. clear H Hp.
  destruct target as [t |]; [| reflexivity].
  destruct (Qeq_bool t 0); [reflexivity |].
  apply round_zero. unfold Qdiv. now rewrite !Qmult_0_l.
Qed.

(** The helper returns one row per ATO, whatever the entries are. *)
Lemma league_data_rows (d : Database) :
  exists league,
    get_league_table_data d = inr (sort_desc percent_met league)
    /\ Forall2 (fun ato row =>
                  exists p,
                    percent_if_target 2
                      (sum_of_verified_entries (entries_of d (user_id ato)))
                      (get_target_for_ato d ato) = inr p
                    /\ row = mk_LeagueDataRow (username ato)
                               (or_zero (get_target_for_ato d ato))
                               (sum_of_verified_entries
                                  (entries_of d (user_id ato))) p)
               (filter is_ato (users d)) league.
Proof.
  unfold get_league_table_data.
  match goal with
  | |- context [for_each ?f ?l] =>
      destruct (for_each_total f l) as [league [He Hall]]
  end.
  { intros ato _. rewrite percent_if_target_spec. simpl. eauto. }
  exists league. rewrite He. simpl. split; [reflexivity |].
  eapply Forall2_impl; [| exact Hall].
  intros ato row H. simpl in H.
  destruct (percent_if_target 2 _ _) as [e | p] eqn:Hp; simpl in H;
    [discriminate |].
  exists p. split; [reflexivity |]. now inversion H.
Qed.

(** C3. The league should have a row for every ATO, also for one without
    entries in the window.  [league_table] joins [User] to [TaxEntry] with
    an inner join, so an ATO without entries yields no joined row and no
    group: bob is an ATO of the store, only alice has submitted, and the
    league of the route consists of the row of alice.  (The helper
    [get_league_table_data] loops over all ATOs and does list bob.) *)
Lemma idle_ato_has_no_league_row :
  In bob (users idle_agent_db) /\ is_ato bob = true
  /\ league_table mock_env idle_agent_db None None
     = inr [mk_LeagueRow 2 "alice" 50 0 0 50 0]
  /\ ~ (forall u, In u (users idle_agent_db) -> is_ato u = true ->
        exists rows,
          league_table mock_env idle_agent_db None None = inr rows
          /\ In (user_id u) (map l_user_id rows)).
Proof.
  split; [now left |]. split; [reflexivity |].
  split; [vm_compute; reflexivity |].
  intros H. destruct (H bob) as [rows [Hrows Hin]];
    [now left | reflexivity |].
  vm_compute in Hrows. inversion Hrows; subst. simpl in Hin.
  destruct Hin as [Hin | []]. discriminate.
Qed.

(** X1. What the league contains.  In a store where user ids are a key and no
    user has two targets, [league_table] returns one row for every ATO that
    has an entry inside the filter window and none for the others; every
    row belongs to an ATO.  The unfiltered [get_league_table_data] has one
    row per ATO, and an ATO without entries has returns 0 and percent 0
    there. *)
Theorem league_roster (env : Env) (d : Database)
    (from_date to_date : option string) :
  well_keyed d ->
  exists rows board,
    league_table env d from_date to_date = inr rows
    /\ NoDup (map l_user_id rows)
    /\ (forall u, In u (users d) -> is_ato u = true ->
          (In (user_id u) (map l_user_id rows)
           <-> active_in env d from_date to_date (user_id u)))
    /\ (forall r, In r rows ->
          exists u, In u (users d) /\ is_ato u = true
                    /\ user_id u = l_user_id r)
    /\ get_league_table_data d = inr board
    /\ Permutation (map ato_name board)
                   (map username (filter is_ato (users d)))
    /\ (forall u, In u (users d) -> is_ato u = true ->
          entries_of d (user_id u) = [] ->
          exists r, In r board /\ ato_name r = username u
                    /\ total_returns r = 0%Q /\ (percent_met r == 0)%Q).
Proof.
  intros Hkeys.
  destruct (league_table_rows env d from_date to_date)
    as [enriched [_ [Hrows Hids]]].
  destruct (league_data_rows d) as [league [Hboard Hall]].
  exists (sort_desc l_Percent enriched), (sort_desc percent_met league).
  pose proof (sort_desc_perm l_Percent enriched) as Hperm.
  assert (Hpids : Permutation
                    (map q_user_id (league_query env d from_date to_date))
                    (map l_user_id (sort_desc l_Percent enriched))).
  { rewrite <- Hids. now apply Permutation_map. }
  split; [exact Hrows |]. split.
  { eapply Permutation_NoDup; [exact Hpids |].
    now apply league_query_NoDup. }
  split.
  { intros u Hu Hato. split.
    - intros Hin. apply Permutation_sym in Hpids.
      apply (Permutation_in _ Hpids) in Hin.
      apply league_query_In in Hin.
      destruct Hin as [u' [_ [_ [_ Hact]]]]. exact Hact.
    - intros Hact. apply (Permutation_in _ Hpids).
      apply league_query_In. exists u. auto. }
  split.
  { intros r Hr.
    assert (Hin : In (l_user_id r)
                     (map l_user_id (sort_desc l_Percent enriched)))
      by now apply in_map.
    apply Permutation_sym in Hpids.
    apply (Permutation_in _ Hpids) in Hin.
    apply league_query_In in Hin.
    destruct Hin as [u [Hu [Hato [Hid _]]]]. exists u. auto. }
  split; [exact Hboard |]. split.
  { rewrite <- (Permutation_map ato_name (sort_desc_perm percent_met league)).
    apply Permutation_refl'.
    clear -Hall. induction Hall as [| ato row t t' [p [_ ->]] _ IH];
      simpl; [reflexivity | now rewrite IH]. }
  intros u Hu Hato Hnone.
  assert (Hin : In u (filter is_ato (users d)))
    by (apply filter_In; auto).
  destruct (Forall2_In_l _ _ _ _ Hall Hin) as [row [Hrow [p [Hp ->]]]].
  exists (mk_LeagueDataRow (username u) (or_zero (get_target_for_ato d u))
            (sum_of_verified_entries (entries_of d (user_id u))) p).
  split; [eapply Permutation_in; [apply sort_desc_perm | exact Hrow] |].
  rewrite Hnone in *. simpl.
  split; [reflexivity |]. split; [reflexivity |].
  eapply percent_of_nothing. exact Hp.
Qed.

(** The roster of a store with an idle and an active agent. *)
Lemma league_roster_example :
  well_keyed idle_agent_db
  /\ exists rows board,
       league_table mock_env idle_agent_db None None = inr rows
       /\ NoDup (map l_user_id rows)
       /\ (forall u, In u (users idle_agent_db) -> is_ato u = true ->
             (In (user_id u) (map l_user_id rows)
              <-> active_in mock_env idle_agent_db None None (user_id u)))
       /\ (forall r, In r rows ->
             exists u, In u (users idle_agent_db) /\ is_ato u = true
                       /\ user_id u = l_user_id r)
       /\ get_league_table_data idle_agent_db = inr board
       /\ Permutation (map ato_name board)
                      (map username (filter is_ato (users idle_agent_db)))
       /\ (forall u, In u (users idle_agent_db) -> is_ato u = true ->
             entries_of idle_agent_db (user_id u) = [] ->
             exists r, In r board /\ ato_name r = username u
                       /\ total_returns r = 0%Q /\ (percent_met r == 0)%Q).
Proof.
  assert (Hk : well_keyed idle_agent_db).
  { split.
    - simpl. repeat constructor; simpl; intuition discriminate.
    - intros u _. simpl. lia. }
  split; [exact Hk |].
  exact (league_roster mock_env idle_agent_db None None Hk).
Defined.

End LeagueFacts.

(** ** The monthly series *)

Module AnalyticsFacts.
Import Py Models Sys Payment_api App Vocab Samples.
Import SortFacts ResultFacts SqlFacts LeagueFacts.

Lemma sql_sum_present (xs : list (option Q)) :
  xs <> [] -> (forall x, In x xs -> x <> None) -> Sql.sum xs <> None.
Proof.
  unfold Sql.sum. intros Hne Hall.
  assert (H : forall ys acc,
             (forall x, In x ys -> x <> None) ->
             acc <> None \/ ys <> [] ->
             fold_left (fun acc x =>
                          match x, acc with
                          | None, _ => acc
                          | Some q, None => Some q
                          | Some q, Some a => Some (a + q)%Q
                          end) ys acc <> None).
  { induction ys as [| y t IH]; simpl; intros acc Hys Hor.
    - destruct Hor as [H | H]; [exact H | now contradiction H].
    - apply IH; [intros x Hx; apply Hys; now right |].
      left. destruct y as [q |].
      + destruct acc; discriminate.
      + exfalso. now apply (Hys None); [left |]. }
  apply H; auto.
Qed.

Lemma find_none_all {A} (p : A -> bool) (l : list A) :
  (forall x, In x l -> p x = false) -> find p l = None.
Proof.
  induction l as [| x t IH]; simpl; intros H; [reflexivity |].
  rewrite (H x (or_introl eq_refl)). apply IH. intros y Hy. apply H. now right.
Qed.

(** Every row of the grouped query stands for a month that has an entry,
    and holds the sums over the entries of that month. *)
Lemma monthly_sums_In (query : list TaxEntry) (r : MonthSums) :
  In r (monthly_sums query) ->
  exists e, In e query /\ month_of e = g_month r
    /\ g_rrr r
       = Sql.sum (map (fun e => Sql.case_else_zero (rrr_verified e)
                                                  (rrr_amount e))
                      (filter (fun e => g_month r =? month_of e) query))
    /\ g_paydirect r
       = Sql.sum (map (fun e => Sql.case_else_zero (paydirect_verified e)
                                                  (paydirect_amount e))
                      (filter (fun e => g_month r =? month_of e) query)).
Proof.
  unfold monthly_sums. intros H.
  apply (Permutation_in _ (Permutation_sym (order_by_perm _ _))) in H.
  apply in_map_iff in H. destruct H as [[k g] [<- H]].
  unfold Sql.group_by in H. apply in_map_iff in H.
  destruct H as [k' [Hk Hin]]. inversion Hk; subst k' g. clear Hk.
  apply (distinct_incl Z.eqb) in Hin. apply in_map_iff in Hin.
  destruct Hin as [e [He Hin]]. exists e. simpl. auto.
Qed.

Lemma first_of_month_rrr (query : list TaxEntry) (m : Z) :
  amounts_recorded query ->
  exists q, first_of_month (monthly_sums query) g_rrr m = inr q
            /\ ((forall e, In e query -> month_of e <> m) -> q = 0%Q).
Proof.
  intros Hrec. unfold first_of_month.
  destruct (find _ (monthly_sums query)) as [r |] eqn:Hf.
  - destruct (find_some _ _ Hf) as [Hin Hm]. apply Z.eqb_eq in Hm.
    destruct (monthly_sums_In _ _ Hin) as [e [He [Hme [Hr _]]]].
    destruct (g_rrr r) as [q |] eqn:Hq.
    + exists q. split; [reflexivity |]. intros Hno.
      exfalso. apply (Hno e He). congruence.
    + exfalso. symmetry in Hr. revert Hr. apply sql_sum_present.
      * intros Hnil. apply map_eq_nil in Hnil.
        assert (Hin' : In e (filter (fun e => g_month r =? month_of e) query)).
        { apply filter_In. split; [exact He |]. apply Z.eqb_eq. congruence. }
        rewrite Hnil in Hin'. contradiction.
      * intros x Hx. apply in_map_iff in Hx. destruct Hx as [e' [<- He']].
        apply filter_In in He'. destruct He' as [He' _].
        destruct (Hrec e' He') as [H1 _]. unfold Sql.case_else_zero.
        destruct (rrr_verified e'); [now apply H1 | discriminate].
  - exists 0%Q. split; reflexivity.
Qed.

Lemma first_of_month_paydirect (query : list TaxEntry) (m : Z) :
  amounts_recorded query ->
  exists q, first_of_month (monthly_sums query) g_paydirect m = inr q
            /\ ((forall e, In e query -> month_of e <> m) -> q = 0%Q).
Proof.
  intros Hrec. unfold first_of_month.
  destruct (find _ (monthly_sums query)) as [r |] eqn:Hf.
  - destruct (find_some _ _ Hf) as [Hin Hm]. apply Z.eqb_eq in Hm.
    destruct (monthly_sums_In _ _ Hin) as [e [He [Hme [_ Hr]]]].
    destruct (g_paydirect r) as [q |] eqn:Hq.
    + exists q. split; [reflexivity |]. intros Hno.
      exfalso. apply (Hno e He). congruence.
    + exfalso. symmetry in Hr. revert Hr. apply sql_sum_present.
      * intros Hnil. apply map_eq_nil in Hnil.
        assert (Hin' : In e (filter (fun e => g_month r =? month_of e) query)).
        { apply filter_In. split; [exact He |]. apply Z.eqb_eq. congruence. }
        rewrite Hnil in Hin'. contradiction.
      * intros x Hx. apply in_map_iff in Hx. destruct Hx as [e' [<- He']].
        apply filter_In in He'. destruct He' as [He' _].
        destruct (Hrec e' He') as [_ H2]. unfold Sql.case_else_zero.
        destruct (paydirect_verified e'); [now apply H2 | discriminate].
  - exists 0%Q. split; reflexivity.
Qed.

(** One pass of the loop: a row for month [m], all zero when the month
    has no entry. *)
Lemma month_row_spec (query : list TaxEntry) (m : Z) :
  amounts_recorded query ->
  exists row, month_row (monthly_sums query) m = inr row
    /\ a_month row = m
    /\ a_total row = (a_rrr row + a_paydirect row)%Q
    /\ ((forall e, In e query -> month_of e <> m) ->
        a_rrr row = 0%Q /\ a_paydirect row = 0%Q /\ a_total row = 0%Q).
Proof.
  intros Hrec. unfold month_row.
  destruct (first_of_month_rrr query m Hrec) as [q1 [H1 Z1]].
  destruct (first_of_month_paydirect query m Hrec) as [q2 [H2 Z2]].
  rewrite H1, H2. simpl. eexists. split; [reflexivity |]. simpl.
  repeat split; auto.
  rewrite (Z1 H), (Z2 H). reflexivity.
Qed.

(** With bounds that parse, the two filters keep the entries of the
    range. *)
Lemma entries_in_range_spec (env : Env) (d : Database)
    (from_date to_date : option string) :
  bound_parses env from_date -> bound_parses env to_date ->
  entries_in_range env d from_date to_date
  = inr (filter (in_date_range env from_date to_date) (tax_entries d)).
Proof.
  unfold bound_parses, entries_in_range, in_date_range, strptime.
  intros Hf Ht.
  destruct (truthy_str from_date);
    [destruct (strptime_ymd env (str_of from_date));
       [| now contradiction Hf] |];
    (destruct (truthy_str to_date);
       [destruct (strptime_ymd env (str_of to_date));
          [| now contradiction Ht] |]);
    simpl; f_equal; rewrite ?filter_twice;
    try (apply filter_ext; intros e; now rewrite ?andb_true_r).
  clear. induction (tax_entries d) as [| e t IH]; simpl; congruence.
Qed.




End AnalyticsFacts.

(** ** The order of the league *)

Module OrderFacts.
Import Py Models Sys Payment_api App Vocab Samples.
Import SortFacts ResultFacts PercentFacts LeagueFacts.

(** C5, what the claim says and the sort does not do: bob and alice are
    tied at 50 percent; both routes leave bob in front of alice, the order
    in which the query returned them, although "alice" sorts before
    "bob". *)
Lemma tied_agents_keep_query_order :
  (exists out,
      dashboard_league tied_rows = inr out
      /\ map (fun r => (q_ATO (d_row r), d_Percent r)) out
         = [("bob", 50.0%Q); ("alice", 50.0%Q)])
  /\ (exists enriched,
        for_each enrich tied_rows = inr enriched
        /\ map (fun r => (l_ATO r, l_Percent r))
               (sort_desc l_Percent enriched)
           = [("bob", 50.00%Q); ("alice", 50.00%Q)])
  /\ String.ltb "alice" "bob" = true.
Proof.
  split; [eexists; split; vm_compute; reflexivity |].
  split; [eexists; split; vm_compute; reflexivity |].
  reflexivity.
Qed.

(** C5 (as amended).  Both routes put the league in descending order of
    percent; the rows that share a percent keep the order in which the
    query returned them, and sorting the result again changes nothing. *)
Theorem league_order_is_stable_descending (env : Env) (d : Database)
    (from_date to_date : option string) (query_rows : list LeagueQueryRow) :
  (exists enriched rows,
      for_each enrich (league_query env d from_date to_date) = inr enriched
      /\ league_table env d from_date to_date = inr rows
      /\ Permutation enriched rows
      /\ StronglySorted (descending l_Percent) rows
      /\ (forall c, filter (fun r => Qeq_bool (l_Percent r) c) rows
                    = filter (fun r => Qeq_bool (l_Percent r) c) enriched)
      /\ sort_desc l_Percent rows = rows)
  /\ (exists enriched out,
        map d_row enriched = query_rows
        /\ dashboard_league query_rows = inr out
        /\ Permutation enriched out
        /\ StronglySorted (descending d_Percent) out
        /\ (forall c, filter (fun r => Qeq_bool (d_Percent r) c) out
                      = filter (fun r => Qeq_bool (d_Percent r) c) enriched)
        /\ sort_desc d_Percent out = out).
Proof.
  split.
  - destruct (league_table_rows env d from_date to_date)
      as [enriched [He [Hrows _]]].
    exists enriched, (sort_desc l_Percent enriched).
    split; [exact He |]. split; [exact Hrows |].
    split; [apply sort_desc_perm |].
    split; [apply sort_desc_sorted |].
    split; [intros c; apply sort_desc_stable |].
    apply sort_desc_idempotent.
  - unfold dashboard_league.
    match goal with
    | |- context [for_each ?f ?l] =>
        destruct (for_each_total f l) as [enriched [He Hall]]
    end.
    { intros q _. rewrite percent_if_target_spec. simpl. eauto. }
    rewrite He. simpl. exists enriched, (sort_desc d_Percent enriched).
    split.
    { transitivity (map (fun q : LeagueQueryRow => q) query_rows);
        [| apply map_id].
      eapply Forall2_map_eq; [| exact Hall].
      intros q r Hq. simpl in Hq.
      destruct (percent_if_target 1 _ _); simpl in Hq; [discriminate |].
      now inversion Hq. }
    split; [reflexivity |].
    split; [apply sort_desc_perm |].
    split; [apply sort_desc_sorted |].
    split; [intros c; apply sort_desc_stable |].
    apply sort_desc_idempotent.
Qed.

End OrderFacts.

(** ** The entry store *)

Module StoreFacts.
Import Py Models Sys Payment_api App Vocab Samples.
Local Open Scope world_scope.

Lemma find_by_id (es : list TaxEntry) (entry : TaxEntry) :
  NoDup (map id es) -> In entry es ->
  find (fun e => id e =? id entry) es = Some entry.
Proof.
  induction es as [| a t IH]; simpl; intros Hnd Hin; [contradiction |].
  inversion Hnd as [| ? ? Hnotin Hnd']; subst.
  destruct (Z.eqb_spec (id a) (id entry)) as [Heq | Hne].
  - destruct Hin as [-> | Hin]; [reflexivity |].
    exfalso. apply Hnotin. rewrite Heq. now apply in_map.
  - destruct Hin as [-> | Hin]; [now contradiction Hne | now apply IH].
Qed.

Lemma set_tax_entries_same (w : World) :
  set_tax_entries (tax_entries (db w)) w = w.
Proof. now destruct w as [[us ts es] calls n k]. Qed.

(** C7. An entry of the store is deleted exactly when neither channel is
    verified: then the row with its id is gone and every other row stays;
    with a verified channel the request is answered with
    "Cannot delete verified entry." and the world is unchanged. *)
Theorem delete_iff_unverified (w : World) (entry : TaxEntry) :
  entries_keyed w ->
  In entry (tax_entries (db w)) ->
  (fst (delete_entry (id entry) w)
     = inr (Redirect "enter_tax_data" EntryDeleted)
   <-> rrr_verified entry = false /\ paydirect_verified entry = false)
  /\ (rrr_verified entry = false -> paydirect_verified entry = false ->
      let w' := snd (delete_entry (id entry) w) in
      tax_entries (db w')
      = filter (fun e => negb (id e =? id entry)) (tax_entries (db w))
      /\ ~ In entry (tax_entries (db w'))
      /\ (forall e, In e (tax_entries (db w)) -> e <> entry ->
                    In e (tax_entries (db w')))
      /\ users (db w') = users (db w) /\ targets (db w') = targets (db w))
  /\ (rrr_verified entry = true \/ paydirect_verified entry = true ->
      delete_entry (id entry) w
      = (inr (Redirect "enter_tax_data" CannotDeleteVerified), w)).
Proof.
  intros Hkey Hin. unfold delete_entry, bind, query_first, ret.
  rewrite (find_by_id _ _ Hkey Hin).
  destruct (rrr_verified entry) eqn:Er, (paydirect_verified entry) eqn:Ep;
    simpl.
  1-3: split; [split; [intros H; discriminate H
                      | intros [H1 H2]; discriminate] |];
       split; [intros H1 H2; discriminate | intros _; reflexivity].
  split; [split; [auto | reflexivity] |].
  split; [| intros [H | H]; discriminate H].
  intros _ _. split; [reflexivity |]. split.
  - intros H. apply filter_In in H. destruct H as [_ H].
    now rewrite Z.eqb_refl in H.
  - split; [| split; reflexivity].
    intros e He Hne. apply filter_In. split; [exact He |].
    apply negb_true_iff. apply Z.eqb_neq. intros Heq.
    apply Hne. unfold entries_keyed in Hkey.
    pose proof (find_by_id _ _ Hkey He) as F1.
    pose proof (find_by_id _ _ Hkey Hin) as F2.
    rewrite Heq in F1. congruence.
Qed.

(** The theorem at the two entries of a small store: the unverified one
    can be deleted, the verified one cannot. *)
Lemma delete_iff_unverified_witness :
  entries_keyed (start_of mixed_db)
  /\ In (pending_entry 2 1 "RRR-2") (tax_entries (db (start_of mixed_db)))
  /\ (fst (delete_entry 2 (start_of mixed_db))
        = inr (Redirect "enter_tax_data" EntryDeleted)
      <-> rrr_verified (pending_entry 2 1 "RRR-2") = false
          /\ paydirect_verified (pending_entry 2 1 "RRR-2") = false).
Proof.
  assert (Hk : entries_keyed (start_of mixed_db)).
  { unfold entries_keyed. simpl.
    repeat constructor; simpl; intuition discriminate. }
  assert (Hin : In (pending_entry 2 1 "RRR-2")
                   (tax_entries (db (start_of mixed_db)))).
  { simpl. right. left. reflexivity. }
  split; [exact Hk |]. split; [exact Hin |].
  exact (proj1 (delete_iff_unverified (start_of mixed_db)
                  (pending_entry 2 1 "RRR-2") Hk Hin)).
Defined.

End StoreFacts.

(** ** The payment verifiers *)

Module VerifierFacts.
Import Py Models Sys Payment_api App Vocab Samples.
Local Open Scope world_scope.

Lemma calls_on_snoc (c c' : Channel) (ref : option string) (calls : list VerifierCall) :
  filter (fun k => channel_eqb (call_channel k) c) (calls ++ [mk_call c' ref])
  = filter (fun k => channel_eqb (call_channel k) c) calls
    ++ (if channel_eqb c' c then [mk_call c' ref] else []).
Proof. rewrite filter_app. simpl. now destruct (channel_eqb c' c). Qed.

Lemma randint_range (env : Env) (a b : Z) (n : nat) :
  a <= b -> a <= a + entropy env n mod (b - a + 1) <= b.
Proof.
  intros H. pose proof (Z.mod_pos_bound (entropy env n) (b - a + 1)). lia.
Qed.

(** What one call of the Remita verifier does. *)
Lemma verify_remita_rrr_spec (env : Env) (ref : option string) (w : World) :
  exists r w',
    verify_remita_rrr env ref w = (r, w')
    /\ db w' = db w /\ ticks w' = ticks w
    /\ verifier_calls w' = verifier_calls w ++ [mk_call Remita ref]
    /\ (truthy_str ref = false -> r = inr unverified /\ draws w' = draws w)
    /\ (USE_LIVE_API env = false -> truthy_str ref = true ->
        exists a, 10000 <= a <= 200000
                  /\ r = inr (mk_Verification true (inject_Z a)))
    /\ (verifiers_return env -> exists v, r = inr v).
Proof.
  unfold verify_remita_rrr, bind, note_call, ret, randint.
  destruct (truthy_str ref) eqn:T; cbn -[Z.add Z.modulo Z.sub Nat.sub].
  - destruct (USE_LIVE_API env) eqn:L; cbn -[Z.add Z.modulo Z.sub Nat.sub].
    + eexists. eexists. split; [reflexivity |].
      cbn -[Z.add Z.modulo Z.sub Nat.sub].
      repeat split; try discriminate.
      intros Hret. destruct (Hret L (List.length (verifier_calls w ++
                               [mk_call Remita ref]) - 1)%nat (str_of ref))
        as [Hr _]. exact Hr.
    + eexists. eexists. split; [reflexivity |].
      cbn -[Z.add Z.modulo Z.sub Nat.sub].
      repeat split; try discriminate; eauto.
      intros _ _. eexists. split; [| reflexivity].
      apply randint_range. lia.
  - eexists. eexists. split; [reflexivity |]. simpl.
    repeat split; try discriminate; eauto.
Qed.

(** What one call of the PayDirect verifier does. *)
Lemma verify_paydirect_reference_spec (env : Env) (ref : option string)
    (w : World) :
  exists r w',
    verify_paydirect_reference env ref w = (r, w')
    /\ db w' = db w /\ ticks w' = ticks w
    /\ verifier_calls w' = verifier_calls w ++ [mk_call PayDirect ref]
    /\ (truthy_str ref = false -> r = inr unverified /\ draws w' = draws w)
    /\ (USE_LIVE_API env = false -> truthy_str ref = true ->
        exists a, 15500 <= a <= 502000
                  /\ r = inr (mk_Verification true (inject_Z a)))
    /\ (verifiers_return env -> exists v, r = inr v).
Proof.
  unfold verify_paydirect_reference, bind, note_call, ret, randint.
  destruct (truthy_str ref) eqn:T; cbn -[Z.add Z.modulo Z.sub Nat.sub].
  - destruct (USE_LIVE_API env) eqn:L; cbn -[Z.add Z.modulo Z.sub Nat.sub].
    + eexists. eexists. split; [reflexivity |].
      cbn -[Z.add Z.modulo Z.sub Nat.sub].
      repeat split; try discriminate.
      intros Hret. destruct (Hret L (List.length (verifier_calls w ++
                               [mk_call PayDirect ref]) - 1)%nat (str_of ref))
        as [_ Hr]. exact Hr.
    + eexists. eexists. split; [reflexivity |].
      cbn -[Z.add Z.modulo Z.sub Nat.sub].
      repeat split; try discriminate; eauto.
      intros _ _. eexists. split; [| reflexivity].
      apply randint_range. lia.
  - eexists. eexists. split; [reflexivity |]. simpl.
    repeat split; try discriminate; eauto.
Qed.

End VerifierFacts.

(** ** The routes that write *)

Module RouteFacts.
Import Py Models Sys Payment_api App Vocab Samples VerifierFacts StoreFacts.
Local Open Scope world_scope.

Lemma precheck (ref : option string) (p : TaxEntry -> bool) (w : World) :
  (if truthy_str ref then query_first p else ret None) w
  = (inr (if truthy_str ref then find p (tax_entries (db w)) else None), w).
Proof. now destruct (truthy_str ref). Qed.

Lemma calls_on_other (c c' : Channel) (ref : option string) (w w' : World) :
  verifier_calls w' = verifier_calls w ++ [mk_call c' ref] ->
  channel_eqb c' c = false ->
  calls_on c w' = calls_on c w.
Proof.
  intros H Hc. unfold calls_on. rewrite H, calls_on_snoc, Hc.
  apply app_nil_r.
Qed.

(** The Remita verification of a route: skipped for a reference that is
    absent or empty. *)
Lemma guarded_remita (env : Env) (ref : option string) (w : World) :
  exists r w',
    (if truthy_str ref then verify_remita_rrr env ref else ret unverified) w
    = (r, w')
    /\ db w' = db w /\ ticks w' = ticks w
    /\ calls_on PayDirect w' = calls_on PayDirect w
    /\ (truthy_str ref = false -> r = inr unverified /\ w' = w)
    /\ (USE_LIVE_API env = false -> truthy_str ref = true ->
        exists a, 10000 <= a <= 200000
                  /\ r = inr (mk_Verification true (inject_Z a)))
    /\ (verifiers_return env -> exists v, r = inr v).
Proof.
  destruct (truthy_str ref) eqn:T.
  - destruct (verify_remita_rrr_spec env ref w)
      as (r & w' & E & Hdb & Ht & Hc & _ & Hmock & Hret).
    exists r, w'. repeat split; auto; try discriminate.
    now apply (calls_on_other PayDirect Remita ref).
  - exists (inr unverified), w. unfold ret. repeat split; eauto; discriminate.
Qed.

Lemma guarded_paydirect (env : Env) (ref : option string) (w : World) :
  exists r w',
    (if truthy_str ref then verify_paydirect_reference env ref
     else ret unverified) w
    = (r, w')
    /\ db w' = db w /\ ticks w' = ticks w
    /\ calls_on Remita w' = calls_on Remita w
    /\ (truthy_str ref = false -> r = inr unverified /\ w' = w)
    /\ (USE_LIVE_API env = false -> truthy_str ref = true ->
        exists a, 15500 <= a <= 502000
                  /\ r = inr (mk_Verification true (inject_Z a)))
    /\ (verifiers_return env -> exists v, r = inr v).
Proof.
  destruct (truthy_str ref) eqn:T.
  - destruct (verify_paydirect_reference_spec env ref w)
      as (r & w' & E & Hdb & Ht & Hc & _ & Hmock & Hret).
    exists r, w'. repeat split; auto; try discriminate.
    now apply (calls_on_other Remita PayDirect ref).
  - exists (inr unverified), w. unfold ret. repeat split; eauto; discriminate.
Qed.

Lemma find_opt_str (col : TaxEntry -> option string) (ref : option string)
    (es : list TaxEntry) (e : TaxEntry) :
  find (fun e => opt_str_eqb (col e) ref) es = Some e ->
  In ref (map col es).
Proof.
  intros H. apply find_some in H. destruct H as [Hin Heq].
  apply in_map_iff. exists e. split; [| exact Hin].
  destruct (col e), ref; simpl in Heq; try discriminate; [| reflexivity].
  apply String.eqb_eq in Heq. now subst.
Qed.
(** Every way a submission can end. *)
Lemma submit_tax_item_cases (env : Env) (uid : Z) (form : dict) (w : World) :
  exists r w',
    submit_tax_item env uid form w = (r, w')
    /\ users (db w') = users (db w) /\ targets (db w') = targets (db w)
    /\ (truthy_str (form_get form "remita_rrr") = false ->
        calls_on Remita w' = calls_on Remita w)
    /\ (truthy_str (form_get form "paydirect") = false ->
        calls_on PayDirect w' = calls_on PayDirect w)
    /\ ((r = inr (Redirect "enter_tax_data" RrrAlreadyUsed) /\ w' = w
         /\ truthy_str (form_get form "remita_rrr") = true
         /\ In (form_get form "remita_rrr") (map rrr (tax_entries (db w))))
        \/ (r = inr (Redirect "enter_tax_data" PayDirectAlreadyUsed) /\ w' = w
            /\ truthy_str (form_get form "paydirect") = true
            /\ In (form_get form "paydirect")
                  (map paydirect_ref (tax_entries (db w))))
        \/ ((exists e, r = inl e)
            /\ tax_entries (db w') = tax_entries (db w)
            /\ ~ verifiers_return env)
        \/ (r = inr (Redirect "enter_tax_data" DuplicateNotSaved)
            /\ tax_entries (db w') = tax_entries (db w)
            /\ ~ references_fresh form (tax_entries (db w)))
        \/ (exists e,
              r = inr (Redirect "enter_tax_data" EntrySubmitted)
              /\ tax_entries (db w') = tax_entries (db w) ++ [e]
              /\ references_fresh form (tax_entries (db w))
              /\ recorded_as env uid form e)).
Proof.
  unfold submit_tax_item.
  set (rrr' := form_get form "remita_rrr").
  set (pd := form_get form "paydirect").
  unfold bind at 1. rewrite precheck.
  destruct (if truthy_str rrr' then find _ _ else None) as [e1 |] eqn:F1.
  { exists (inr (Redirect "enter_tax_data" RrrAlreadyUsed)), w.
    destruct (truthy_str rrr') eqn:T; [| discriminate].
    repeat split; try discriminate. left.
    repeat split. eapply find_opt_str. exact F1. }
  unfold bind at 1. rewrite precheck.
  destruct (if truthy_str pd then find _ _ else None) as [e2 |] eqn:F2.
  { exists (inr (Redirect "enter_tax_data" PayDirectAlreadyUsed)), w.
    destruct (truthy_str pd) eqn:T; [| discriminate].
    repeat split; try discriminate. right. left.
    repeat split. eapply (find_opt_str paydirect_ref). exact F2. }
  unfold bind at 1.
  destruct (guarded_remita env rrr' w)
    as (r1 & w1 & E1 & Hdb1 & Ht1 & Hc1 & Habs1 & Hmock1 & Hret1).
  rewrite E1.
  destruct r1 as [x1 | v1].
  { exists (inl x1), w1. rewrite Hdb1. repeat split; auto.
    - intros T. now destruct (Habs1 T).
    - right. right. left. repeat split; eauto.
      intros Hret. destruct (Hret1 Hret). discriminate. }
  unfold bind at 1.
  destruct (guarded_paydirect env pd w1)
    as (r2 & w2 & E2 & Hdb2 & Ht2 & Hc2 & Habs2 & Hmock2 & Hret2).
  rewrite E2.
  destruct r2 as [x2 | v2].
  { exists (inl x2), w2. rewrite Hdb2, Hdb1. repeat split; auto.
    - intros T. rewrite Hc2. now destruct (Habs1 T) as [_ ->].
    - intros T. now destruct (Habs2 T).
    - right. right. left. repeat split; eauto.
      intros Hret. destruct (Hret2 Hret). discriminate. }
  unfold bind, utcnow, add_and_commit, ret.
  cbn [db verifier_calls draws ticks tax_entries users targets].
  rewrite Hdb2, Hdb1.
  cbn [rrr paydirect_ref].
  assert (CR : truthy_str rrr' = false ->
               filter (fun k => channel_eqb (call_channel k) Remita)
                      (verifier_calls w2) = calls_on Remita w).
  { intros T. fold (calls_on Remita w2). rewrite Hc2.
    now destruct (Habs1 T) as [_ ->]. }
  assert (CP : truthy_str pd = false ->
               filter (fun k => channel_eqb (call_channel k) PayDirect)
                      (verifier_calls w2) = calls_on PayDirect w).
  { intros T. fold (calls_on PayDirect w2).
    destruct (Habs2 T) as [_ ->]. exact Hc1. }
  destruct (breaks_unique rrr' pd (tax_entries (db w))) eqn:B.
  - eexists. eexists. split; [reflexivity |].
    unfold calls_on. cbn [db verifier_calls].
    repeat split; auto.
    right. right. right. left. repeat split.
    unfold references_fresh. fold rrr' pd. rewrite B. discriminate.
  - eexists. eexists. split; [reflexivity |].
    unfold calls_on, set_tax_entries, set_db.
    cbn [db verifier_calls users targets tax_entries].
    repeat split; auto.
    right. right. right. right. eexists.
    split; [reflexivity |]. split; [reflexivity |]. split; [exact B |].
    unfold recorded_as.
    cbn [rrr paydirect_ref uploaded_by rrr_amount paydirect_amount
         rrr_verified paydirect_verified].
    repeat split; try discriminate.
    + destruct (Habs1 H) as [Hv _]. now inversion Hv.
    + destruct (Habs1 H) as [Hv _]. now inversion Hv.
    + destruct (Habs2 H) as [Hv _]. now inversion Hv.
    + destruct (Habs2 H) as [Hv _]. now inversion Hv.
    + destruct (Hmock1 H H0) as [a [_ Hv]]. now inversion Hv.
    + destruct (Hmock1 H H0) as [a [Ha Hv]]. exists a. inversion Hv. auto.
    + destruct (Hmock2 H H0) as [a [_ Hv]]. now inversion Hv.
    + destruct (Hmock2 H H0) as [a [Ha Hv]]. exists a. inversion Hv. auto.
Qed.

(** *** Duplicate references *)








(** *** Absent references *)

Lemma falsy_reference (ref : option string) :
  ref = None \/ ref = Some "" <-> truthy_str ref = false.
Proof.
  split.
  - intros [-> | ->]; reflexivity.
  - destruct ref as [[| c s] |]; simpl; auto; discriminate.
Qed.

(** C8. For a reference that is [None] or empty both verifiers return
    unverified with amount 0, in live and in mock mode, without raising
    and without touching the tables or the random generator; and
    [submit_tax_item] does not call the verifier of a channel whose
    reference is absent or empty, and stores that channel as unverified
    with amount 0. *)
Theorem absent_reference_is_unverified (env : Env) (w : World) :
  (forall ref, ref = None \/ ref = Some "" ->
     fst (verify_remita_rrr env ref w) = inr (mk_Verification false 0)
     /\ fst (verify_paydirect_reference env ref w)
        = inr (mk_Verification false 0)
     /\ db (snd (verify_remita_rrr env ref w)) = db w
     /\ db (snd (verify_paydirect_reference env ref w)) = db w
     /\ draws (snd (verify_remita_rrr env ref w)) = draws w
     /\ draws (snd (verify_paydirect_reference env ref w)) = draws w)
  /\ (forall uid form r w',
        submit_tax_item env uid form w = (r, w') ->
        (form_get form "remita_rrr" = None
         \/ form_get form "remita_rrr" = Some "" ->
         calls_on Remita w' = calls_on Remita w
         /\ forall e, tax_entries (db w') = tax_entries (db w) ++ [e] ->
                      rrr_verified e = false /\ rrr_amount e = Some 0%Q)
        /\ (form_get form "paydirect" = None
            \/ form_get form "paydirect" = Some "" ->
            calls_on PayDirect w' = calls_on PayDirect w
            /\ forall e, tax_entries (db w') = tax_entries (db w) ++ [e] ->
                         paydirect_verified e = false
                         /\ paydirect_amount e = Some 0%Q)).
Proof.
  split.
  - intros ref Href. apply falsy_reference in Href.
    destruct (verify_remita_rrr_spec env ref w)
      as (r1 & w1 & E1 & Hdb1 & _ & _ & Habs1 & _).
    destruct (verify_paydirect_reference_spec env ref w)
      as (r2 & w2 & E2 & Hdb2 & _ & _ & Habs2 & _).
    rewrite E1, E2. simpl.
    destruct (Habs1 Href) as [-> Hd1]. destruct (Habs2 Href) as [-> Hd2].
    repeat split; auto.
  - intros uid form r w' E.
    destruct (submit_tax_item_cases env uid form w)
      as (r0 & w0 & E0 & _ & _ & Hcr & Hcp & Hcases).
    rewrite E in E0. inversion E0; subst r0 w0. clear E0.
    assert (Hsame : forall e, tax_entries (db w) = tax_entries (db w) ++ [e]
                              -> False).
    { intros e He. apply (f_equal (@List.length _)) in He.
      rewrite length_app in He. simpl in He. lia. }
    split; intros Href; apply falsy_reference in Href;
      (split; [auto |]); intros e He;
      destruct Hcases as [[_ [-> _]] | [[_ [-> _]] | [[_ [Hes _]]
                         | [[_ [Hes _]] | [e' [_ [Hes [_ Hrec]]]]]]]];
      try (exfalso; apply (Hsame e); congruence).
    + rewrite Hes in He. apply app_inj_tail in He. destruct He as [_ <-].
      destruct Hrec as (Hr & _ & _ & _ & _ & Ha & _).
      apply Ha. now rewrite Hr.
    + rewrite Hes in He. apply app_inj_tail in He. destruct He as [_ <-].
      destruct Hrec as (_ & Hp & _ & _ & _ & _ & Ha & _).
      apply Ha. now rewrite Hp.
Qed.

(** The theorem in live mode, for a form with an empty Remita field. *)
Lemma absent_reference_witness :
  (Some "" = None \/ Some "" = Some "")
  /\ form_get no_reference_form "remita_rrr" = Some ""
  /\ fst (verify_remita_rrr live_env (Some "") (start_of one_ato_db))
     = inr (mk_Verification false 0)
  /\ calls_on Remita
       (snd (submit_tax_item live_env 1 no_reference_form
               (start_of one_ato_db)))
     = calls_on Remita (start_of one_ato_db).
Proof.
  split; [right; reflexivity |]. split; [reflexivity |].
  pose proof (absent_reference_is_unverified live_env (start_of one_ato_db))
    as [Hverify Hsubmit].
  split.
  - exact (proj1 (Hverify (Some "") (or_intror eq_refl))).
  - exact (proj1 (proj1 (Hsubmit 1 no_reference_form _ _
                           (surjective_pairing _))
                    (or_intror eq_refl))).
Defined.

(** *** Mock mode *)

(** C10. With the live flag off, both verifiers answer every non-empty
    reference with verified = true and an amount of the random range
    (10000..200000 for Remita, 15500..502000 for PayDirect); two calls with
    the same reference can return different amounts; and an entry that
    [submit_tax_item] stores has every channel with a non-empty reference
    verified. *)
Theorem mock_verification_is_random :
  (forall env w ref,
      USE_LIVE_API env = false -> truthy_str ref = true ->
      (exists a, 10000 <= a <= 200000
                 /\ fst (verify_remita_rrr env ref w)
                    = inr (mk_Verification true (inject_Z a)))
      /\ (exists a, 15500 <= a <= 502000
                    /\ fst (verify_paydirect_reference env ref w)
                       = inr (mk_Verification true (inject_Z a))))
  /\ (exists env w ref,
        USE_LIVE_API env = false
        /\ fst (verify_remita_rrr env ref w)
           <> fst (verify_remita_rrr env ref
                     (snd (verify_remita_rrr env ref w)))
        /\ fst (verify_paydirect_reference env ref w)
           <> fst (verify_paydirect_reference env ref
                     (snd (verify_paydirect_reference env ref w))))
  /\ (forall env uid form w w' e,
        USE_LIVE_API env = false ->
        submit_tax_item env uid form w
        = (inr (Redirect "enter_tax_data" EntrySubmitted), w') ->
        tax_entries (db w') = tax_entries (db w) ++ [e] ->
        (truthy_str (rrr e) = true -> rrr_verified e = true)
        /\ (truthy_str (paydirect_ref e) = true ->
            paydirect_verified e = true)).
Proof.
  split; [| split].
  - intros env w ref Hmock Href.
    destruct (verify_remita_rrr_spec env ref w)
      as (r1 & w1 & E1 & _ & _ & _ & _ & Hm1 & _).
    destruct (verify_paydirect_reference_spec env ref w)
      as (r2 & w2 & E2 & _ & _ & _ & _ & Hm2 & _).
    rewrite E1, E2. simpl.
    destruct (Hm1 Hmock Href) as [a1 [Ha1 ->]].
    destruct (Hm2 Hmock Href) as [a2 [Ha2 ->]].
    split; eauto.
  - exists mock_env, (start_of one_ato_db), (Some "RRR-123").
    split; [reflexivity |]. split; vm_compute; discriminate.
  - intros env uid form w w' e Hmock E He.
    destruct (submit_tax_item_cases env uid form w)
      as (r0 & w0 & E0 & _ & _ & _ & _ & Hcases).
    rewrite E in E0. inversion E0; subst r0 w0. clear E0.
    destruct Hcases as [[H _] | [[H _] | [[[x H] _]
                       | [[H _] | [e' [_ [Hes [_ Hrec]]]]]]]];
      try discriminate H.
    rewrite Hes in He. apply app_inj_tail in He. destruct He as [_ <-].
    destruct Hrec as (_ & _ & _ & _ & _ & _ & _ & Hr & Hp).
    split; intros T.
    + now destruct (Hr Hmock T).
    + now destruct (Hp Hmock T).
Qed.

(** The theorem for two Remita calls with "RRR-123" in mock mode. *)
Lemma mock_verification_witness :
  USE_LIVE_API mock_env = false
  /\ truthy_str (Some "RRR-123") = true
  /\ exists a, 10000 <= a <= 200000
               /\ fst (verify_remita_rrr mock_env (Some "RRR-123")
                         (start_of one_ato_db))
                  = inr (mk_Verification true (inject_Z a)).
Proof.
  split; [reflexivity |]. split; [reflexivity |].
  exact (proj1 (proj1 mock_verification_is_random mock_env
                  (start_of one_ato_db) (Some "RRR-123") eq_refl eq_refl)).
Defined.

(** *** Re-verification *)

Lemma rewrite_same (es : list TaxEntry) (entry : TaxEntry) :
  NoDup (map id es) -> In entry es ->
  map (fun e => if id e =? id entry then entry else e) es = es.
Proof.
  intros Hnd Hin. rewrite <- (map_id es) at 2. apply map_ext_in.
  intros e He. destruct (Z.eqb_spec (id e) (id entry)) as [Heq |];
    [| reflexivity].
  pose proof (find_by_id _ _ Hnd He) as F1.
  pose proof (find_by_id _ _ Hnd Hin) as F2.
  rewrite Heq in F1. congruence.
Qed.

Lemma same_record_refl (e : TaxEntry) : same_record e e.
Proof. unfold same_record. repeat split. Qed.

(** C9. Re-verifying an entry of the store rewrites the row of that entry
    and no other; in the rewritten row only the verified flag and the
    amount of a channel with a non-empty reference can differ: a channel
    whose reference is [None] (or empty) keeps its flag and its amount, and
    id, tax item, subhead, both references, uploader, data, upload time,
    month and year are as before. *)
Theorem reverify_touches_only_referenced_channels (env : Env) (w : World)
    (entry : TaxEntry) :
  entries_keyed w ->
  In entry (tax_entries (db w)) ->
  exists r w' entry',
    reverify_entry env (id entry) w = (r, w')
    /\ tax_entries (db w')
       = map (fun e => if id e =? id entry then entry' else e)
             (tax_entries (db w))
    /\ users (db w') = users (db w) /\ targets (db w') = targets (db w)
    /\ same_record entry entry'
    /\ (truthy_str (rrr entry) = false ->
        rrr_verified entry' = rrr_verified entry
        /\ rrr_amount entry' = rrr_amount entry)
    /\ (truthy_str (paydirect_ref entry) = false ->
        paydirect_verified entry' = paydirect_verified entry
        /\ paydirect_amount entry' = paydirect_amount entry).
Proof.
  intros Hkey Hin. unfold reverify_entry.
  unfold bind at 1. unfold query_first at 1.
  rewrite (find_by_id _ _ Hkey Hin).
  pose proof (rewrite_same _ _ Hkey Hin) as Hsame.
  unfold bind at 1.
  destruct (truthy_str (rrr entry)) eqn:Tr.
  - unfold bind at 1.
    destruct (verify_remita_rrr_spec env (rrr entry) w)
      as (r1 & w1 & E1 & Hdb1 & _).
    rewrite E1. destruct r1 as [x1 | v1].
    { exists (inl x1), w1, entry. rewrite Hdb1, Hsame.
      repeat split; auto using same_record_refl. }
    unfold ret at 1. unfold bind at 1.
    cbn [paydirect_ref set_rrr_result].
    destruct (truthy_str (paydirect_ref entry)) eqn:Tp.
    + unfold bind at 1.
      destruct (verify_paydirect_reference_spec env (paydirect_ref entry) w1)
        as (r2 & w2 & E2 & Hdb2 & _).
      rewrite E2.
      destruct r2 as [x2 | v2].
      { exists (inl x2), w2, entry. rewrite Hdb2, Hdb1, Hsame.
        repeat split; auto using same_record_refl. }
      unfold ret, bind, commit_entry, set_tax_entries, set_db.
      cbn [db tax_entries users targets id set_paydirect_result
           set_rrr_result].
      rewrite Hdb2, Hdb1.
      eexists. eexists. eexists. split; [reflexivity |].
      cbn [db tax_entries users targets].
      split; [reflexivity |]. unfold same_record. simpl.
      repeat split; discriminate.
    + unfold ret, bind, commit_entry, set_tax_entries, set_db.
      cbn [db tax_entries users targets id set_rrr_result].
      rewrite Hdb1.
      eexists. eexists. eexists. split; [reflexivity |].
      cbn [db tax_entries users targets].
      split; [reflexivity |]. unfold same_record. simpl.
      repeat split; discriminate.
  - unfold ret at 1. unfold bind at 1.
    destruct (truthy_str (paydirect_ref entry)) eqn:Tp.
    + unfold bind at 1.
      destruct (verify_paydirect_reference_spec env (paydirect_ref entry) w)
        as (r2 & w2 & E2 & Hdb2 & _).
      rewrite E2. destruct r2 as [x2 | v2].
      { exists (inl x2), w2, entry. rewrite Hdb2, Hsame.
        repeat split; auto using same_record_refl. }
      unfold ret, bind, commit_entry, set_tax_entries, set_db.
      cbn [db tax_entries users targets id set_paydirect_result].
      rewrite Hdb2.
      eexists. eexists. eexists. split; [reflexivity |].
      cbn [db tax_entries users targets].
      split; [reflexivity |]. unfold same_record. simpl.
      repeat split; discriminate.
    + unfold ret, bind, commit_entry, set_tax_entries, set_db.
      cbn [db tax_entries users targets].
      eexists. eexists. exists entry. split; [reflexivity |].
      cbn [db tax_entries users targets].
      repeat split; auto using same_record_refl.
Qed.

(** The theorem in mock mode at an entry with a Remita reference and no
    PayDirect reference. *)
Lemma reverify_witness :
  entries_keyed (start_of mixed_db)
  /\ In (pending_entry 2 1 "RRR-2") (tax_entries (db (start_of mixed_db)))
  /\ exists r w' entry',
       reverify_entry mock_env 2 (start_of mixed_db) = (r, w')
       /\ tax_entries (db w')
          = map (fun e => if id e =? 2 then entry' else e)
                (tax_entries (db (start_of mixed_db)))
       /\ users (db w') = users (db (start_of mixed_db))
       /\ targets (db w') = targets (db (start_of mixed_db))
       /\ same_record (pending_entry 2 1 "RRR-2") entry'
       /\ (truthy_str (rrr (pending_entry 2 1 "RRR-2")) = false ->
           rrr_verified entry' = rrr_verified (pending_entry 2 1 "RRR-2")
           /\ rrr_amount entry' = rrr_amount (pending_entry 2 1 "RRR-2"))
       /\ (truthy_str (paydirect_ref (pending_entry 2 1 "RRR-2")) = false ->
           paydirect_verified entry'
           = paydirect_verified (pending_entry 2 1 "RRR-2")
           /\ paydirect_amount entry'
              = paydirect_amount (pending_entry 2 1 "RRR-2")).
Proof.
  assert (Hk : entries_keyed (start_of mixed_db)).
  { unfold entries_keyed. simpl.
    repeat constructor; simpl; intuition discriminate. }
  assert (Hin : In (pending_entry 2 1 "RRR-2")
                   (tax_entries (db (start_of mixed_db)))).
  { simpl. right. left. reflexivity. }
  split; [exact Hk |]. split; [exact Hin |].
  exact (reverify_touches_only_referenced_channels mock_env
           (start_of mixed_db) (pending_entry 2 1 "RRR-2") Hk Hin).
Defined.

End RouteFacts.

(** ** SQL sums and Python sums *)

Module SumFacts.
Import Py Models App.

Lemma fold_Qplus_proper (xs : list Q) (a b : Q) :
  (a == b)%Q -> (fold_left Qplus xs a == fold_left Qplus xs b)%Q.
Proof.
  revert a b. induction xs as [| x t IH]; intros a b H; simpl; [exact H |].
  apply IH. now rewrite H.
Qed.

Lemma or_zero_some (q : Q) : (or_zero (Some q) == q)%Q.
Proof.
  unfold or_zero. destruct (Qeq_bool q 0) eqn:E; [| reflexivity].
  apply Qeq_bool_iff in E. now rewrite E.
Qed.

(** A NULL counts as 0 in a sum: [SUM(x) or 0] is the sum of [x or 0]. *)
Lemma sql_sum_or_zero (ys : list (option Q)) :
  (or_zero (Sql.sum ys) == Py.sum (map or_zero ys))%Q.
Proof.
  unfold Sql.sum, Py.sum.
  assert (H : forall acc,
             (or_zero
                (fold_left (fun acc x =>
                              match x, acc with
                              | None, _ => acc
                              | Some q, None => Some q
                              | Some q, Some a => Some (a + q)%Q
                              end) ys acc)
              == fold_left Qplus (map or_zero ys) (or_zero acc))%Q).
  { induction ys as [| y t IH]; intros acc; simpl; [reflexivity |].
    rewrite IH. apply fold_Qplus_proper.
    destruct y as [q |], acc as [a |].
    - rewrite !or_zero_some. reflexivity.
    - change (or_zero None) with 0%Q. now rewrite Qplus_0_l.
    - change (or_zero None) with 0%Q. now rewrite Qplus_0_r.
    - reflexivity. }
  apply (H None).
Qed.

(** Adding 0 for the rows that a test rejects is adding the rows that it
    keeps. *)
Lemma sum_where {A} (p : A -> bool) (f : A -> Q) (l : list A) :
  (Py.sum (map (fun x => if p x then f x else 0%Q) l)
   == Py.sum (map f (filter p l)))%Q.
Proof.
  unfold Py.sum.
  assert (H : forall a,
             (fold_left Qplus (map (fun x => if p x then f x else 0%Q) l) a
              == fold_left Qplus (map f (filter p l)) a)%Q).
  { induction l as [| x t IH]; intros a; simpl; [reflexivity |].
    destruct (p x); simpl.
    - apply IH.
    - rewrite <- IH. apply fold_Qplus_proper. apply Qplus_0_r. }
  apply H.
Qed.

(** [SUM(CASE WHEN verified THEN amount ELSE 0 END) or 0] is the sum of
    [amount or 0] over the verified rows. *)
Lemma sum_case_verified {A} (v : A -> bool) (amt : A -> option Q)
    (g : list A) :
  (or_zero (Sql.sum (map (fun e => Sql.case_else_zero (v e) (amt e)) g))
   == Py.sum (map (fun e => or_zero (amt e)) (filter v g)))%Q.
Proof.
  rewrite sql_sum_or_zero, map_map, <- sum_where.
  assert (E : map (fun e => or_zero (Sql.case_else_zero (v e) (amt e))) g
              = map (fun e => if v e then or_zero (amt e) else 0%Q) g).
  { apply map_ext. intros e. unfold Sql.case_else_zero. now destruct (v e). }
  rewrite E. reflexivity.
Qed.

End SumFacts.

(** ** The values of the league rows *)

Module LeagueValueFacts.
Import Py Models Sys Payment_api App Views Vocab Notions Samples.
Import SortFacts ResultFacts PercentFacts SqlFacts LeagueFacts SumFacts.

Lemma filter_flat_map {R J} (keep : J -> bool) (joined : R -> list J)
    (rows : list R) :
  filter keep (flat_map joined rows)
  = flat_map (fun r => filter keep (joined r)) rows.
Proof.
  induction rows as [| x t IH]; simpl; [reflexivity |].
  now rewrite filter_app, IH.
Qed.

Lemma map_flat_map {A B C} (g : B -> C) (f : A -> list B) (l : list A) :
  map g (flat_map f l) = flat_map (fun x => map g (f x)) l.
Proof.
  induction l as [| x t IH]; simpl; [reflexivity |].
  now rewrite map_app, IH.
Qed.

Lemma map_filter_comm {A B} (g : A -> B) (p : B -> bool) (l : list A) :
  map g (filter (fun x => p (g x)) l) = filter p (map g l).
Proof.
  induction l as [| x t IH]; simpl; [reflexivity |].
  destruct (p (g x)); simpl; now rewrite IH.
Qed.

Lemma filter_all {A} (p : A -> bool) (l : list A) :
  (forall x, In x l -> p x = true) -> filter p l = l.
Proof.
  induction l as [| x t IH]; simpl; intros H; [reflexivity |].
  rewrite (H x (or_introl eq_refl)). f_equal. apply IH.
  intros y Hy. apply H. now right.
Qed.

Lemma filter_none {A} (p : A -> bool) (l : list A) :
  (forall x, In x l -> p x = false) -> filter p l = [].
Proof.
  induction l as [| x t IH]; simpl; intros H; [reflexivity |].
  rewrite (H x (or_introl eq_refl)). apply IH.
  intros y Hy. apply H. now right.
Qed.

Lemma flat_map_one (us : list User) (u : User) (H : User -> list TaxEntry) :
  NoDup (map user_id us) -> In u us ->
  flat_map (fun u' => if user_id u' =? user_id u then H u' else []) us = H u.
Proof.
  induction us as [| a t IH]; simpl; intros Hnd Hin; [contradiction |].
  inversion Hnd as [| ? ? Hnotin Hnd']; subst.
  destruct Hin as [-> | Hin].
  - rewrite Z.eqb_refl.
    assert (Hrest : flat_map (fun u' => if user_id u' =? user_id u
                                        then H u' else []) t = []).
    { clear -Hnotin. induction t as [| b t IH]; simpl; [reflexivity |].
      destruct (Z.eqb_spec (user_id b) (user_id u)) as [Heq |].
      - exfalso. apply Hnotin. left. exact Heq.
      - apply IH. intros Hin. apply Hnotin. now right. }
    rewrite Hrest. apply app_nil_r.
  - destruct (Z.eqb_spec (user_id a) (user_id u)) as [Heq |].
    + exfalso. apply Hnotin. rewrite Heq. now apply in_map.
    + simpl. now apply IH.
Qed.

Lemma outer_targets_one (d : Database) (u : User) :
  (List.length (targets_of d (user_id u)) <= 1)%nat ->
  exists t, outer_targets d u = [t].
Proof.
  unfold outer_targets, targets_of.
  destruct (filter _ (targets d)) as [| a [| b ts]]; simpl; intros H.
  - now exists None.
  - now exists (Some a).
  - lia.
Qed.

(** The joined rows of one user carry the entries of that user, in table
    order. *)
Lemma join_entries_of (d : Database) (u : User) :
  well_keyed d -> In u (users d) ->
  map j_entry (filter (fun j => user_id (j_user j) =? user_id u)
                      (league_join d))
  = entries_of d (user_id u).
Proof.
  intros [Hpk Hone] Hu. unfold league_join.
  rewrite filter_flat_map, map_flat_map.
  assert (E : forall u',
             map j_entry
               (filter (fun j => user_id (j_user j) =? user_id u)
                  (flat_map (fun e =>
                     if user_id u' =? uploaded_by e
                     then map (fun t => (u', e, t)) (outer_targets d u')
                     else []) (tax_entries d)))
             = if user_id u' =? user_id u
               then map j_entry
                      (flat_map (fun e =>
                         if user_id u' =? uploaded_by e
                         then map (fun t => (u', e, t)) (outer_targets d u')
                         else []) (tax_entries d))
               else []).
  { intros u'.
    assert (Hrows : forall j,
               In j (flat_map (fun e =>
                       if user_id u' =? uploaded_by e
                       then map (fun t => (u', e, t)) (outer_targets d u')
                       else []) (tax_entries d)) ->
               j_user j = u').
    { intros j Hj. apply in_flat_map in Hj. destruct Hj as [e [_ Hj]].
      destruct (user_id u' =? uploaded_by e); [| contradiction].
      apply in_map_iff in Hj. now destruct Hj as [t0 [<- _]]. }
    destruct (user_id u' =? user_id u) eqn:Eu.
    - f_equal. apply filter_all. intros j Hj. now rewrite (Hrows j Hj).
    - rewrite filter_none; [reflexivity |].
      intros j Hj. now rewrite (Hrows j Hj). }
  rewrite (flat_map_ext _ _ E).
  rewrite (flat_map_one (users d) u
             (fun u' => map j_entry
                (flat_map (fun e =>
                   if user_id u' =? uploaded_by e
                   then map (fun t => (u', e, t)) (outer_targets d u')
                   else []) (tax_entries d))) Hpk Hu).
  destruct (outer_targets_one d u (Hone u Hu)) as [t0 Ht0]. rewrite Ht0.
  unfold entries_of.
  clear E.
  induction (tax_entries d) as [| e t IH]; [reflexivity |].
  cbn [flat_map filter]. rewrite map_app, (Z.eqb_sym (uploaded_by e)).
  destruct (user_id u =? uploaded_by e).
  - cbn [map app]. f_equal. exact IH.
  - exact IH.
Qed.

Lemma find_hd_filter {A} (p : A -> bool) (l : list A) :
  find p l = hd_error (filter p l).
Proof.
  induction l as [| x t IH]; simpl; [reflexivity |].
  now destruct (p x).
Qed.

(** The target column of a joined row is the target that
    [get_target_for_ato] finds, up to [or 0]. *)
Lemma joined_target (d : Database) (u : User) (t : option PerformanceTarget) :
  (List.length (targets_of d (user_id u)) <= 1)%nat ->
  In t (outer_targets d u) ->
  or_zero (match t with Some x => target_amount x | None => None end)
  = or_zero (get_target_for_ato d u).
Proof.
  unfold outer_targets, targets_of, get_target_for_ato.
  rewrite find_hd_filter.
  destruct (filter _ (targets d)) as [| a [| b ts]]; simpl; intros Hlen Hin.
  - destruct Hin as [<- | []]. reflexivity.
  - destruct Hin as [<- | []]. reflexivity.
  - lia.
Qed.

(** The query as one grouping of the joined rows that the filters keep. *)
Lemma league_query_as_groups (env : Env) (d : Database)
    (from_date to_date : option string) :
  league_query env d from_date to_date
  = map (fun kg : LeagueKey * list Joined =>
           let (k, g) := kg in
           mk_LeagueQueryRow
             (fst (fst k)) (snd (fst k))
             (Sql.sum (map (fun j => Sql.case_else_zero
                                       (rrr_verified (j_entry j))
                                       (rrr_amount (j_entry j))) g))
             (Sql.sum (map (fun j => Sql.case_else_zero
                                       (paydirect_verified (j_entry j))
                                       (paydirect_amount (j_entry j))) g))
             (snd k))
        (Sql.group_by league_key_eqb league_key
           (filter (fun j => is_ato (j_user j)
                             && in_window env from_date to_date (j_entry j))
                   (league_join d))).
Proof.
  unfold league_query, in_window. f_equal. f_equal.
  destruct (truthy_str from_date), (truthy_str to_date);
    rewrite ?filter_twice; apply filter_ext; intros j;
    destruct (is_ato (j_user j)); simpl; try reflexivity;
    rewrite ?andb_true_r; try reflexivity;
    now rewrite andb_assoc.
Qed.

(** What a row of the query holds. *)
Lemma league_query_row (env : Env) (d : Database)
    (from_date to_date : option string) (q : LeagueQueryRow) :
  well_keyed d ->
  In q (league_query env d from_date to_date) ->
  exists u,
    In u (users d) /\ is_ato u = true
    /\ q_user_id q = user_id u /\ q_ATO q = username u
    /\ or_zero (q_Target q) = or_zero (get_target_for_ato d u)
    /\ (or_zero (q_RRR q)
        == verified_rrr_total
             (window_entries env d from_date to_date (user_id u)))%Q
    /\ (or_zero (q_Paydirect q)
        == verified_paydirect_total
             (window_entries env d from_date to_date (user_id u)))%Q.
Proof.
  intros Hkeys Hq. pose proof Hkeys as [Hpk Hone].
  rewrite league_query_as_groups in Hq.
  set (R := filter (fun j => is_ato (j_user j)
                             && in_window env from_date to_date (j_entry j))
                   (league_join d)) in *.
  apply in_map_iff in Hq. destruct Hq as [[k g] [<- Hkg]].
  unfold Sql.group_by in Hkg. apply in_map_iff in Hkg.
  destruct Hkg as [k' [Hk Hin]]. inversion Hk; subst k' g. clear Hk.
  apply (distinct_incl league_key_eqb) in Hin. apply in_map_iff in Hin.
  destruct Hin as [j0 [<- Hj0]].
  pose proof Hj0 as Hj0'. unfold R in Hj0'. apply filter_In in Hj0'.
  destruct Hj0' as [Hjoin0 Hp0]. apply andb_true_iff in Hp0.
  destruct Hp0 as [Hato0 _].
  apply league_join_In in Hjoin0. destruct Hjoin0 as [Hu0 [_ [_ Ht0]]].
  set (u := j_user j0) in *.
  assert (Hgroup : filter (fun j => league_key_eqb (league_key j0) (league_key j)) R
                   = filter (fun j => user_id (j_user j) =? user_id u) R).
  { apply filter_ext_in. intros j Hj. unfold R in Hj. apply filter_In in Hj.
    destruct Hj as [Hjoin _]. apply league_join_In in Hjoin.
    destruct Hjoin as [Hu [_ [_ Ht]]].
    destruct (Z.eqb_spec (user_id (j_user j)) (user_id u)) as [Heq | Hne].
    - assert (Esame : j_user j = u)
        by (apply (primary_key_inj (users d)); assumption).
      rewrite Esame in Ht.
      assert (Et : snd j0 = snd j)
        by (apply (outer_targets_single d u); auto).
      unfold league_key, j_target_amount. fold u. rewrite Esame, Et.
      apply league_key_eqb_refl.
    - unfold league_key_eqb, league_key. simpl. fold u.
      destruct (Z.eqb_spec (user_id u) (user_id (j_user j))) as [Heq |];
        [| reflexivity].
      now contradiction Hne. }
  assert (Hentries : map j_entry
                       (filter (fun j => user_id (j_user j) =? user_id u) R)
                     = window_entries env d from_date to_date (user_id u)).
  { unfold R, window_entries. rewrite filter_twice.
    rewrite <- (join_entries_of d u Hkeys Hu0).
    rewrite <- map_filter_comm, filter_twice. f_equal.
    apply filter_ext_in. intros j Hj. apply league_join_In in Hj.
    destruct Hj as [Hu _].
    destruct (Z.eqb_spec (user_id (j_user j)) (user_id u)) as [Heq |].
    - assert (Esame : j_user j = u)
        by (apply (primary_key_inj (users d)); assumption).
      rewrite Esame. fold u in Hato0. rewrite Hato0. simpl.
      now rewrite andb_true_r.
    - now rewrite andb_false_r. }
  exists u. simpl. rewrite Hgroup.
  split; [exact Hu0 |]. split; [exact Hato0 |].
  split; [reflexivity |]. split; [reflexivity |].
  split; [now apply joined_target; auto |].
  rewrite <- Hentries. unfold verified_rrr_total, verified_paydirect_total.
  split.
  - rewrite <- (sum_case_verified rrr_verified rrr_amount). now rewrite map_map.
  - rewrite <- (sum_case_verified paydirect_verified paydirect_amount).
    now rewrite map_map.
Qed.

(** X2. In a store where user ids are a key and no user has two targets,
    every row of [league_table] belongs to an ATO [u] and holds: the name
    and the target of [u] (0 without a target); as RRR and Paydirect the
    sums of the amounts of [u]'s entries inside the window whose same
    channel is verified; Actual = RRR + Paydirect; and Percent is 0 when
    Target is not above 0.  (For a Target above 0 the row holds the
    quotient as [round] leaves it, on which nothing is said here.)  The
    route returns its rows and does not raise. *)
Theorem league_rows_hold_verified_sums (env : Env) (d : Database)
    (from_date to_date : option string) :
  well_keyed d ->
  exists rows,
    league_table env d from_date to_date = inr rows
    /\ forall r, In r rows ->
         exists u,
           In u (users d) /\ is_ato u = true
           /\ l_user_id r = user_id u /\ l_ATO r = username u
           /\ l_Target r = or_zero (get_target_for_ato d u)
           /\ (l_RRR r
               == verified_rrr_total
                    (window_entries env d from_date to_date (user_id u)))%Q
           /\ (l_Paydirect r
               == verified_paydirect_total
                    (window_entries env d from_date to_date (user_id u)))%Q
           /\ l_Actual r = (l_RRR r + l_Paydirect r)%Q
           /\ (gt (l_Target r) 0 = false -> l_Percent r = 0%Q).
Proof.
  intros Hkeys.
  destruct (for_each_total enrich (league_query env d from_date to_date))
    as [enriched [He Hall]].
  { intros q _. destruct (enrich_spec q) as [p Hp]. eauto. }
  exists (sort_desc l_Percent enriched). unfold league_table.
  rewrite He. simpl. split; [reflexivity |].
  intros r Hr.
  apply (Permutation_in _ (Permutation_sym (sort_desc_perm l_Percent enriched)))
    in Hr.
  destruct (Forall2_In_r _ _ _ _ Hall Hr) as [q [Hq Hqr]].
  destruct (league_query_row env d from_date to_date q Hkeys Hq)
    as (u & Hu & Hato & Hid & Hname & Htarget & Hrrr & Hpd).
  unfold enrich in Hqr. rewrite percent_if_positive_spec in Hqr.
  simpl in Hqr. inversion Hqr; subst r; clear Hqr. simpl.
  exists u.
  split; [exact Hu |]. split; [exact Hato |]. split; [exact Hid |].
  split; [exact Hname |]. split; [exact Htarget |].
  split; [exact Hrrr |]. split; [exact Hpd |]. split; [reflexivity |].
  intros Hlow. now rewrite Hlow.
Qed.

(** The theorem at a store with two agents, one of them idle. *)
Lemma league_rows_witness :
  well_keyed idle_agent_db
  /\ exists rows,
       league_table mock_env idle_agent_db None None = inr rows
       /\ forall r, In r rows ->
            exists u,
              In u (users idle_agent_db) /\ is_ato u = true
              /\ l_user_id r = user_id u /\ l_ATO r = username u
              /\ l_Target r = or_zero (get_target_for_ato idle_agent_db u)
              /\ (l_RRR r
                  == verified_rrr_total
                       (window_entries mock_env idle_agent_db None None
                          (user_id u)))%Q
              /\ (l_Paydirect r
                  == verified_paydirect_total
                       (window_entries mock_env idle_agent_db None None
                          (user_id u)))%Q
              /\ l_Actual r = (l_RRR r + l_Paydirect r)%Q
              /\ (gt (l_Target r) 0 = false -> l_Percent r = 0%Q).
Proof.
  assert (Hk : well_keyed idle_agent_db).
  { split.
    - simpl. repeat constructor; simpl; intuition discriminate.
    - intros u _. simpl. lia. }
  split; [exact Hk |].
  exact (league_rows_hold_verified_sums mock_env idle_agent_db None None Hk).
Defined.

End LeagueValueFacts.

(** ** The values of the monthly series *)

Module SeriesFacts.
Import Py Models Sys Payment_api App Views Vocab Notions Samples.
Import SortFacts ResultFacts SqlFacts LeagueFacts AnalyticsFacts SumFacts.
Import LeagueValueFacts.

(** Every month that has an entry has a row in the grouped query. *)
Lemma monthly_sums_covers (query : list TaxEntry) (e : TaxEntry) :
  In e query -> exists r, In r (monthly_sums query) /\ g_month r = month_of e.
Proof.
  intros He.
  assert (Hk : In (month_of e) (map month_of query)) by now apply in_map.
  destruct (distinct_covers Z.eqb Z.eqb_refl
              (fun a b c H1 H2 =>
                 proj2 (Z.eqb_eq a c)
                   (eq_trans (proj1 (Z.eqb_eq a b) H1)
                             (proj1 (Z.eqb_eq b c) H2)))
              _ _ Hk) as [k [Hin Heq]].
  apply Z.eqb_eq in Heq. subst k.
  eexists. split.
  - unfold monthly_sums. apply (Permutation_in _ (order_by_perm _ _)).
    apply in_map_iff. eexists (month_of e, _). split; [reflexivity |].
    unfold Sql.group_by. apply in_map_iff. exists (month_of e).
    split; [reflexivity | exact Hin].
  - reflexivity.
Qed.

(** The value that [next(...)] picks for a month is the sum over the
    verified entries of that month. *)
Lemma first_of_month_value (query : list TaxEntry) (m : Z)
    (col : MonthSums -> option Q) (v : TaxEntry -> bool)
    (amt : TaxEntry -> option Q) (q : Q) :
  (col = g_rrr /\ v = rrr_verified /\ amt = rrr_amount)
  \/ (col = g_paydirect /\ v = paydirect_verified /\ amt = paydirect_amount) ->
  first_of_month (monthly_sums query) col m = inr q ->
  (q == Py.sum (map (fun e => or_zero (amt e))
                    (filter v (filter (fun e => month_of e =? m) query))))%Q.
Proof.
  intros Hcol. unfold first_of_month.
  destruct (find _ (monthly_sums query)) as [r |] eqn:Hf.
  - destruct (find_some _ _ Hf) as [Hin Hm]. apply Z.eqb_eq in Hm.
    destruct (monthly_sums_In _ _ Hin) as [e [He [Hme [Hr Hp]]]].
    intros Hq.
    assert (Hsum : col r
                   = Sql.sum (map (fun e => Sql.case_else_zero (v e) (amt e))
                                  (filter (fun e => month_of e =? m) query))).
    { rewrite <- Hm.
      rewrite (filter_ext (fun e0 => month_of e0 =? g_month r)
                          (fun e0 => g_month r =? month_of e0));
        [| intros e0; apply Z.eqb_sym].
      destruct Hcol as [[-> [-> ->]] | [-> [-> ->]]]; assumption. }
    rewrite <- sum_case_verified, <- Hsum.
    destruct (col r) as [q' |]; simpl in Hq; [| discriminate].
    inversion Hq; subst q'. symmetry. apply or_zero_some.
  - intros Hq. inversion Hq; subst q.
    rewrite (filter_none (fun e => month_of e =? m)); [reflexivity |].
    intros e He. apply Z.eqb_neq. intros Heq.
    destruct (monthly_sums_covers query e He) as [r [Hr Hm]].
    pose proof (find_none _ _ Hf r Hr) as Hno. simpl in Hno.
    apply Z.eqb_neq in Hno. congruence.
Qed.

(** X3. For entries whose verified channels carry an amount and bounds
    that parse, every row of [get_analytics_data_filtered] holds, for its
    month, the sum of the RRR amounts of the entries in range whose RRR is
    verified, the same for PayDirect, the sum of the two as total, and the
    name of the month. *)
Theorem monthly_series_holds_verified_sums (env : Env) (d : Database)
    (from_date to_date : option string) :
  bound_parses env from_date ->
  bound_parses env to_date ->
  amounts_recorded (tax_entries d) ->
  exists rows,
    get_analytics_data_filtered env d from_date to_date = inr rows
    /\ Forall (fun row =>
                 (a_rrr row
                  == verified_rrr_total
                       (month_entries env d from_date to_date (a_month row)))%Q
                 /\ (a_paydirect row
                     == verified_paydirect_total
                          (month_entries env d from_date to_date
                             (a_month row)))%Q
                 /\ a_total row = (a_rrr row + a_paydirect row)%Q
                 /\ a_month_name row
                    = nth (Z.to_nat (a_month row)) month_name "")
              rows.
Proof.
  intros Hf Ht Hrec. unfold get_analytics_data_filtered.
  rewrite (entries_in_range_spec env d from_date to_date Hf Ht). simpl.
  set (query := filter (in_date_range env from_date to_date) (tax_entries d)).
  assert (Hq : amounts_recorded query).
  { intros e He. apply filter_In in He. now apply Hrec. }
  destruct (for_each_total (month_row (monthly_sums query)) (range 1 13))
    as [rows [Hrows Hall]].
  { intros m _. destruct (month_row_spec query m Hq) as [row [Hrow _]].
    eauto. }
  exists rows. split; [exact Hrows |].
  apply Forall_forall. intros row Hin.
  destruct (Forall2_In_r _ _ _ _ Hall Hin) as [m [_ Hrow]].
  unfold month_row in Hrow.
  destruct (first_of_month (monthly_sums query) g_rrr m) as [x | q1] eqn:E1;
    simpl in Hrow; [discriminate |].
  destruct (first_of_month (monthly_sums query) g_paydirect m)
    as [x | q2] eqn:E2; simpl in Hrow; [discriminate |].
  inversion Hrow; subst row; clear Hrow. simpl.
  unfold month_entries, verified_rrr_total, verified_paydirect_total.
  fold query.
  split; [apply (first_of_month_value query m g_rrr); auto |].
  split; [apply (first_of_month_value query m g_paydirect); auto |].
  split; reflexivity.
Qed.

(** The theorem for the payments of March and May, from the first of
    January on. *)
Lemma monthly_series_values_witness :
  bound_parses new_year_env (Some "2025-01-01")
  /\ bound_parses new_year_env None
  /\ amounts_recorded (tax_entries spring_db)
  /\ exists rows,
       get_analytics_data_filtered new_year_env spring_db
         (Some "2025-01-01") None = inr rows
       /\ Forall (fun row =>
                    (a_rrr row
                     == verified_rrr_total
                          (month_entries new_year_env spring_db
                             (Some "2025-01-01") None (a_month row)))%Q
                    /\ (a_paydirect row
                        == verified_paydirect_total
                             (month_entries new_year_env spring_db
                                (Some "2025-01-01") None (a_month row)))%Q
                    /\ a_total row = (a_rrr row + a_paydirect row)%Q
                    /\ a_month_name row
                       = nth (Z.to_nat (a_month row)) month_name "")
                 rows.
Proof.
  assert (H1 : bound_parses new_year_env (Some "2025-01-01"))
    by (intros _; discriminate).
  assert (H2 : bound_parses new_year_env None)
    by (intros H; discriminate H).
  assert (H3 : amounts_recorded (tax_entries spring_db)).
  { intros e He. simpl in He.
    destruct He as [<- | [<- | [<- | []]]]; split; discriminate. }
  split; [exact H1 |]. split; [exact H2 |]. split; [exact H3 |].
  exact (monthly_series_holds_verified_sums new_year_env spring_db
           (Some "2025-01-01") None H1 H2 H3).
Defined.

(** X4. A bound that is present and that [strptime] rejects makes
    [get_analytics_data_filtered] raise ValueError, whatever the entries
    and the other bound are. *)
Theorem unreadable_bound_raises (env : Env) (d : Database)
    (from_date to_date : option string) :
  (truthy_str from_date = true
   /\ strptime_ymd env (str_of from_date) = None)
  \/ (truthy_str to_date = true
      /\ strptime_ymd env (str_of to_date) = None) ->
  get_analytics_data_filtered env d from_date to_date = inl ValueError.
Proof.
  unfold get_analytics_data_filtered, entries_in_range, strptime.
  intros [[T E] | [T E]]; rewrite T, E.
  - reflexivity.
  - destruct (truthy_str from_date); [| reflexivity].
    destruct (strptime_ymd env (str_of from_date)); reflexivity.
Qed.

(** The theorem for the bound "yesterday". *)
Lemma unreadable_bound_witness :
  truthy_str (Some "yesterday") = true
  /\ strptime_ymd new_year_env (str_of (Some "yesterday")) = None
  /\ get_analytics_data_filtered new_year_env spring_db
       (Some "yesterday") None = inl ValueError.
Proof.
  split; [reflexivity |]. split; [reflexivity |].
  exact (unreadable_bound_raises new_year_env spring_db
           (Some "yesterday") None (or_introl (conj eq_refl eq_refl))).
Defined.

End SeriesFacts.

(** ** What the writing routes store *)

Module RowFacts.
Import Py Models Sys Payment_api App Views Vocab Notions Samples Cases.
Import StoreFacts VerifierFacts RouteFacts.
Local Open Scope world_scope.

(** The row that [submit_tax_item] builds from the form, the two
    verification results and the three readings of the clock. *)
Lemma submit_tax_item_stored (env : Env) (uid : Z) (form : dict)
    (w w' : World) :
  submit_tax_item env uid form w
  = (inr (Redirect "enter_tax_data" EntrySubmitted), w') ->
  exists v1 v2 today now uploaded,
    tax_entries (db w')
    = tax_entries (db w)
      ++ [mk_TaxEntry (next_id (tax_entries (db w)))
            (form_get form "tax_item")
            (if opt_str_eqb (form_get form "tax_item") (Some "Road")
             then form_get form "road_subhead" else None)
            (form_get form "remita_rrr") (form_get form "paydirect")
            (verified v1) (verified v2)
            (Some (amount v1)) (Some (amount v2)) uid
            (dict_set
               (filter (fun kv => negb (str_in (fst kv) structured_fields))
                       (form_items form))
               "date_of_collection" (strftime_ymd today))
            uploaded (Some (dt_month now)) (Some (dt_year now))]
    /\ breaks_unique (form_get form "remita_rrr") (form_get form "paydirect")
                     (tax_entries (db w)) = false
    /\ (truthy_str (form_get form "remita_rrr") = false -> v1 = unverified)
    /\ (truthy_str (form_get form "paydirect") = false -> v2 = unverified)
    /\ (USE_LIVE_API env = false ->
        truthy_str (form_get form "remita_rrr") = true -> verified v1 = true)
    /\ (USE_LIVE_API env = false ->
        truthy_str (form_get form "paydirect") = true -> verified v2 = true).
Proof.
  unfold submit_tax_item.
  set (rrr' := form_get form "remita_rrr").
  set (pd := form_get form "paydirect").
  unfold bind at 1. rewrite precheck.
  destruct (if truthy_str rrr' then find _ _ else None) as [e1 |] eqn:F1;
    [intros H; discriminate H |].
  unfold bind at 1. rewrite precheck.
  destruct (if truthy_str pd then find _ _ else None) as [e2 |] eqn:F2;
    [intros H; discriminate H |].
  unfold bind at 1.
  destruct (guarded_remita env rrr' w)
    as (r1 & w1 & E1 & Hdb1 & Ht1 & Hc1 & Habs1 & Hmock1 & Hret1).
  rewrite E1. destruct r1 as [x1 | v1]; [intros H; discriminate H |].
  unfold bind at 1.
  destruct (guarded_paydirect env pd w1)
    as (r2 & w2 & E2 & Hdb2 & Ht2 & Hc2 & Habs2 & Hmock2 & Hret2).
  rewrite E2. destruct r2 as [x2 | v2]; [intros H; discriminate H |].
  unfold bind, utcnow, add_and_commit, ret.
  cbn [db verifier_calls draws ticks tax_entries users targets].
  rewrite Hdb2, Hdb1. cbn [rrr paydirect_ref].
  destruct (breaks_unique rrr' pd (tax_entries (db w))) eqn:B;
    [intros H; discriminate H |].
  intros H. inversion H; subst w'; clear H.
  exists v1, v2. do 3 eexists.
  unfold set_tax_entries, set_db. cbn [db tax_entries].
  split; [reflexivity |]. split; [reflexivity |].
  repeat split.
  - intros T. destruct (Habs1 T) as [Hv _]. now inversion Hv.
  - intros T. destruct (Habs2 T) as [Hv _]. now inversion Hv.
  - intros Hm T. destruct (Hmock1 Hm T) as [a [_ Hv]]. now inversion Hv.
  - intros Hm T. destruct (Hmock2 Hm T) as [a [_ Hv]]. now inversion Hv.
Qed.

(** *** The data dict *)

Lemma dict_get_set_same (d : dict) (k v : string) :
  dict_get (dict_set d k v) k = Some v.
Proof.
  induction d as [| [k' v'] t IH]; simpl.
  - now rewrite String.eqb_refl.
  - destruct (String.eqb k' k) eqn:E; simpl.
    + now rewrite String.eqb_refl.
    + now rewrite E.
Qed.

Lemma dict_get_set_other (d : dict) (k k0 v : string) :
  k0 <> k -> dict_get (dict_set d k v) k0 = dict_get d k0.
Proof.
  intros Hne. induction d as [| [k' v'] t IH]; simpl.
  - destruct (String.eqb_spec k k0); [congruence | reflexivity].
  - destruct (String.eqb_spec k' k) as [-> |]; simpl.
    + destruct (String.eqb_spec k k0); [congruence |].
      reflexivity.
    + now rewrite IH.
Qed.

Lemma dict_get_filter (p : string * string -> bool) (d : dict) (k : string) :
  (forall v, p (k, v) = true) ->
  dict_get (filter p d) k = dict_get d k.
Proof.
  intros Hp. induction d as [| [k' v'] t IH]; simpl; [reflexivity |].
  destruct (String.eqb_spec k' k) as [-> |].
  - rewrite Hp. simpl. now rewrite String.eqb_refl.
  - destruct (p (k', v')); simpl; [| exact IH].
    destruct (String.eqb_spec k' k); [congruence | exact IH].
Qed.

Lemma dict_get_filter_out (p : string * string -> bool) (d : dict)
    (k : string) :
  (forall v, p (k, v) = false) -> dict_get (filter p d) k = None.
Proof.
  intros Hp. induction d as [| [k' v'] t IH]; simpl; [reflexivity |].
  destruct (p (k', v')) eqn:E; simpl; [| exact IH].
  destruct (String.eqb_spec k' k) as [-> |]; [| exact IH].
  rewrite Hp in E. discriminate.
Qed.

(** [request.form.items()] gives every key its first value. *)
Lemma form_items_get (form : dict) (k : string) :
  dict_get (form_items form) k = form_get form k.
Proof.
  unfold form_get. induction form as [| [k' v'] t IH]; simpl; [reflexivity |].
  destruct (String.eqb_spec k' k) as [-> | Hne]; [reflexivity |].
  rewrite dict_get_filter; [exact IH |].
  intros v. simpl. apply negb_true_iff. now apply String.eqb_neq.
Qed.

Lemma str_in_iff (k : string) (keys : list string) :
  str_in k keys = true <-> In k keys.
Proof.
  unfold str_in. rewrite existsb_exists. split.
  - intros [x [Hx He]]. apply String.eqb_eq in He. now subst.
  - intros H. exists k. split; [exact H | apply String.eqb_refl].
Qed.

(** X7. In the entry that [submit_tax_item] stores, [data] maps
    "date_of_collection" to a formatted date (also when the form sent such
    a field), holds none of the structured fields tax_item, road_subhead,
    remita_rrr and paydirect, and maps every other field of the form to the
    first value sent for it. *)
Theorem stored_data_holds_free_fields (env : Env) (uid : Z) (form : dict)
    (w w' : World) (e : TaxEntry) :
  submit_tax_item env uid form w
  = (inr (Redirect "enter_tax_data" EntrySubmitted), w') ->
  tax_entries (db w') = tax_entries (db w) ++ [e] ->
  (exists day, dict_get (data e) "date_of_collection"
               = Some (strftime_ymd day))
  /\ (forall k, In k structured_fields -> dict_get (data e) k = None)
  /\ (forall k, ~ In k structured_fields -> k <> "date_of_collection" ->
                dict_get (data e) k = form_get form k).
Proof.
  intros Hsub He.
  destruct (submit_tax_item_stored env uid form w w' Hsub)
    as (v1 & v2 & today & now & uploaded & Hrow & _).
  rewrite Hrow in He. apply app_inj_tail in He. destruct He as [_ <-].
  cbn [data]. split; [| split].
  - exists today. apply dict_get_set_same.
  - intros k Hk.
    rewrite dict_get_set_other.
    + apply dict_get_filter_out. intros v. cbn [fst].
      apply negb_false_iff. now apply str_in_iff.
    + intros Heq. subst k. simpl in Hk.
      repeat (destruct Hk as [Hk | Hk]; [discriminate Hk |]). exact Hk.
  - intros k Hk Hne.
    rewrite dict_get_set_other by exact Hne.
    rewrite dict_get_filter; [apply form_items_get |].
    intros v. cbn [fst]. apply negb_true_iff.
    destruct (str_in k structured_fields) eqn:E; [| reflexivity].
    apply str_in_iff in E. contradiction.
Qed.

(** The theorem for a form that sends the field "ward" twice. *)
Lemma stored_data_witness :
  submit_tax_item mock_env 1 plain_form (start_of one_ato_db)
  = (inr (Redirect "enter_tax_data" EntrySubmitted),
     snd (submit_tax_item mock_env 1 plain_form (start_of one_ato_db)))
  /\ dict_get
       (data (last (tax_entries
                      (db (snd (submit_tax_item mock_env 1 plain_form
                                  (start_of one_ato_db)))))
                   (pending_entry 0 0 "")))
       "ward"
     = form_get plain_form "ward".
Proof.
  assert (H1 : submit_tax_item mock_env 1 plain_form (start_of one_ato_db)
               = (inr (Redirect "enter_tax_data" EntrySubmitted),
                  snd (submit_tax_item mock_env 1 plain_form
                         (start_of one_ato_db))))
    by reflexivity.
  split; [exact H1 |].
  refine (proj2 (proj2 (stored_data_holds_free_fields mock_env 1 plain_form
                          (start_of one_ato_db) _ _ H1 eq_refl))
            "ward" _ _).
  - simpl. intuition discriminate.
  - discriminate.
Defined.

End RowFacts.

(** ** Invariants of the entry table *)

Module InvariantFacts.
Import Py Models Sys Payment_api App Views Vocab Notions Samples Cases.
Import StoreFacts VerifierFacts RouteFacts RowFacts.
Local Open Scope world_scope.

Lemma next_id_above (es : list TaxEntry) (e : TaxEntry) :
  In e es -> id e < next_id es.
Proof.
  unfold next_id. induction es as [| a t IH]; cbn [map fold_right In];
    intros H; [contradiction |].
  destruct H as [-> | H]; [lia |]. specialize (IH H). lia.
Qed.

Lemma next_id_fresh (es : list TaxEntry) : ~ In (next_id es) (map id es).
Proof.
  intros H. apply in_map_iff in H. destruct H as [e [He Hin]].
  pose proof (next_id_above es e Hin). lia.
Qed.

Lemma present_In (refs : list (option string)) (r : string) :
  In r (present refs) <-> In (Some r) refs.
Proof.
  induction refs as [| [x |] t IH]; simpl.
  - tauto.
  - rewrite IH. split; intros [H | H]; auto; left; congruence.
  - rewrite IH. split; [auto | intros [H | H]; [discriminate | auto]].
Qed.

Lemma present_app (l l' : list (option string)) :
  present (l ++ l') = present l ++ present l'.
Proof.
  induction l as [| [x |] t IH]; simpl; [reflexivity | now rewrite IH | exact IH].
Qed.

Lemma NoDup_snoc {A} (l : list A) (x : A) :
  NoDup l -> ~ In x l -> NoDup (l ++ [x]).
Proof.
  induction 1 as [| a t Ha Hnd IH]; simpl; intros Hx.
  - repeat constructor. intros [].
  - constructor.
    + intros Hin. apply in_app_or in Hin. destruct Hin as [Hin | [-> | []]].
      * contradiction.
      * apply Hx. now left.
    + apply IH. intros Hin. apply Hx. now right.
Qed.

Lemma unique_snoc (col : TaxEntry -> option string) (es : list TaxEntry)
    (e : TaxEntry) :
  NoDup (present (map col es)) ->
  (forall r, col e = Some r -> ~ In (Some r) (map col es)) ->
  NoDup (present (map col (es ++ [e]))).
Proof.
  intros Hnd Hfresh. rewrite map_app, present_app. simpl.
  destruct (col e) as [r |] eqn:E; simpl.
  - apply NoDup_snoc; [exact Hnd |]. rewrite present_In. now apply Hfresh.
  - now rewrite app_nil_r.
Qed.

Lemma unique_filter (col : TaxEntry -> option string) (p : TaxEntry -> bool)
    (es : list TaxEntry) :
  NoDup (present (map col es)) -> NoDup (present (map col (filter p es))).
Proof.
  induction es as [| e t IH]; simpl; intros H; [constructor |].
  assert (Ht : NoDup (present (map col t))).
  { destruct (col e); [now inversion H | exact H]. }
  destruct (p e); simpl; [| now apply IH].
  destruct (col e) as [r |] eqn:E; [| now apply IH].
  inversion H as [| ? ? Hnotin _]; subst. constructor; [| now apply IH].
  intros Hin. apply Hnotin. apply present_In. apply present_In in Hin.
  apply in_map_iff in Hin. destruct Hin as [x [Hx Hin]].
  apply filter_In in Hin. apply in_map_iff. exists x. tauto.
Qed.

(** What the UNIQUE check has established when it lets a row pass. *)
Lemma breaks_unique_false (a b : option string) (es : list TaxEntry) :
  breaks_unique a b es = false ->
  (forall r, a = Some r -> ~ In (Some r) (map rrr es))
  /\ (forall r, b = Some r -> ~ In (Some r) (map paydirect_ref es)).
Proof.
  unfold breaks_unique. intros H.
  split; intros r Href Hin; apply in_map_iff in Hin;
    destruct Hin as [e [He Hin]];
    assert (Ht : existsb
              (fun e0 =>
                 match a with
                 | Some r0 => opt_str_eqb (rrr e0) (Some r0)
                 | None => false
                 end
                 || match b with
                    | Some r0 => opt_str_eqb (paydirect_ref e0) (Some r0)
                    | None => false
                    end) es = true).
  1, 3: apply existsb_exists; exists e; split; [exact Hin |];
        rewrite Href, He; simpl; rewrite String.eqb_refl;
        now rewrite ?orb_true_r.
  all: congruence.
Qed.

(** A row built for a table that passes the UNIQUE check keeps the table
    keyed. *)
Lemma keyed_snoc (es : list TaxEntry) (e : TaxEntry) :
  NoDup (map id es) -> references_unique es ->
  id e = next_id es ->
  breaks_unique (rrr e) (paydirect_ref e) es = false ->
  NoDup (map id (es ++ [e])) /\ references_unique (es ++ [e]).
Proof.
  intros Hid [Hr Hp] Hnew Hu.
  destruct (breaks_unique_false _ _ _ Hu) as [Fr Fp].
  split; [| split].
  - rewrite map_app. simpl. apply NoDup_snoc; [exact Hid |].
    rewrite Hnew. apply next_id_fresh.
  - now apply unique_snoc.
  - now apply unique_snoc.
Qed.

(** Every way a re-verification can end: with 404, with an exception of
    a verifier before anything is written, or, after the commit, with the
    BuildError of the redirect. *)
Lemma reverify_entry_cases (env : Env) (i : Z) (w : World) :
  exists r w',
    reverify_entry env i w = (r, w')
    /\ users (db w') = users (db w) /\ targets (db w') = targets (db w)
    /\ ((find (fun e => id e =? i) (tax_entries (db w)) = None
         /\ r = inr NotFound /\ w' = w)
        \/ exists entry,
             find (fun e => id e =? i) (tax_entries (db w)) = Some entry
             /\ (((exists x, r = inl x)
                  /\ tax_entries (db w') = tax_entries (db w)
                  /\ ~ verifiers_return env)
                 \/ exists v1 v2,
                      r = inl BuildError
                      /\ tax_entries (db w')
                         = map (fun e => if id e =? id entry
                                         then reverified entry v1 v2 else e)
                               (tax_entries (db w))
                      /\ (USE_LIVE_API env = false ->
                          truthy_str (rrr entry) = true ->
                          verified v1 = true)
                      /\ (USE_LIVE_API env = false ->
                          truthy_str (paydirect_ref entry) = true ->
                          verified v2 = true))).
Proof.
  unfold reverify_entry. unfold bind at 1. unfold query_first at 1.
  destruct (find (fun e => id e =? i) (tax_entries (db w)))
    as [entry |] eqn:F.
  2: { exists (inr NotFound), w. unfold ret. repeat split. left. auto. }
  unfold bind at 1.
  destruct (truthy_str (rrr entry)) eqn:Tr.
  - unfold bind at 1.
    destruct (verify_remita_rrr_spec env (rrr entry) w)
      as (r1 & w1 & E1 & Hdb1 & _ & _ & _ & Hm1 & Hret1).
    rewrite E1. destruct r1 as [x1 | v1].
    { exists (inl x1), w1. rewrite Hdb1. repeat split.
      right. exists entry. split; [reflexivity |]. left.
      repeat split; eauto.
      intros Hret. destruct (Hret1 Hret). discriminate. }
    unfold ret at 1. unfold bind at 1.
    cbn [paydirect_ref set_rrr_result].
    destruct (truthy_str (paydirect_ref entry)) eqn:Tp.
    + unfold bind at 1.
      destruct (verify_paydirect_reference_spec env (paydirect_ref entry) w1)
        as (r2 & w2 & E2 & Hdb2 & _ & _ & _ & Hm2 & Hret2).
      rewrite E2. destruct r2 as [x2 | v2].
      { exists (inl x2), w2. rewrite Hdb2, Hdb1. repeat split.
        right. exists entry. split; [reflexivity |]. left.
        repeat split; eauto.
        intros Hret. destruct (Hret2 Hret). discriminate. }
      unfold ret, bind, commit_entry, set_tax_entries, set_db.
      cbn [db tax_entries users targets id set_paydirect_result
           set_rrr_result].
      rewrite Hdb2, Hdb1.
      eexists. eexists. split; [reflexivity |].
      cbn [db tax_entries users targets].
      repeat split. right. exists entry. split; [reflexivity |].
      right. exists v1, v2. unfold reverified. rewrite Tr, Tp.
      repeat split; intros Hm T.
      * destruct (Hm1 Hm Tr) as [a [_ Hv]]. now inversion Hv.
      * destruct (Hm2 Hm Tp) as [a [_ Hv]]. now inversion Hv.
    + unfold ret, bind, commit_entry, set_tax_entries, set_db.
      cbn [db tax_entries users targets id set_rrr_result].
      rewrite Hdb1.
      eexists. eexists. split; [reflexivity |].
      cbn [db tax_entries users targets].
      repeat split. right. exists entry. split; [reflexivity |].
      right. exists v1, unverified. unfold reverified. rewrite Tr, Tp.
      repeat split; intros Hm T; [| congruence].
      destruct (Hm1 Hm Tr) as [a [_ Hv]]. now inversion Hv.
  - unfold ret at 1. unfold bind at 1.
    destruct (truthy_str (paydirect_ref entry)) eqn:Tp.
    + unfold bind at 1.
      destruct (verify_paydirect_reference_spec env (paydirect_ref entry) w)
        as (r2 & w2 & E2 & Hdb2 & _ & _ & _ & Hm2 & Hret2).
      rewrite E2. destruct r2 as [x2 | v2].
      { exists (inl x2), w2. rewrite Hdb2. repeat split.
        right. exists entry. split; [reflexivity |]. left.
        repeat split; eauto.
        intros Hret. destruct (Hret2 Hret). discriminate. }
      unfold ret, bind, commit_entry, set_tax_entries, set_db.
      cbn [db tax_entries users targets id set_paydirect_result].
      rewrite Hdb2.
      eexists. eexists. split; [reflexivity |].
      cbn [db tax_entries users targets].
      repeat split. right. exists entry. split; [reflexivity |].
      right. exists unverified, v2. unfold reverified. rewrite Tr, Tp.
      repeat split; intros Hm T; [congruence |].
      destruct (Hm2 Hm Tp) as [a [_ Hv]]. now inversion Hv.
    + unfold ret, bind, commit_entry, set_tax_entries, set_db.
      cbn [db tax_entries users targets].
      eexists. eexists. split; [reflexivity |].
      cbn [db tax_entries users targets].
      repeat split. right. exists entry. split; [reflexivity |].
      right. exists unverified, unverified. unfold reverified.
      rewrite Tr, Tp. repeat split; intros Hm T; congruence.
Qed.

Lemma reverified_same_record (entry : TaxEntry) (v1 v2 : Verification) :
  same_record entry (reverified entry v1 v2).
Proof.
  unfold reverified, same_record.
  destruct (truthy_str (rrr entry)), (truthy_str (paydirect_ref entry));
    simpl; repeat split.
Qed.

(** Rewriting the row of a key by a row with the same value in a column
    leaves the column as it was. *)
Lemma rewrite_column {A} (col : TaxEntry -> A) (es : list TaxEntry)
    (entry entry' : TaxEntry) :
  NoDup (map id es) -> In entry es -> col entry' = col entry ->
  map col (map (fun e => if id e =? id entry then entry' else e) es)
  = map col es.
Proof.
  intros Hnd Hin Hcol. rewrite map_map. apply map_ext_in.
  intros e He. destruct (Z.eqb_spec (id e) (id entry)) as [Heq |];
    [| reflexivity].
  pose proof (find_by_id _ _ Hnd He) as F1.
  pose proof (find_by_id _ _ Hnd Hin) as F2.
  rewrite Heq in F1. congruence.
Qed.

Lemma guarded_remita_calls (env : Env) (ref : option string)
    (w w1 : World) (r : result Verification) :
  (if truthy_str ref then verify_remita_rrr env ref else ret unverified) w
  = (r, w1) ->
  calls_on Remita w1 = calls_on Remita w ++ call_for Remita ref.
Proof.
  unfold call_for. destruct (truthy_str ref).
  - destruct (verify_remita_rrr_spec env ref w)
      as (r' & w' & E & _ & _ & Hc & _).
    rewrite E. intros H. inversion H; subst.
    unfold calls_on. now rewrite Hc, calls_on_snoc.
  - unfold ret. intros H. inversion H; subst. now rewrite app_nil_r.
Qed.

Lemma guarded_paydirect_calls (env : Env) (ref : option string)
    (w w1 : World) (r : result Verification) :
  (if truthy_str ref then verify_paydirect_reference env ref
   else ret unverified) w
  = (r, w1) ->
  calls_on PayDirect w1 = calls_on PayDirect w ++ call_for PayDirect ref.
Proof.
  unfold call_for. destruct (truthy_str ref).
  - destruct (verify_paydirect_reference_spec env ref w)
      as (r' & w' & E & _ & _ & Hc & _).
    rewrite E. intros H. inversion H; subst.
    unfold calls_on. now rewrite Hc, calls_on_snoc.
  - unfold ret. intros H. inversion H; subst. now rewrite app_nil_r.
Qed.

(** Every way in which [submit_entry] can reach its last statement. *)
Lemma save_entry_cases (env : Env) (uid : Z) (form : dict) (w : World) :
  exists r w',
    save_entry env uid form w = (r, w')
    /\ users (db w') = users (db w) /\ targets (db w') = targets (db w)
    /\ (((exists x, r = inl x)
         /\ tax_entries (db w') = tax_entries (db w)
         /\ ~ verifiers_return env)
        \/ (r = inr ErrorSavingEntry
            /\ tax_entries (db w') = tax_entries (db w)
            /\ breaks_unique (form_get form "rrr")
                             (form_get form "paydirect_ref")
                             (tax_entries (db w)) = true
            /\ calls_on Remita w'
               = calls_on Remita w ++ call_for Remita (form_get form "rrr")
            /\ calls_on PayDirect w'
               = calls_on PayDirect w
                 ++ call_for PayDirect (form_get form "paydirect_ref"))
        \/ (exists v1 v2 uploaded,
              r = inr EntrySaved
              /\ breaks_unique (form_get form "rrr")
                               (form_get form "paydirect_ref")
                               (tax_entries (db w)) = false
              /\ tax_entries (db w')
                 = tax_entries (db w)
                   ++ [mk_TaxEntry (next_id (tax_entries (db w)))
                         (form_get form "tax_item") (form_get form "subhead")
                         (form_get form "rrr") (form_get form "paydirect_ref")
                         (verified v1) (verified v2)
                         (Some (amount v1)) (Some (amount v2)) uid
                         (form_items form) uploaded None None]
              /\ calls_on Remita w'
                 = calls_on Remita w ++ call_for Remita (form_get form "rrr")
              /\ calls_on PayDirect w'
                 = calls_on PayDirect w
                   ++ call_for PayDirect (form_get form "paydirect_ref")
              /\ (truthy_str (form_get form "rrr") = false ->
                  v1 = unverified)
              /\ (truthy_str (form_get form "paydirect_ref") = false ->
                  v2 = unverified)
              /\ (USE_LIVE_API env = false ->
                  truthy_str (form_get form "rrr") = true ->
                  verified v1 = true)
              /\ (USE_LIVE_API env = false ->
                  truthy_str (form_get form "paydirect_ref") = true ->
                  verified v2 = true))).
Proof.
  unfold save_entry.
  set (rrr' := form_get form "rrr").
  set (pd := form_get form "paydirect_ref").
  unfold bind at 1.
  destruct (guarded_remita env rrr' w)
    as (r1 & w1 & E1 & Hdb1 & Ht1 & Hc1 & Habs1 & Hmock1 & Hret1).
  pose proof (guarded_remita_calls env rrr' w w1 r1 E1) as Hcr.
  rewrite E1. destruct r1 as [x1 | v1].
  { exists (inl x1), w1. rewrite Hdb1. repeat split.
    left. repeat split; eauto.
    intros Hret. destruct (Hret1 Hret). discriminate. }
  unfold bind at 1.
  destruct (guarded_paydirect env pd w1)
    as (r2 & w2 & E2 & Hdb2 & Ht2 & Hc2 & Habs2 & Hmock2 & Hret2).
  pose proof (guarded_paydirect_calls env pd w1 w2 r2 E2) as Hcp.
  rewrite E2. destruct r2 as [x2 | v2].
  { exists (inl x2), w2. rewrite Hdb2, Hdb1. repeat split.
    left. repeat split; eauto.
    intros Hret. destruct (Hret2 Hret). discriminate. }
  unfold bind, utcnow, add_and_commit, ret.
  cbn [db verifier_calls draws ticks tax_entries users targets].
  rewrite Hdb2, Hdb1. cbn [rrr paydirect_ref].
  destruct (breaks_unique rrr' pd (tax_entries (db w))) eqn:B.
  - eexists. eexists. split; [reflexivity |].
    cbn [db users targets tax_entries].
    repeat split. right. left.
    unfold calls_on. cbn [verifier_calls].
    fold (calls_on Remita w2). fold (calls_on PayDirect w2).
    repeat split.
    + now rewrite Hc2.
    + now rewrite Hcp, Hc1.
  - eexists. eexists. split; [reflexivity |].
    unfold set_tax_entries, set_db. cbn [db users targets tax_entries].
    repeat split. right. right. exists v1, v2. eexists.
    unfold calls_on. cbn [verifier_calls].
    fold (calls_on Remita w2). fold (calls_on PayDirect w2).
    repeat split.
    + now rewrite Hc2.
    + now rewrite Hcp, Hc1.
    + intros T. destruct (Habs1 T) as [H _]. now inversion H.
    + intros T. destruct (Habs2 T) as [H _]. now inversion H.
    + intros Hm T. destruct (Hmock1 Hm T) as [a [_ H]]. now inversion H.
    + intros Hm T. destruct (Hmock2 Hm T) as [a [_ H]]. now inversion H.
Qed.

(** The last statement of [submit_entry] changes nothing and never
    returns. *)
Lemma submit_entry_ends (env : Env) (uid : Z) (form : dict) (w : World) :
  snd (submit_entry env uid form w) = snd (save_entry env uid form w)
  /\ fst (submit_entry env uid form w)
     = match fst (save_entry env uid form w) with
       | inl x => inl x
       | inr _ => inl BuildError
       end.
Proof.
  unfold submit_entry, bind.
  destruct (save_entry env uid form w) as [[x | flashed] w']; split;
    reflexivity.
Qed.

Lemma NoDup_map_filter {R K} (key : R -> K) (keep : R -> bool)
    (rows : list R) :
  NoDup (map key rows) -> NoDup (map key (filter keep rows)).
Proof.
  induction rows as [| x t IH]; simpl; intros H; [constructor |].
  inversion H as [| ? ? Hnotin Hnd]; subst.
  destruct (keep x); simpl; [| now apply IH].
  constructor; [| now apply IH].
  intros Hin. apply Hnotin. apply in_map_iff in Hin.
  destruct Hin as [y [Hy Hin]]. apply filter_In in Hin.
  apply in_map_iff. exists y. tauto.
Qed.

Lemma store_keyed_same (w w' : World) :
  tax_entries (db w') = tax_entries (db w) -> store_keyed w -> store_keyed w'.
Proof.
  unfold store_keyed, entries_keyed. intros ->. auto.
Qed.

Lemma store_keyed_snoc (w w' : World) (e : TaxEntry) :
  store_keyed w ->
  tax_entries (db w') = tax_entries (db w) ++ [e] ->
  id e = next_id (tax_entries (db w)) ->
  breaks_unique (rrr e) (paydirect_ref e) (tax_entries (db w)) = false ->
  store_keyed w'.
Proof.
  unfold store_keyed, entries_keyed.
  intros [Hid Hu] -> Hnew Hb.
  destruct (keyed_snoc _ e Hid Hu Hnew Hb) as [Hid' Hu'].
  split; assumption.
Qed.

(** Each of the four routes that write entries keeps the table keyed,
    whatever the request and however the route ends. *)
Lemma routes_keep_store_keyed (env : Env) (w : World) :
  store_keyed w ->
  (forall uid form, store_keyed (snd (submit_tax_item env uid form w)))
  /\ (forall uid form, store_keyed (snd (submit_entry env uid form w)))
  /\ (forall i, store_keyed (snd (delete_entry i w)))
  /\ (forall i, store_keyed (snd (reverify_entry env i w))).
Proof.
  intros Hs. split; [| split; [| split]].
  - intros uid form.
    destruct (submit_tax_item_cases env uid form w)
      as (r & w' & E & _ & _ & _ & _ & Hcases).
    rewrite E. simpl.
    destruct Hcases as [[_ [-> _]] | [[_ [-> _]] | [[_ [He _]]
                       | [[_ [He _]] | [e [-> _]]]]]];
      try exact Hs; try (now apply (store_keyed_same w)).
    destruct (submit_tax_item_stored env uid form w w' E)
      as (v1 & v2 & today & now & uploaded & Hrow & Hb & _).
    eapply (store_keyed_snoc w); eauto; simpl; reflexivity.
  - intros uid form.
    rewrite (proj1 (submit_entry_ends env uid form w)).
    destruct (save_entry_cases env uid form w)
      as (r & w' & E & _ & _ & Hcases).
    rewrite E. simpl.
    destruct Hcases as [[_ [He _]] | [[_ [He _]]
                       | (v1 & v2 & uploaded & _ & Hb & Hrow & _)]];
      try (now apply (store_keyed_same w)).
    eapply (store_keyed_snoc w); eauto; simpl; reflexivity.
  - intros i. unfold delete_entry, bind, query_first, ret.
    destruct (find _ (tax_entries (db w))) as [entry |]; [| exact Hs].
    destruct (negb (rrr_verified entry) && negb (paydirect_verified entry));
      [| exact Hs].
    unfold delete_and_commit, set_tax_entries, set_db. simpl.
    destruct Hs as [Hid [Hr Hp]].
    unfold store_keyed, entries_keyed, references_unique. simpl.
    split; [| split].
    + now apply NoDup_map_filter.
    + now apply unique_filter.
    + now apply unique_filter.
  - intros i.
    destruct (reverify_entry_cases env i w)
      as (r & w' & E & _ & _ & Hcases).
    rewrite E. simpl.
    destruct Hcases as [[_ [_ ->]] | [entry [F [[_ [He _]]
                       | (v1 & v2 & _ & He & _)]]]];
      try exact Hs; try (now apply (store_keyed_same w)).
    destruct Hs as [Hid [Hr Hp]]. unfold entries_keyed in Hid.
    apply find_some in F. destruct F as [Hin _].
    destruct (reverified_same_record entry v1 v2)
      as (Eid & _ & _ & Errr & Epd & _).
    unfold store_keyed, entries_keyed, references_unique.
    rewrite He.
    rewrite (rewrite_column id _ entry _ Hid Hin Eid).
    rewrite (rewrite_column rrr _ entry _ Hid Hin Errr).
    rewrite (rewrite_column paydirect_ref _ entry _ Hid Hin Epd).
    split; [| split]; assumption.
Qed.

(** X8. That the entry table is keyed is an invariant of the routes that
    write it: from a table in which ids are a key and no non-NULL
    reference occurs twice in its column, every sequence of requests to
    submit_tax_item, submit_entry, delete_entry and reverify_entry, in
    live or mock mode, leads to such a table again, however each request
    ends.  Nothing is said about the amounts: the ids and the references
    of the rows that the routes write do not depend on what a provider
    reports as amount. *)
Theorem reachable_store_is_keyed (env : Env) (w : World)
    (qs : list Request) :
  store_keyed w -> store_keyed (serve_all env w qs).
Proof.
  unfold serve_all. revert w.
  induction qs as [| q t IH]; intros w Hs; simpl; [exact Hs |].
  apply IH.
  destruct (routes_keep_store_keyed env w Hs) as (H1 & H2 & H3 & H4).
  destruct q; simpl; auto.
Qed.

(** The theorem from the empty table, for a submission through each of
    the two forms, a re-verification and a deletion. *)
Lemma reachable_store_witness :
  store_keyed (start_of one_ato_db)
  /\ store_keyed
       (serve_all live_env (start_of one_ato_db)
          [SubmitTaxItem 1 both_channels_form;
           SubmitEntry 1 repeated_entry_form;
           ReverifyEntry 1; DeleteEntry 1]).
Proof.
  assert (H : store_keyed (start_of one_ato_db)).
  { unfold store_keyed, entries_keyed, references_unique.
    simpl. split; [| split]; constructor. }
  split; [exact H |].
  exact (reachable_store_is_keyed live_env (start_of one_ato_db) _ H).
Defined.

End InvariantFacts.

(** ** submit_entry *)

Module EntryFacts.
Import Py Models Sys Payment_api App Views Vocab Notions Samples Cases.
Import StoreFacts VerifierFacts RouteFacts RowFacts InvariantFacts.
Local Open Scope world_scope.

(** What the UNIQUE check has found when it stops a row. *)
Lemma breaks_unique_true (a b : option string) (es : list TaxEntry) :
  breaks_unique a b es = true ->
  (exists r, a = Some r /\ In (Some r) (map rrr es))
  \/ (exists r, b = Some r /\ In (Some r) (map paydirect_ref es)).
Proof.
  unfold breaks_unique. intros H. apply existsb_exists in H.
  destruct H as [e [Hin H]]. apply orb_true_iff in H.
  destruct H as [H | H]; [left; destruct a as [r |]
                         | right; destruct b as [r |]];
    try discriminate; exists r; (split; [reflexivity |]);
    apply in_map_iff; exists e; (split; [| exact Hin]).
  - destruct (rrr e) as [x |]; simpl in H; [| discriminate].
    apply String.eqb_eq in H. now subst.
  - destruct (paydirect_ref e) as [x |]; simpl in H; [| discriminate].
    apply String.eqb_eq in H. now subst.
Qed.

Lemma live_env_returns : verifiers_return live_env.
Proof. intros _ n s. split; eexists; reflexivity. Qed.

(** X9. submit_entry has no pre-check and never answers with a response:
    with providers whose answers decode it reaches its last statement,
    where [url_for('my_submissions')] raises BuildError, because app.py
    registers no such endpoint.  By then each usable reference of the form
    has been sent to its verifier exactly once and the outcome is flashed
    and committed: the entry is refused, with the table unchanged, exactly
    when a reference of the form is already stored in the column of its
    channel; otherwise it is appended under the next id with the
    references of the form, the whole form as data and no month or
    year. *)
Theorem submit_entry_verifies_then_saves (env : Env) (uid : Z) (form : dict)
    (w : World) :
  verifiers_return env ->
  exists flash w',
    save_entry env uid form w = (inr flash, w')
    /\ submit_entry env uid form w = (inl BuildError, w')
    /\ calls_on Remita w'
       = calls_on Remita w ++ call_for Remita (form_get form "rrr")
    /\ calls_on PayDirect w'
       = calls_on PayDirect w
         ++ call_for PayDirect (form_get form "paydirect_ref")
    /\ (entry_reference_taken form (tax_entries (db w)) ->
        flash = ErrorSavingEntry
        /\ tax_entries (db w') = tax_entries (db w))
    /\ (~ entry_reference_taken form (tax_entries (db w)) ->
        flash = EntrySaved
        /\ exists e,
             tax_entries (db w') = tax_entries (db w) ++ [e]
             /\ id e = next_id (tax_entries (db w))
             /\ rrr e = form_get form "rrr"
             /\ paydirect_ref e = form_get form "paydirect_ref"
             /\ uploaded_by e = uid
             /\ data e = form_items form
             /\ month e = None /\ year e = None
             /\ (truthy_str (rrr e) = false -> rrr_verified e = false)
             /\ (truthy_str (paydirect_ref e) = false ->
                 paydirect_verified e = false)).
Proof.
  intros Hret.
  destruct (save_entry_cases env uid form w)
    as (r & w' & E & _ & _ & Hcases).
  assert (Hend : forall flash, r = inr flash ->
                 submit_entry env uid form w = (inl BuildError, w')).
  { intros flash ->. unfold submit_entry, bind. rewrite E. reflexivity. }
  destruct Hcases as [[_ [_ Hno]] | [(-> & He & Hb & Hc1 & Hc2)
                     | (v1 & v2 & uploaded & -> & Hb & Hrow & Hc1 & Hc2
                        & Hv1 & Hv2 & _)]];
    [contradiction | |].
  - exists ErrorSavingEntry, w'.
    split; [exact E |]. split; [exact (Hend _ eq_refl) |].
    split; [exact Hc1 |]. split; [exact Hc2 |].
    split; [intros _; split; [reflexivity | exact He] |].
    intros Hfree. exfalso. apply Hfree.
    exact (breaks_unique_true _ _ _ Hb).
  - exists EntrySaved, w'.
    destruct (breaks_unique_false _ _ _ Hb) as [Fr Fp].
    split; [exact E |]. split; [exact (Hend _ eq_refl) |].
    split; [exact Hc1 |]. split; [exact Hc2 |].
    split.
    + intros [[r0 [Hr Hin]] | [r0 [Hr Hin]]]; exfalso.
      * exact (Fr r0 Hr Hin).
      * exact (Fp r0 Hr Hin).
    + intros _. split; [reflexivity |]. eexists. split; [exact Hrow |].
      cbn [id rrr paydirect_ref uploaded_by data month year rrr_verified
           paydirect_verified].
      repeat split.
      * intros T. now rewrite (Hv1 T).
      * intros T. now rewrite (Hv2 T).
Qed.

(** The theorem for a form that repeats a stored Remita reference: the
    provider is asked, the entry is refused, and the request ends in
    BuildError. *)
Lemma submit_entry_witness :
  verifiers_return live_env
  /\ exists flash w',
       save_entry live_env 2 repeated_entry_form
                  (start_of (half_verified_db None)) = (inr flash, w')
       /\ submit_entry live_env 2 repeated_entry_form
                       (start_of (half_verified_db None))
          = (inl BuildError, w')
       /\ calls_on Remita w' = [mk_call Remita (Some "RRR-1")]
       /\ flash = ErrorSavingEntry.
Proof.
  split; [exact live_env_returns |].
  destruct (submit_entry_verifies_then_saves live_env 2 repeated_entry_form
              (start_of (half_verified_db None)) live_env_returns)
    as (flash & w' & E & E' & Hc & _ & Htaken & _).
  exists flash, w'. split; [exact E |]. split; [exact E' |].
  split; [exact Hc |].
  apply Htaken. left. exists "RRR-1". split; [reflexivity |].
  simpl. now left.
Defined.

End EntryFacts.

(** ** Requests one after another *)

Module ComposeFacts.
Import Py Models Sys Payment_api App Views Vocab Notions Samples Cases.
Import StoreFacts VerifierFacts RouteFacts RowFacts InvariantFacts.
Local Open Scope world_scope.

Lemma find_id_none (es : list TaxEntry) (i : Z) :
  find (fun e => id e =? i) es = None <-> ~ In i (map id es).
Proof.
  induction es as [| a t IH]; simpl; [tauto |].
  destruct (Z.eqb_spec (id a) i) as [Heq | Hne].
  - split; [discriminate | intros H; exfalso; apply H; now left].
  - rewrite IH. tauto.
Qed.

Lemma find_last (es : list TaxEntry) (e : TaxEntry) :
  ~ In (id e) (map id es) ->
  find (fun x => id x =? id e) (es ++ [e]) = Some e.
Proof.
  induction es as [| a t IH]; simpl; intros H.
  - now rewrite Z.eqb_refl.
  - destruct (Z.eqb_spec (id a) (id e)) as [Heq | Hne]; [tauto |].
    apply IH. tauto.
Qed.

Lemma filter_last (es : list TaxEntry) (e : TaxEntry) :
  ~ In (id e) (map id es) ->
  filter (fun x => negb (id x =? id e)) (es ++ [e]) = es.
Proof.
  induction es as [| a t IH]; simpl; intros H.
  - now rewrite Z.eqb_refl.
  - destruct (Z.eqb_spec (id a) (id e)) as [Heq | Hne]; [tauto |].
    simpl. f_equal. apply IH. tauto.
Qed.

Lemma find_rewritten (es : list TaxEntry) (entry entry' : TaxEntry) :
  NoDup (map id es) -> In entry es -> id entry' = id entry ->
  find (fun e => id e =? id entry)
       (map (fun e => if id e =? id entry then entry' else e) es)
  = Some entry'.
Proof.
  intros Hnd Hin Hid.
  pose proof (find_by_id
                (map (fun e => if id e =? id entry then entry' else e) es)
                entry') as F.
  rewrite Hid in F. apply F.
  - now rewrite (rewrite_column id es entry entry' Hnd Hin Hid).
  - apply in_map_iff. exists entry. split; [| exact Hin].
    now rewrite Z.eqb_refl.
Qed.

(** X10. The entry that submit_tax_item has just stored is the last row
    and carries the next id.  delete_entry on that id removes it and gives
    back the table as it was before the submission exactly when neither
    channel came back verified, which is the case for a form without a
    usable reference; with a verified channel, as for every usable
    reference in mock mode, the deletion is refused and nothing
    changes. *)
Theorem delete_after_submission (env : Env) (uid : Z) (form : dict)
    (w w1 : World) :
  submit_tax_item env uid form w
  = (inr (Redirect "enter_tax_data" EntrySubmitted), w1) ->
  exists e,
    tax_entries (db w1) = tax_entries (db w) ++ [e]
    /\ id e = next_id (tax_entries (db w))
    /\ (rrr_verified e = false -> paydirect_verified e = false ->
        exists w2,
          delete_entry (id e) w1
          = (inr (Redirect "enter_tax_data" EntryDeleted), w2)
          /\ tax_entries (db w2) = tax_entries (db w)
          /\ verifier_calls w2 = verifier_calls w1)
    /\ (rrr_verified e = true \/ paydirect_verified e = true ->
        delete_entry (id e) w1
        = (inr (Redirect "enter_tax_data" CannotDeleteVerified), w1))
    /\ (no_references form ->
        rrr_verified e = false /\ paydirect_verified e = false)
    /\ (USE_LIVE_API env = false -> ~ no_references form ->
        rrr_verified e = true \/ paydirect_verified e = true).
Proof.
  intros E.
  destruct (submit_tax_item_stored env uid form w w1 E)
    as (v1 & v2 & today & now & uploaded & Hrow & _ & Hv1 & Hv2 & Hm1 & Hm2).
  match type of Hrow with
  | _ = _ ++ [?row] => set (e := row) in *
  end.
  exists e. split; [exact Hrow |]. split; [reflexivity |].
  assert (Hfresh : ~ In (id e) (map id (tax_entries (db w))))
    by apply next_id_fresh.
  unfold delete_entry, bind, query_first, ret. rewrite Hrow.
  rewrite (find_last _ e Hfresh).
  split; [| split; [| split]].
  - intros F1 F2. rewrite F1, F2.
    cbn [negb andb]. unfold delete_and_commit, set_tax_entries, set_db.
    eexists. split; [reflexivity |].
    cbn [db tax_entries verifier_calls]. rewrite Hrow.
    split; [| reflexivity]. exact (filter_last _ e Hfresh).
  - intros [-> | ->]; [reflexivity | now rewrite andb_false_r].
  - intros [T1 T2]. subst e. cbn [rrr_verified paydirect_verified].
    rewrite (Hv1 T1), (Hv2 T2). now split.
  - intros Hmock Hrefs. unfold no_references in Hrefs.
    subst e. cbn [rrr_verified paydirect_verified].
    destruct (truthy_str (form_get form "remita_rrr")) eqn:T1;
      [left; now apply Hm1 |].
    destruct (truthy_str (form_get form "paydirect")) eqn:T2;
      [right; now apply Hm2 |].
    exfalso. apply Hrefs. now split.
Qed.

(** The theorem for a form with an empty Remita field: the stored entry is
    unverified and its deletion empties the table again. *)
Lemma delete_after_submission_witness :
  submit_tax_item mock_env 1 no_reference_form (start_of one_ato_db)
  = (inr (Redirect "enter_tax_data" EntrySubmitted), after_plain_submission)
  /\ exists w2,
       delete_entry 1 after_plain_submission
       = (inr (Redirect "enter_tax_data" EntryDeleted), w2)
       /\ tax_entries (db w2) = [].
Proof.
  assert (E : submit_tax_item mock_env 1 no_reference_form
                (start_of one_ato_db)
              = (inr (Redirect "enter_tax_data" EntrySubmitted),
                 after_plain_submission)) by reflexivity.
  split; [exact E |].
  destruct (delete_after_submission mock_env 1 no_reference_form
              (start_of one_ato_db) after_plain_submission E)
    as (e & Hrow & Hid & Hdel & _ & Hnone & _).
  destruct Hnone as [F1 F2]; [split; reflexivity |].
  destruct (Hdel F1 F2) as (w2 & Ed & Hes & _).
  exists w2. rewrite Hid in Ed. split; [exact Ed | exact Hes].
Defined.

(** X11. In mock mode a re-verification of a stored entry always gets as
    far as its commit; the request then ends in the BuildError of
    [url_for('my_submissions')], an endpoint that app.py does not
    define.  The committed flags make every entry that has a usable
    reference undeletable, whatever its flags were before: the deletion
    that follows is refused and leaves the world as the re-verification
    left it. *)
Theorem mock_reverification_blocks_deletion (env : Env) (w : World)
    (entry : TaxEntry) :
  USE_LIVE_API env = false ->
  entries_keyed w ->
  In entry (tax_entries (db w)) ->
  truthy_str (rrr entry) = true \/ truthy_str (paydirect_ref entry) = true ->
  exists w1,
    reverify_entry env (id entry) w = (inl BuildError, w1)
    /\ (exists entry',
          tax_entries (db w1)
          = map (fun e => if id e =? id entry then entry' else e)
                (tax_entries (db w))
          /\ (truthy_str (rrr entry) = true -> rrr_verified entry' = true)
          /\ (truthy_str (paydirect_ref entry) = true ->
              paydirect_verified entry' = true))
    /\ delete_entry (id entry) w1
       = (inr (Redirect "enter_tax_data" CannotDeleteVerified), w1).
Proof.
  intros Hmock Hkey Hin Href.
  destruct (reverify_entry_cases env (id entry) w)
    as (r & w1 & E & _ & _ & Hcases).
  rewrite (find_by_id _ _ Hkey Hin) in Hcases.
  destruct Hcases as [[F _] | [entry' [F [[_ [_ Hno]]
                     | (v1 & v2 & -> & He & Hm1 & Hm2)]]]].
  - discriminate.
  - exfalso. apply Hno. intros Hlive. congruence.
  - inversion F; subst entry'. exists w1. split; [exact E |].
    split.
    { exists (reverified entry v1 v2). split; [exact He |].
      unfold reverified. split; intros T.
      - rewrite T. destruct (truthy_str (paydirect_ref entry));
          cbn [rrr_verified set_rrr_result set_paydirect_result];
          now apply Hm1.
      - rewrite T. cbn [paydirect_verified set_paydirect_result].
        now apply Hm2. }
    unfold delete_entry, bind, query_first, ret. rewrite He.
    destruct (reverified_same_record entry v1 v2) as (Eid & _).
    rewrite (find_rewritten _ entry _ Hkey Hin Eid).
    assert (Hv : rrr_verified (reverified entry v1 v2) = true
                 \/ paydirect_verified (reverified entry v1 v2) = true).
    { unfold reverified.
      destruct (truthy_str (rrr entry)) eqn:T1,
               (truthy_str (paydirect_ref entry)) eqn:T2;
        cbn [rrr_verified paydirect_verified set_rrr_result
             set_paydirect_result].
      - left. now apply Hm1.
      - left. now apply Hm1.
      - right. now apply Hm2.
      - destruct Href; discriminate. }
    destruct Hv as [-> | ->]; [reflexivity | now rewrite andb_false_r].
Qed.

(** The theorem for the unverified entry of a small store. *)
Lemma mock_reverification_witness :
  exists w1,
    reverify_entry mock_env 2 (start_of mixed_db) = (inl BuildError, w1)
    /\ delete_entry 2 w1
       = (inr (Redirect "enter_tax_data" CannotDeleteVerified), w1).
Proof.
  destruct (mock_reverification_blocks_deletion mock_env (start_of mixed_db)
              (pending_entry 2 1 "RRR-2")) as (w1 & E & _ & Hdel).
  - reflexivity.
  - unfold entries_keyed. simpl.
    repeat constructor; simpl; intuition discriminate.
  - simpl. right. now left.
  - left. reflexivity.
  - exists w1. split; [exact E | exact Hdel].
Defined.

(** X12. delete_entry and reverify_entry answer with 404 exactly for an id
    that no stored entry carries, and then they change nothing: no row, no
    verifier call, no draw of the random generator. *)
Theorem not_found_iff_unknown_id (env : Env) (w : World) (i : Z) :
  (fst (delete_entry i w) = inr NotFound
   <-> ~ In i (map id (tax_entries (db w))))
  /\ (fst (reverify_entry env i w) = inr NotFound
      <-> ~ In i (map id (tax_entries (db w))))
  /\ (~ In i (map id (tax_entries (db w))) ->
      delete_entry i w = (inr NotFound, w)
      /\ reverify_entry env i w = (inr NotFound, w)).
Proof.
  rewrite <- find_id_none.
  split; [| split].
  - unfold delete_entry, bind, query_first, ret.
    destruct (find _ (tax_entries (db w))) as [entry |].
    + split; [| discriminate].
      destruct (negb (rrr_verified entry) && negb (paydirect_verified entry));
        simpl; discriminate.
    + simpl. tauto.
  - destruct (reverify_entry_cases env i w)
      as (r & w' & E & _ & _ & Hcases).
    rewrite E. simpl.
    destruct Hcases as [[F [-> _]] | [entry [F [[[x ->] _]
                       | (v1 & v2 & -> & _)]]]];
      rewrite F; split; try discriminate; auto.
  - intros F. unfold delete_entry, reverify_entry, bind, query_first, ret.
    now rewrite F.
Qed.

End ComposeFacts.

(** ** The verifiers in live mode *)

Module ProviderFacts.
Import Py Models Sys Payment_api App Views Vocab Notions Samples Cases.
Local Open Scope world_scope.

Lemma length_snoc_pred {A} (l : list A) (x : A) :
  (List.length (l ++ [x]) - 1)%nat = List.length l.
Proof. rewrite length_app. simpl. lia. Qed.

(** How the body of the [try] turns an answer into a result. *)
Lemma live_answer_cases (o : HttpOutcome) :
  (undecodable o /\ exists x, live_answer o = inl x)
  \/ (~ undecodable o
      /\ exists v, live_answer o = inr v
                   /\ (verified v = true <-> reports_success o)
                   /\ amount v = reported_amount o).
Proof.
  assert (Hstatus : forall status : option string,
            opt_str_eqb status (Some "SUCCESS") = true ->
            status = Some "SUCCESS"%string).
  { intros [s |] H; simpl in H; [| discriminate].
    apply String.eqb_eq in H. now subst. }
  destruct o as [| | | | status amt].
  1-3: right; split;
       [intros [H | (s & a & H & _)]; discriminate
       | eexists; split; [reflexivity |]; split; [| reflexivity];
         split; [discriminate | intros [a [H _]]; discriminate]].
  - left. split; [now left | eexists; reflexivity].
  - destruct amt as [| q | | |].
    + right. split.
      * intros [H | (s & a & H & [Ha | Ha])]; [discriminate | |];
          inversion H; subst a; discriminate.
      * eexists. split; [reflexivity |]. split; [| reflexivity].
        unfold reports_success. cbn [verified]. split.
        -- intros H. exists AmountMissing. split; [| now left].
           now rewrite (Hstatus status H).
        -- intros [a [H _]]. inversion H. reflexivity.
    + right. split.
      * intros [H | (s & a & H & [Ha | Ha])]; [discriminate | |];
          inversion H; subst a; discriminate.
      * eexists. split; [reflexivity |]. split; [| reflexivity].
        unfold reports_success. cbn [verified]. split.
        -- intros H. exists (AmountNumber q). split; [| right; eauto].
           now rewrite (Hstatus status H).
        -- intros [a [H _]]. inversion H. reflexivity.
    + right. split.
      * intros [H | (s & a & H & [Ha | Ha])]; [discriminate | |];
          inversion H; subst a; discriminate.
      * eexists. split; [reflexivity |]. split; [| reflexivity].
        unfold reports_success. cbn [verified unverified].
        split; [discriminate |].
        intros [a [H [Ha | [q Ha]]]]; subst a; discriminate.
    + left. split; [right; exists status, AmountOverflow; auto
                   | eexists; reflexivity].
    + left. split; [right; exists status, AmountNotNumeric; auto
                   | eexists; reflexivity].
Qed.

(** X13. In live mode the result of a verifier for a usable reference is
    decided by the answer of its provider alone.  For an answer whose
    amount, where it reads as a number, is finite: the reference is
    verified exactly when the answer is a JSON object with status
    "SUCCESS" and an amount that is missing or numeric, and the amount
    returned is the value that float() gives to the amount of the answer,
    0 without one.  A failed request, another content type, malformed
    JSON or an amount that does not read as a number give unverified; the
    verifier raises exactly for JSON that is not an object, for an amount
    that is neither number nor string and for an integer too large for a
    float, none of which its handler catches.  The random generator and
    the database are not touched. *)
Theorem live_verification_follows_provider (env : Env) (c : Channel)
    (ref : option string) (w : World) :
  USE_LIVE_API env = true ->
  truthy_str ref = true ->
  exists r w',
    verifier env c ref w = (r, w')
    /\ draws w' = draws w /\ db w' = db w
    /\ verifier_calls w' = verifier_calls w ++ [mk_call c ref]
    /\ ((exists x, r = inl x) <-> undecodable (answer_in env c ref w))
    /\ (forall v, r = inr v ->
          (verified v = true <-> reports_success (answer_in env c ref w))
          /\ amount v = reported_amount (answer_in env c ref w)).
Proof.
  intros Hlive Href. unfold answer_in.
  destruct c; cbn [verifier provider];
    [unfold verify_remita_rrr | unfold verify_paydirect_reference];
    unfold bind, note_call, ret; rewrite Href, Hlive;
    cbn [negb db verifier_calls draws ticks];
    rewrite length_snoc_pred.
  - destruct (live_answer_cases
                (remita_api env (List.length (verifier_calls w))
                            (str_of ref)))
      as [[Hu [x Hx]] | [Hu (v & Hv & Hver & Hamt)]].
    + rewrite Hx. eexists. eexists. split; [reflexivity |].
      cbn [db verifier_calls draws].
      split; [reflexivity |]. split; [reflexivity |].
      split; [reflexivity |]. split.
      * split; [intros _; exact Hu | intros _; eauto].
      * intros v Hv. discriminate.
    + rewrite Hv. eexists. eexists. split; [reflexivity |].
      cbn [db verifier_calls draws].
      split; [reflexivity |]. split; [reflexivity |].
      split; [reflexivity |]. split.
      * split; [intros [x Hx]; discriminate | intros H; contradiction].
      * intros v0 Hv0. inversion Hv0; subst v0. split; assumption.
  - destruct (live_answer_cases
                (interswitch_api env (List.length (verifier_calls w))
                                 (str_of ref)))
      as [[Hu [x Hx]] | [Hu (v & Hv & Hver & Hamt)]].
    + rewrite Hx. eexists. eexists. split; [reflexivity |].
      cbn [db verifier_calls draws].
      split; [reflexivity |]. split; [reflexivity |].
      split; [reflexivity |]. split.
      * split; [intros _; exact Hu | intros _; eauto].
      * intros v Hv. discriminate.
    + rewrite Hv. eexists. eexists. split; [reflexivity |].
      cbn [db verifier_calls draws].
      split; [reflexivity |]. split; [reflexivity |].
      split; [reflexivity |]. split.
      * split; [intros [x Hx]; discriminate | intros H; contradiction].
      * intros v0 Hv0. inversion Hv0; subst v0. split; assumption.
Qed.

(** The theorem for the pending PayDirect payment of the sample
    provider: unverified, with the amount that was reported. *)
Lemma live_verification_witness :
  USE_LIVE_API live_env = true
  /\ truthy_str (Some "PD-9") = true
  /\ exists r w',
       verifier live_env PayDirect (Some "PD-9") (start_of one_ato_db)
       = (r, w')
       /\ forall v, r = inr v -> amount v = 5000%Q.
Proof.
  split; [reflexivity |]. split; [reflexivity |].
  destruct (live_verification_follows_provider live_env PayDirect
              (Some "PD-9") (start_of one_ato_db) eq_refl eq_refl)
    as (r & w' & E & _ & _ & _ & _ & Hv).
  exists r, w'. split; [exact E |].
  intros v Hr. exact (proj2 (Hv v Hr)).
Defined.

End ProviderFacts.

(** ** Sums over both channels and sums per channel *)

Module AgreementFacts.
Import Py Models Sys Payment_api App Views Vocab Notions Samples Cases.
Import SqlFacts LeagueFacts SumFacts.

Lemma fold_Qplus_start (l : list Q) (a : Q) :
  (fold_left Qplus l a == a + fold_left Qplus l 0)%Q.
Proof.
  revert a. induction l as [| x t IH]; intros a; simpl.
  - now rewrite Qplus_0_r.
  - rewrite (IH (a + x)%Q), (IH (0 + x)%Q). ring.
Qed.

Lemma sum_cons (x : Q) (l : list Q) :
  (Py.sum (x :: l) == x + Py.sum l)%Q.
Proof.
  unfold Py.sum. simpl. rewrite fold_Qplus_start. ring.
Qed.

Lemma sum_map_ext {A} (f g : A -> Q) (l : list A) :
  (forall x, In x l -> (f x == g x)%Q) ->
  (Py.sum (map f l) == Py.sum (map g l))%Q.
Proof.
  induction l as [| x t IH]; intros H; simpl; [reflexivity |].
  rewrite !sum_cons, IH, (H x (or_introl eq_refl)); [reflexivity |].
  intros y Hy. apply H. now right.
Qed.

Lemma sum_map_plus {A} (f g : A -> Q) (l : list A) :
  (Py.sum (map (fun x => f x + g x) l)
   == Py.sum (map f l) + Py.sum (map g l))%Q.
Proof.
  induction l as [| x t IH]; simpl; [reflexivity |].
  rewrite !sum_cons, IH. ring.
Qed.

(** Two filters that differ only on rows whose value is 0 give the same
    sum. *)
Lemma sum_filter_change {A} (p q : A -> bool) (f : A -> Q) (l : list A) :
  (forall x, In x l -> p x <> q x -> (f x == 0)%Q) ->
  (Py.sum (map f (filter p l)) == Py.sum (map f (filter q l)))%Q.
Proof.
  intros H. rewrite <- !sum_where. apply sum_map_ext.
  intros x Hx. specialize (H x Hx).
  destruct (p x), (q x); try reflexivity.
  - apply H. discriminate.
  - symmetry. apply H. discriminate.
Qed.

Lemma sum_zeros {A} (l : list A) :
  (Py.sum (map (fun _ => 0%Q) l) == 0)%Q.
Proof.
  induction l as [| x t IH]; simpl; [reflexivity |].
  rewrite sum_cons, IH. ring.
Qed.

Lemma indicator_sum_out (ks : list Z) (a : Z) (c : Q) :
  ~ In a ks ->
  (Py.sum (map (fun k => if k =? a then c else 0%Q) ks) == 0)%Q.
Proof.
  intros Hout. rewrite <- (sum_zeros ks). apply sum_map_ext.
  intros k Hk. destruct (Z.eqb_spec k a); [subst; contradiction | reflexivity].
Qed.

Lemma indicator_sum_in (ks : list Z) (a : Z) (c : Q) :
  NoDup ks -> In a ks ->
  (Py.sum (map (fun k => if k =? a then c else 0%Q) ks) == c)%Q.
Proof.
  induction 1 as [| k t Hk Hnd IH]; intros Hin; [contradiction |].
  simpl. rewrite sum_cons. destruct (Z.eqb_spec k a) as [-> | Hne].
  - rewrite indicator_sum_out by exact Hk. ring.
  - destruct Hin as [H | H]; [contradiction |]. rewrite IH by exact H. ring.
Qed.

(** The sums of the groups add up to the sum of all rows. *)
Lemma group_sum {A} (key : A -> Z) (h : A -> Q) (l : list A) (ks : list Z) :
  NoDup ks -> (forall e, In e l -> In (key e) ks) ->
  (Py.sum (map (fun k => Py.sum (map h (filter (fun e => k =? key e) l))) ks)
   == Py.sum (map h l))%Q.
Proof.
  intros Hnd. induction l as [| x t IH]; intros Hcov.
  - simpl. apply sum_zeros.
  - transitivity
      (Py.sum (map (fun k => (if k =? key x then h x else 0%Q)
                             + Py.sum (map h (filter (fun e => k =? key e) t)))%Q
                   ks)).
    + apply sum_map_ext. intros k _. simpl.
      destruct (k =? key x); simpl; [apply sum_cons | ring].
    + rewrite sum_map_plus, IH, indicator_sum_in; simpl.
      * now rewrite sum_cons.
      * exact Hnd.
      * apply Hcov. now left.
      * intros e He. apply Hcov. now right.
Qed.

(** The sum of a group that has a row and no NULL is not NULL. *)
Lemma sql_sum_of_values {A} (f : A -> Q) (g : list A) :
  g <> [] ->
  exists s, Sql.sum (map (fun e => Some (f e)) g) = Some s
            /\ (s == Py.sum (map f g))%Q.
Proof.
  intros Hne.
  assert (Hs : exists s, Sql.sum (map (fun e => Some (f e)) g) = Some s).
  { unfold Sql.sum. destruct g as [| x t]; [now contradiction Hne |].
    simpl. generalize (f x). clear. induction t as [| y t IH]; intros a;
      simpl; eauto. }
  destruct Hs as [s Hs]. exists s. split; [exact Hs |].
  pose proof (sql_sum_or_zero (map (fun e => Some (f e)) g)) as H.
  rewrite Hs, or_zero_some, map_map in H. rewrite H.
  apply sum_map_ext. intros x _. apply or_zero_some.
Qed.

(** What [performance_tracker] shows as actual: both amounts of every
    entry of the user. *)
Lemma tracker_sum (d : Database) (uid : Z) :
  (snd (performance_tracker d uid)
   == Py.sum (map both_amounts (entries_of d uid)))%Q.
Proof.
  unfold performance_tracker. cbn [snd]. rewrite or_zero_some.
  destruct (entries_of d uid) as [| e t] eqn:E; [reflexivity |].
  rewrite <- E.
  destruct (sql_sum_of_values both_amounts (entries_of d uid))
    as [s [Hs Hsum]]; [rewrite E; discriminate |].
  unfold both_amounts in Hs at 1. rewrite Hs. exact Hsum.
Qed.

Lemma coalesce_or_zero (x : option Q) : (coalesce x == or_zero x)%Q.
Proof.
  destruct x as [q |]; [| reflexivity]. symmetry. apply or_zero_some.
Qed.

(** On entries whose unverified channels hold no amount or 0, selecting
    by either flag and selecting by the flag of the channel give the same
    sum of the channel. *)
Lemma either_rrr_sum (es : list TaxEntry) :
  unverified_amounts_zero es ->
  (Py.sum (map (fun e => or_zero (rrr_amount e))
               (filter (fun e => rrr_verified e || paydirect_verified e) es))
   == verified_rrr_total es)%Q.
Proof.
  intros Hz. unfold verified_rrr_total. apply sum_filter_change.
  intros e He Hne. apply (Hz e He).
  destruct (rrr_verified e); [| reflexivity].
  now contradiction Hne.
Qed.

Lemma either_paydirect_sum (es : list TaxEntry) :
  unverified_amounts_zero es ->
  (Py.sum (map (fun e => or_zero (paydirect_amount e))
               (filter (fun e => rrr_verified e || paydirect_verified e) es))
   == verified_paydirect_total es)%Q.
Proof.
  intros Hz. unfold verified_paydirect_total. apply sum_filter_change.
  intros e He Hne. apply (Hz e He).
  destruct (paydirect_verified e); [| reflexivity].
  rewrite orb_true_r in Hne. now contradiction Hne.
Qed.

Lemma sum_of_verified_settled (es : list TaxEntry) :
  unverified_amounts_zero es ->
  (sum_of_verified_entries es
   == verified_rrr_total es + verified_paydirect_total es)%Q.
Proof.
  intros Hz. unfold sum_of_verified_entries.
  now rewrite sum_map_plus, either_rrr_sum, either_paydirect_sum.
Qed.

(** Dropping rows whose value is 0 does not change a sum. *)
Lemma sum_without_zeros {A} (v : A -> bool) (f : A -> Q) (l : list A) :
  (forall x, In x l -> v x = false -> (f x == 0)%Q) ->
  (Py.sum (map f l) == Py.sum (map f (filter v l)))%Q.
Proof.
  intros H. rewrite <- sum_where. apply sum_map_ext.
  intros x Hx. destruct (v x) eqn:E; [reflexivity | now apply H].
Qed.

Lemma all_amounts_settled (es : list TaxEntry) :
  unverified_amounts_zero es ->
  (Py.sum (map both_amounts es)
   == verified_rrr_total es + verified_paydirect_total es)%Q.
Proof.
  intros Hz. unfold verified_rrr_total, verified_paydirect_total.
  rewrite <- (sum_without_zeros rrr_verified
                (fun e => or_zero (rrr_amount e)) es)
    by (intros e He; apply (Hz e He)).
  rewrite <- (sum_without_zeros paydirect_verified
                (fun e => or_zero (paydirect_amount e)) es)
    by (intros e He; apply (Hz e He)).
  rewrite <- sum_map_plus. apply sum_map_ext.
  intros e _. unfold both_amounts. now rewrite !coalesce_or_zero.
Qed.

(** X14. For a user whose unverified channels hold no amount or 0, as in
    every entry that the routes store in mock mode, the sums that select
    an entry when either channel is verified and then add both amounts
    ([get_user_summary], [get_league_table_data]) and the sum of all
    amounts that [performance_tracker] shows are the sums per verified
    channel of [dashboards]. *)
Theorem summaries_agree_on_settled_entries (d : Database) (uid : Z) :
  unverified_amounts_zero (entries_of d uid) ->
  (rrr_total (get_user_summary d uid)
   == verified_rrr_total (entries_of d uid))%Q
  /\ (paydirect_total (get_user_summary d uid)
      == verified_paydirect_total (entries_of d uid))%Q
  /\ (total_amount (get_user_summary d uid)
      == verified_rrr_total (entries_of d uid)
         + verified_paydirect_total (entries_of d uid))%Q
  /\ (sum_of_verified_entries (entries_of d uid)
      == verified_rrr_total (entries_of d uid)
         + verified_paydirect_total (entries_of d uid))%Q
  /\ (snd (performance_tracker d uid)
      == verified_rrr_total (entries_of d uid)
         + verified_paydirect_total (entries_of d uid))%Q.
Proof.
  intros Hz.
  pose proof (either_rrr_sum _ Hz) as Hr.
  pose proof (either_paydirect_sum _ Hz) as Hp.
  assert (Hrows : filter (fun e => (uploaded_by e =? uid)
                                   && (rrr_verified e
                                       || paydirect_verified e))
                         (tax_entries d)
                  = filter (fun e => rrr_verified e || paydirect_verified e)
                           (entries_of d uid)).
  { unfold entries_of. now rewrite filter_twice. }
  unfold get_user_summary. cbn [rrr_total paydirect_total total_amount].
  rewrite Hrows, !sql_sum_or_zero, !map_map.
  split; [exact Hr |]. split; [exact Hp |].
  split; [now rewrite Hr, Hp |].
  split; [now apply sum_of_verified_settled |].
  rewrite tracker_sum. now apply all_amounts_settled.
Qed.

(** The theorem for a store with one verified and one unverified
    entry. *)
Lemma summaries_agree_witness :
  unverified_amounts_zero (entries_of mixed_db 1)
  /\ (total_amount (get_user_summary mixed_db 1)
      == verified_rrr_total (entries_of mixed_db 1)
         + verified_paydirect_total (entries_of mixed_db 1))%Q.
Proof.
  assert (H : unverified_amounts_zero (entries_of mixed_db 1)).
  { intros e He. simpl in He.
    destruct He as [<- | [<- | []]]; split; intros Hv; simpl in Hv;
      try discriminate Hv; reflexivity. }
  split; [exact H |].
  exact (proj1 (proj2 (proj2
           (summaries_agree_on_settled_entries mixed_db 1 H)))).
Defined.

End AgreementFacts.

(** ** The totals and leaders of the admin dashboard *)

Module LeaderFacts.
Import Py Models Sys Payment_api App Views Vocab Notions Samples Cases.
Import SortFacts ResultFacts PercentFacts SumFacts AgreementFacts.

Lemma sum_perm (l l' : list Q) :
  Permutation l l' -> (Py.sum l == Py.sum l')%Q.
Proof.
  induction 1 as [| x l l' _ IH | x y l | l l' l'' _ IH1 _ IH2].
  - reflexivity.
  - now rewrite !sum_cons, IH.
  - rewrite !sum_cons. ring.
  - now rewrite IH1.
Qed.

(** In a sorted list every element of a prefix stands in the order to
    every element after it. *)
Lemma sorted_app_order {A} (R : A -> A -> Prop) (l1 l2 : list A) :
  StronglySorted R (l1 ++ l2) ->
  forall a b, In a l1 -> In b l2 -> R a b.
Proof.
  induction l1 as [| x t IH]; simpl; intros Hs a b Ha Hb; [contradiction |].
  inversion Hs as [| ? ? Hs' Hall]; subst.
  destruct Ha as [<- | Ha]; [| now apply IH].
  rewrite Forall_forall in Hall. apply Hall. apply in_or_app. now right.
Qed.

(** [l[-5:] if len(l) >= 5 else l[-len(l):]] is the list without its
    first [len(l) - 5] elements. *)
Lemma bottom_slice {A} (l : list A) :
  (if (5 <=? List.length l)%nat
   then slice_last 5 l else slice_last (List.length l) l)
  = skipn (List.length l - 5) l.
Proof.
  unfold slice_last. destruct (Nat.leb_spec 5 (List.length l)) as [H | H].
  - reflexivity.
  - replace (List.length l - 5)%nat with 0%nat by lia.
    destruct (List.length l =? 0)%nat; [reflexivity |].
    now rewrite Nat.sub_diag.
Qed.

(** The totals never raise: the mean is guarded against the empty
    league. *)
Lemma dashboard_totals_spec (league : list DashboardRow) :
  exists avg,
    dashboard_totals league
    = inr (mk_DashboardTotals
             (Py.sum (map (fun r => or_zero (q_RRR (d_row r))) league))
             (Py.sum (map (fun r => or_zero (q_Paydirect (d_row r))) league))
             (Py.sum (map (fun r => or_zero (q_RRR (d_row r))) league)
              + Py.sum (map (fun r => or_zero (q_Paydirect (d_row r)))
                            league))
             avg
             (map (fun r => q_ATO (d_row r)) (firstn 5 league))
             (map d_Percent (firstn 5 league))
             (map (fun r => q_ATO (d_row r))
                  (skipn (List.length league - 5) league))
             (map d_Percent (skipn (List.length league - 5) league)))
    /\ (league = [] -> avg = 0%Q)
    /\ (league <> [] ->
        avg = round (Py.sum (map d_Percent league)
                     / inject_Z (Z.of_nat (List.length league))) 1).
Proof.
  unfold dashboard_totals. rewrite bottom_slice.
  destruct league as [| r t] eqn:E.
  - exists 0%Q. split; [reflexivity |]. split; [reflexivity |].
    intros H. now contradiction H.
  - rewrite <- E.
    rewrite truediv_nonzero.
    + eexists. split; [reflexivity |].
      split; [rewrite E; discriminate | reflexivity].
    + rewrite E. intros H.
      unfold Qeq, inject_Z in H. cbn [Qnum Qden List.length] in H. lia.
Qed.

(** X15. The admin dashboard never fails on the rows of its league
    query: for the sorted league it returns the first five percents as
    top 5 and the last five as bottom 5, both the whole league when it has
    at most five rows (so that a row can be leader and laggard at once);
    no row outside the top 5 has a higher percent than one inside, and no
    row outside the bottom 5 a lower one.  The mean percent of an empty
    league is 0, and the channel totals are those of the query rows, with
    NULL as 0. *)
Theorem dashboard_leaders (query_rows : list LeagueQueryRow) :
  exists league t,
    dashboard_league query_rows = inr league
    /\ dashboard_totals league = inr t
    /\ List.length league = List.length query_rows
    /\ top5_values t = firstn 5 (map d_Percent league)
    /\ bottom5_values t
       = skipn (List.length league - 5) (map d_Percent league)
    /\ top5_labels t = firstn 5 (map (fun r => q_ATO (d_row r)) league)
    /\ bottom5_labels t
       = skipn (List.length league - 5)
               (map (fun r => q_ATO (d_row r)) league)
    /\ (forall x y, In x (top5_values t) ->
                    In y (skipn 5 (map d_Percent league)) -> (y <= x)%Q)
    /\ (forall x y, In x (firstn (List.length league - 5)
                                 (map d_Percent league)) ->
                    In y (bottom5_values t) -> (y <= x)%Q)
    /\ ((List.length query_rows <= 5)%nat ->
        top5_values t = map d_Percent league
        /\ bottom5_values t = map d_Percent league)
    /\ (query_rows = [] -> avg_percent t = 0%Q)
    /\ (total_rrr t
        == Py.sum (map (fun q => or_zero (q_RRR q)) query_rows))%Q
    /\ (total_paydirect t
        == Py.sum (map (fun q => or_zero (q_Paydirect q)) query_rows))%Q
    /\ grand_total t = (total_rrr t + total_paydirect t)%Q.
Proof.
  unfold dashboard_league.
  match goal with
  | |- context [for_each ?f ?l] =>
      destruct (for_each_total f l) as [enriched [He Hall]]
  end.
  { intros q _. rewrite percent_if_target_spec. simpl. eauto. }
  rewrite He. cbn [bind_result].
  set (league := sort_desc d_Percent enriched).
  assert (Hrows : map d_row enriched = query_rows).
  { transitivity (map (fun q : LeagueQueryRow => q) query_rows);
      [| apply map_id].
    eapply Forall2_map_eq; [| exact Hall].
    intros q r Hq. simpl in Hq.
    destruct (percent_if_target 1 _ _); simpl in Hq; [discriminate |].
    now inversion Hq. }
  assert (Hperm : Permutation enriched league) by apply sort_desc_perm.
  assert (Hsorted : StronglySorted (descending d_Percent) league)
    by apply sort_desc_sorted.
  assert (Hlen : List.length league = List.length query_rows).
  { rewrite <- (Permutation_length Hperm), <- Hrows. now rewrite length_map. }
  assert (Hvals : StronglySorted (fun x y : Q => (y <= x)%Q)
                                 (map d_Percent league)).
  { clear -Hsorted. induction Hsorted as [| a l _ IH Hall]; simpl;
      constructor; [exact IH |].
    rewrite Forall_forall in *. intros y Hy. apply in_map_iff in Hy.
    destruct Hy as [b [<- Hb]]. now apply Hall. }
  destruct (dashboard_totals_spec league) as (avg & Ht & Havg & _).
  exists league. eexists. split; [reflexivity |]. split; [exact Ht |].
  cbn [top5_values bottom5_values top5_labels bottom5_labels avg_percent
       total_rrr total_paydirect grand_total].
  split; [exact Hlen |].
  rewrite <- !firstn_map, <- !skipn_map.
  split; [reflexivity |]. split; [reflexivity |].
  split; [reflexivity |]. split; [reflexivity |].
  split.
  { intros x y Hx Hy.
    apply (sorted_app_order (fun x y : Q => (y <= x)%Q)
             (firstn 5 (map d_Percent league))
             (skipn 5 (map d_Percent league))); try assumption.
    rewrite firstn_skipn. exact Hvals. }
  split.
  { intros x y Hx Hy.
    apply (sorted_app_order (fun x y : Q => (y <= x)%Q)
             (firstn (List.length league - 5) (map d_Percent league))
             (skipn (List.length league - 5) (map d_Percent league)));
      try assumption.
    rewrite firstn_skipn. exact Hvals. }
  split.
  { intros Hshort. rewrite <- Hlen in Hshort. split.
    - apply firstn_all2. now rewrite length_map.
    - replace (List.length league - 5)%nat with 0%nat by lia. reflexivity. }
  split.
  { intros Hnone. apply Havg.
    apply length_zero_iff_nil. rewrite Hlen, Hnone. reflexivity. }
  split.
  { rewrite <- Hrows, map_map. symmetry. apply sum_perm.
    now apply Permutation_map. }
  split; [| reflexivity].
  rewrite <- Hrows, map_map. symmetry. apply sum_perm.
  now apply Permutation_map.
Qed.

End LeaderFacts.

(** ** The chart of analytics_dashboard *)

Module ChartFacts.
Import Py Models Sys Payment_api App Views Vocab Notions Samples Cases.
Import SortFacts ResultFacts SqlFacts LeagueFacts SumFacts LeagueValueFacts.
Import AgreementFacts.

Lemma int_dict_get_set_same (d : list (Z * Q)) (k : Z) (v : Q) :
  int_dict_get (int_dict_set d k v) k = Some v.
Proof.
  induction d as [| [k' v'] t IH]; simpl.
  - now rewrite Z.eqb_refl.
  - destruct (Z.eqb_spec k' k) as [-> | Hne]; simpl.
    + now rewrite Z.eqb_refl.
    + destruct (Z.eqb_spec k' k); [contradiction | exact IH].
Qed.

Lemma int_dict_get_set_other (d : list (Z * Q)) (k k' : Z) (v : Q) :
  k <> k' -> int_dict_get (int_dict_set d k v) k' = int_dict_get d k'.
Proof.
  intros Hne. induction d as [| [k0 v0] t IH]; simpl.
  - destruct (Z.eqb_spec k k'); [contradiction | reflexivity].
  - destruct (Z.eqb_spec k0 k) as [-> | H0]; simpl.
    + destruct (Z.eqb_spec k k'); [contradiction | reflexivity].
    + destruct (Z.eqb_spec k0 k'); [reflexivity | exact IH].
Qed.

Lemma opt_Z_eqb_eq (a b : option Z) : Sql.opt_Z_eqb a b = true <-> a = b.
Proof.
  destruct a as [x |], b as [y |]; simpl; split; intros H;
    try discriminate; try reflexivity.
  - apply Z.eqb_eq in H. now subst.
  - inversion H. apply Z.eqb_refl.
Qed.

Lemma inserted_rows_perm {R} (ahead : R -> R -> bool) (rows : list R) :
  Permutation rows (fold_right (insert_by ahead) [] rows).
Proof.
  induction rows as [| r t IH]; simpl; [constructor |].
  etransitivity; [apply perm_skip, IH | apply insert_by_any_perm].
Qed.

(** The groups of the stored month are those of [GROUP BY], in another
    order. *)
Lemma stored_groups_perm (query : list TaxEntry) :
  Permutation (Sql.group_by Sql.opt_Z_eqb Models.month query)
              (group_by_stored_month query).
Proof. apply inserted_rows_perm. Qed.

(** A group holds the rows of the query with its stored month, and there
    is one. *)
Lemma stored_group_In (query : list TaxEntry)
    (kg : option Z * list TaxEntry) :
  In kg (group_by_stored_month query) ->
  snd kg = filter (fun e => Sql.opt_Z_eqb (fst kg) (Models.month e)) query
  /\ exists e, In e (snd kg) /\ In e query /\ Models.month e = fst kg.
Proof.
  intros H.
  apply (Permutation_in _ (Permutation_sym (stored_groups_perm query))) in H.
  unfold Sql.group_by in H. apply in_map_iff in H.
  destruct H as [k [<- Hk]]. simpl. split; [reflexivity |].
  apply distinct_incl in Hk. apply in_map_iff in Hk.
  destruct Hk as [e [He Hq]]. exists e.
  split; [| split; [exact Hq | exact He]].
  apply filter_In. split; [exact Hq |]. now apply opt_Z_eqb_eq.
Qed.

Lemma stored_group_rows (query : list TaxEntry)
    (kg : option Z * list TaxEntry) (e : TaxEntry) :
  In kg (group_by_stored_month query) -> In e (snd kg) ->
  In e query /\ Models.month e = fst kg.
Proof.
  intros H He. destruct (stored_group_In query kg H) as [Hg _].
  rewrite Hg in He. apply filter_In in He. destruct He as [Hq Hk].
  split; [exact Hq |]. symmetry. now apply opt_Z_eqb_eq.
Qed.

Lemma stored_groups_NoDup (query : list TaxEntry) :
  NoDup (map fst (group_by_stored_month query)).
Proof.
  eapply Permutation_NoDup;
    [apply Permutation_map, stored_groups_perm |].
  rewrite group_by_keys.
  rewrite <- (map_id (Sql.distinct Sql.opt_Z_eqb (map Models.month query))).
  apply distinct_proj_NoDup. intros a b _ _ ->. now apply opt_Z_eqb_eq.
Qed.

(** Every stored month of the query heads a group. *)
Lemma stored_group_present (query : list TaxEntry) (e : TaxEntry) :
  In e query ->
  In (Models.month e,
      filter (fun e' => Sql.opt_Z_eqb (Models.month e) (Models.month e'))
             query)
     (group_by_stored_month query).
Proof.
  intros He.
  apply (Permutation_in _ (stored_groups_perm query)).
  unfold Sql.group_by. apply in_map_iff. exists (Models.month e).
  split; [reflexivity |].
  destruct (distinct_covers Sql.opt_Z_eqb
              (fun k => proj2 (opt_Z_eqb_eq k k) eq_refl)
              (fun a b c H1 H2 =>
                 proj2 (opt_Z_eqb_eq a c)
                   (eq_trans (proj1 (opt_Z_eqb_eq a b) H1)
                             (proj1 (opt_Z_eqb_eq b c) H2)))
              (map Models.month query) (Models.month e)
              (in_map Models.month query e He)) as [k [Hk Heq]].
  apply opt_Z_eqb_eq in Heq. now subst k.
Qed.

(** The month that the engine reads off a group is the month of the
    upload date of one of its rows. *)
Lemma bare_month_of_member (bare_row : list TaxEntry -> option TaxEntry)
    (query : list TaxEntry) (kg : option Z * list TaxEntry) :
  picks_member bare_row ->
  In kg (group_by_stored_month query) ->
  exists e, In e (snd kg) /\ In e query
            /\ bare_month bare_row (snd kg) = Some (month_of e).
Proof.
  intros Hpick Hkg.
  destruct (stored_group_In query kg Hkg) as [_ [e0 [He0 _]]].
  destruct (Hpick (snd kg)) as [e [Hb He]].
  { intros Hnil. rewrite Hnil in He0. contradiction. }
  exists e. split; [exact He |].
  split; [exact (proj1 (stored_group_rows query kg e Hkg He)) |].
  unfold bare_month. now rewrite Hb.
Qed.

(** Where the stored month is the month of the upload date, the groups
    are those of the upload month and carry it as their label. *)
Lemma stored_group_by_upload_month
    (bare_row : list TaxEntry -> option TaxEntry) (query : list TaxEntry)
    (kg : option Z * list TaxEntry) :
  picks_member bare_row -> months_stored query ->
  In kg (group_by_stored_month query) ->
  exists m, In m (map month_of query)
            /\ fst kg = Some m
            /\ bare_month bare_row (snd kg) = Some m
            /\ snd kg = filter (fun e => m =? month_of e) query.
Proof.
  intros Hpick Hst Hkg.
  destruct (bare_month_of_member bare_row query kg Hpick Hkg)
    as (e & He & Hq & Hb).
  destruct (stored_group_rows query kg e Hkg He) as [_ Hk].
  rewrite (Hst e Hq) in Hk.
  exists (month_of e). split; [now apply in_map |].
  split; [now symmetry |]. split; [exact Hb |].
  rewrite (proj1 (stored_group_In query kg Hkg)), <- Hk.
  apply filter_ext_in. intros e' He'. now rewrite (Hst e' He').
Qed.

(** The dict comprehension over rows with distinct months and with
    totals, none of them NULL: every row can be looked up, and nothing
    else. *)
Lemma mon_map_fold (rows : list (option Z * option Q)) (acc : list (Z * Q)) :
  (forall r, In r rows -> fst r <> None /\ snd r <> None) ->
  NoDup (map fst rows) ->
  exists mon_map,
    fold_left (fun acc mt =>
                 let? dict := acc in
                 let? m := int (fst mt) in
                 let? t := float (snd mt) in
                 inr (int_dict_set dict m t))
              rows (inr acc) = inr mon_map
    /\ (forall k q, In (Some k, Some q) rows ->
                    int_dict_get mon_map k = Some q)
    /\ (forall k, ~ In (Some k) (map fst rows) ->
                  int_dict_get mon_map k = int_dict_get acc k).
Proof.
  revert acc. induction rows as [| [k1 v1] t IH]; intros acc Hsome Hnd.
  - exists acc. split; [reflexivity |]. split; [intros k q [] | reflexivity].
  - destruct (Hsome (k1, v1) (or_introl eq_refl)) as [Hk1 Hv1].
    destruct k1 as [m1 |]; [| now contradiction Hk1].
    destruct v1 as [q1 |]; [| now contradiction Hv1].
    inversion Hnd as [| ? ? Hnotin Hnd']; subst.
    destruct (IH (int_dict_set acc m1 q1)) as (mm & Hfold & Hin & Hout);
      [intros r Hr; apply Hsome; now right | exact Hnd' |].
    exists mm. split; [exact Hfold |]. split.
    + intros k q [Heq | Hk].
      * inversion Heq; subst. rewrite (Hout k Hnotin).
        apply int_dict_get_set_same.
      * now apply Hin.
    + intros k Hk. simpl in Hk. rewrite Hout by tauto.
      apply int_dict_get_set_other. intros ->. tauto.
Qed.

(** X16. Let the engine read the month of a group off one of its rows,
    and let every entry of the user carry the month of its upload date as
    stored month, as the rows of submit_tax_item do.  Then the chart of
    [analytics_dashboard] has the twelve months 1..12 in order and does
    not fail.  The total of a month is the sum of both amounts, verified
    or not and NULL as 0, over the entries of the user uploaded in that
    month; with a month parameter other than 0 only entries of that month
    count, so that every other month shows 0.  Without a month parameter
    the twelve totals add up to the actual sum of [performance_tracker].
    (Rows without a stored month, as submit_entry writes them, fall into
    one group whatever their dates: see [analytics_chart_merges_months].) *)
Theorem analytics_chart_totals
    (bare_row : list TaxEntry -> option TaxEntry)
    (d : Database) (uid : Z) (month : option Z) :
  picks_member bare_row ->
  months_stored (entries_of d uid) ->
  exists chart,
    analytics_chart bare_row d uid month = inr chart
    /\ map fst chart = range 1 13
    /\ Forall (fun row =>
                 (snd row
                  == Py.sum (map both_amounts
                                 (chart_entries d uid month (fst row))))%Q)
              chart
    /\ (truthy_int month = true ->
        Forall (fun row => Some (fst row) <> month -> (snd row == 0)%Q)
               chart)
    /\ (truthy_int month = false ->
        months_valid (entries_of d uid) ->
        (Py.sum (map snd chart) == snd (performance_tracker d uid))%Q).
Proof.
  intros Hpick Hstored0.
  unfold analytics_chart.
  set (query := if truthy_int month
                then filter (fun e => Sql.opt_Z_eqb (Some (month_of e)) month)
                            (entries_of d uid)
                else entries_of d uid).
  assert (Hstored : months_stored query).
  { intros e He. apply Hstored0. unfold query in He.
    destruct (truthy_int month); [| exact He].
    apply filter_In in He. tauto. }
  pose (total := fun g : list TaxEntry =>
                   Sql.sum (map (fun e => Some (both_amounts e)) g)).
  match goal with
  | |- context [fold_left _ ?rows (inr [])] => set (monthly_data := rows)
  end.
  assert (Hdata : monthly_data
                  = map (fun kg : option Z * list TaxEntry =>
                           (fst kg, total (snd kg)))
                        (group_by_stored_month query)).
  { unfold monthly_data. apply map_ext_in. intros kg Hkg.
    destruct (stored_group_by_upload_month bare_row query kg
                Hpick Hstored Hkg) as (m & _ & Hk & Hb & _).
    now rewrite Hb, Hk. }
  assert (Hrow : forall r, In r monthly_data ->
            exists m, In m (map month_of query)
                      /\ fst r = Some m
                      /\ snd r = total (filter (fun e => m =? month_of e)
                                               query)).
  { intros r Hr. rewrite Hdata in Hr. apply in_map_iff in Hr.
    destruct Hr as [kg [<- Hkg]].
    destruct (stored_group_by_upload_month bare_row query kg
                Hpick Hstored Hkg) as (m & Hm & Hk & _ & Hg).
    exists m. split; [exact Hm |]. split; [exact Hk |].
    simpl. now rewrite Hg. }
  assert (Hgroup : forall m,
            (Py.sum (map both_amounts (filter (fun e => m =? month_of e) query))
             == Py.sum (map both_amounts (chart_entries d uid month m)))%Q).
  { intros m. unfold chart_entries. fold query.
    rewrite (filter_ext (fun e => m =? month_of e)
                        (fun e => month_of e =? m));
      [reflexivity | intros e; apply Z.eqb_sym]. }
  destruct (mon_map_fold monthly_data []) as (mon_map & Hfold & Hin & Hout).
  { intros r Hr. destruct (Hrow r Hr) as (m & Hm & -> & ->).
    split; [discriminate |].
    apply in_map_iff in Hm. destruct Hm as [e [He Hq]].
    destruct (sql_sum_of_values both_amounts
                (filter (fun e0 => m =? month_of e0) query))
      as [s [Hs _]].
    - intros Hnil.
      assert (Hmem : In e (filter (fun e0 => m =? month_of e0) query)).
      { apply filter_In. split; [exact Hq |]. rewrite He. apply Z.eqb_refl. }
      rewrite Hnil in Hmem. contradiction.
    - unfold total. rewrite Hs. discriminate. }
  { rewrite Hdata, map_map. cbn [fst]. apply stored_groups_NoDup. }
  rewrite Hfold. cbn [bind_result].
  eexists. split; [reflexivity |].
  split; [rewrite map_map; apply map_id |].
  assert (Hval : forall m,
            (match int_dict_get mon_map m with
             | Some t => t
             | None => 0%Q
             end
             == Py.sum (map both_amounts (chart_entries d uid month m)))%Q).
  { intros m. rewrite <- Hgroup.
    destruct (filter (fun e => m =? month_of e) query) as [| e0 g0] eqn:Hg.
    - rewrite Hout; [reflexivity |].
      intros Hk. apply in_map_iff in Hk. destruct Hk as [r [Hr Hk]].
      destruct (Hrow r Hk) as (m' & Hm' & Hfst & _).
      rewrite Hfst in Hr. inversion Hr; subst m'.
      apply in_map_iff in Hm'. destruct Hm' as [e [He Hq]].
      assert (Hmem : In e (filter (fun e0 => m =? month_of e0) query)).
      { apply filter_In. split; [exact Hq |]. rewrite He. apply Z.eqb_refl. }
      rewrite Hg in Hmem. contradiction.
    - rewrite <- Hg.
      destruct (sql_sum_of_values both_amounts
                  (filter (fun e => m =? month_of e) query))
        as [s [Hs Hsum]]; [rewrite Hg; discriminate |].
      rewrite (Hin m s); [exact Hsum |].
      assert (He0 : In e0 (filter (fun e => m =? month_of e) query))
        by (rewrite Hg; now left).
      apply filter_In in He0. destruct He0 as [Hq Heq].
      apply Z.eqb_eq in Heq.
      rewrite Hdata. apply in_map_iff.
      exists (Models.month e0,
              filter (fun e' => Sql.opt_Z_eqb (Models.month e0)
                                              (Models.month e')) query).
      split; [| now apply stored_group_present].
      cbn [fst snd]. rewrite (Hstored e0 Hq), <- Heq. f_equal.
      rewrite <- Hs. unfold total. f_equal. f_equal.
      apply filter_ext_in. intros e' He'. now rewrite (Hstored e' He'). }
  split; [| split].
  - apply Forall_forall. intros row Hr. apply in_map_iff in Hr.
    destruct Hr as [m [<- _]]. cbn [fst snd]. apply Hval.
  - intros Hmonth. apply Forall_forall. intros row Hr.
    apply in_map_iff in Hr. destruct Hr as [m [<- _]]. cbn [fst snd].
    intros Hother. rewrite Hval.
    unfold chart_entries. rewrite Hmonth, filter_twice.
    rewrite filter_none; [reflexivity |].
    intros e _. apply andb_false_iff.
    destruct (Z.eqb_spec (month_of e) m) as [Heq | Hne]; [| now right].
    left. destruct month as [k |]; [| reflexivity]. simpl.
    apply Z.eqb_neq. intros Hk. apply Hother. congruence.
  - intros Hmonth Hvalid. rewrite map_map. cbn [snd].
    rewrite tracker_sum.
    rewrite <- (group_sum month_of both_amounts (entries_of d uid)
                  (range 1 13)).
    + apply sum_map_ext. intros m _. rewrite Hval, <- Hgroup.
      unfold query. rewrite Hmonth. reflexivity.
    + change (range 1 13) with [1; 2; 3; 4; 5; 6; 7; 8; 9; 10; 11; 12].
      repeat constructor; simpl; intuition discriminate.
    + intros e He. specialize (Hvalid e He). unfold range.
      apply in_map_iff. exists (Z.to_nat (month_of e - 1)).
      split; [lia |]. apply in_seq. simpl. lia.
Qed.

Lemma first_row_picks_member : picks_member first_row.
Proof.
  intros [| e g] Hne; [now contradiction Hne |].
  exists e. split; [reflexivity | now left].
Qed.

(** The theorem for the payments of spring, which carry their month. *)
Lemma analytics_chart_witness :
  picks_member first_row
  /\ months_stored (entries_of spring_db 1)
  /\ exists chart,
       analytics_chart first_row spring_db 1 None = inr chart
       /\ map fst chart = range 1 13
       /\ Forall (fun row =>
                    (snd row
                     == Py.sum (map both_amounts
                                    (chart_entries spring_db 1 None
                                                   (fst row))))%Q)
                 chart
       /\ (truthy_int None = true ->
           Forall (fun row => Some (fst row) <> None -> (snd row == 0)%Q)
                  chart)
       /\ (truthy_int None = false ->
           months_valid (entries_of spring_db 1) ->
           (Py.sum (map snd chart)
            == snd (performance_tracker spring_db 1))%Q).
Proof.
  assert (Hst : months_stored (entries_of spring_db 1)).
  { intros e He. simpl in He.
    destruct He as [<- | [<- | [<- | []]]]; reflexivity. }
  split; [exact first_row_picks_member |]. split; [exact Hst |].
  exact (analytics_chart_totals first_row spring_db 1 None
           first_row_picks_member Hst).
Defined.

(** Two entries of one user without a stored month, 10 of March and 20
    of June: the chart shows their sum under the month of the row that the
    engine reads, and nothing in June. *)
Remark analytics_chart_merges_months :
  analytics_chart first_row monthless_db 1 None
  = inr [(1, 0%Q); (2, 0%Q); (3, 30%Q); (4, 0%Q); (5, 0%Q); (6, 0%Q);
         (7, 0%Q); (8, 0%Q); (9, 0%Q); (10, 0%Q); (11, 0%Q); (12, 0%Q)].
Proof. reflexivity. Qed.

End ChartFacts.

(** ** dashboards *)

Module DashboardsFacts.
Import Py Models Sys Payment_api App Views Vocab Notions Samples Cases.
Import ResultFacts PercentFacts TotalFacts SqlFacts LeagueFacts SumFacts.
Import AgreementFacts ChartFacts.

Lemma entries_of_same (es es' : list TaxEntry) (uid : Z) :
  Forall2 same_verified es es' ->
  Forall2 same_verified (filter (fun e => uploaded_by e =? uid) es)
                        (filter (fun e => uploaded_by e =? uid) es').
Proof.
  induction 1 as [| e e' t t' He _ IH]; simpl; [constructor |].
  destruct He as [Hu Hrest]. rewrite <- Hu.
  destruct (uploaded_by e =? uid); [| exact IH].
  constructor; [now split | exact IH].
Qed.

Lemma list_set_length {A} (chart : list A) (pos : nat) (x : A) :
  List.length (list_set chart pos x) = List.length chart.
Proof.
  revert pos. induction chart as [| y t IH]; intros pos; [reflexivity |].
  destruct pos as [| p]; simpl; [reflexivity | now rewrite IH].
Qed.

(** Adding the total of one of the twelve months keeps the twelve slots. *)
Lemma chart_add_returns (chart_data : list Q) (m : Z) (t : Q) :
  List.length chart_data = 12%nat -> 1 <= m <= 12 ->
  exists chart',
    chart_add chart_data (Some m, Some t) = inr chart'
    /\ List.length chart' = 12%nat.
Proof.
  intros Hlen Hm. unfold chart_add, list_index. simpl. rewrite Hlen.
  assert (H1 : (0 <=? m - 1) && (m - 1 <? Z.of_nat 12) = true).
  { apply andb_true_iff. split; [apply Z.leb_le | apply Z.ltb_lt]; lia. }
  rewrite H1. eexists. split; [reflexivity |].
  now rewrite list_set_length.
Qed.

Lemma chart_fold_returns (rows : list (option Z * option Q))
    (chart_data : list Q) :
  List.length chart_data = 12%nat ->
  (forall r, In r rows ->
     exists m t, r = (Some m, Some t) /\ 1 <= m <= 12) ->
  exists chart',
    fold_left (fun chart row =>
                 match chart with
                 | inl e => inl e
                 | inr c => chart_add c row
                 end)
              rows (inr chart_data) = inr chart'
    /\ List.length chart' = 12%nat.
Proof.
  revert chart_data. induction rows as [| r t IH]; intros chart_data Hlen Hrows.
  - exists chart_data. split; [reflexivity | exact Hlen].
  - destruct (Hrows r (or_introl eq_refl)) as (m & q & -> & Hm).
    destruct (chart_add_returns chart_data m q Hlen Hm) as (c1 & Hc1 & Hl1).
    simpl fold_left. rewrite Hc1. apply IH; [exact Hl1 |].
    intros r' Hr'. apply Hrows. now right.
Qed.

(** The rows of the monthly query of an uploader whose entries have both
    amounts and a month of the year. *)
Lemma monthly_totals_rows (bare_row : list TaxEntry -> option TaxEntry)
    (entries : list TaxEntry) (r : option Z * option Q) :
  picks_member bare_row ->
  amounts_present entries -> months_valid entries ->
  In r (monthly_totals bare_row entries) ->
  exists m t, r = (Some m, Some t) /\ 1 <= m <= 12.
Proof.
  intros Hpick Hamt Hval Hr. unfold monthly_totals in Hr.
  apply in_map_iff in Hr. destruct Hr as [kg [<- Hkg]].
  destruct (bare_month_of_member bare_row entries kg Hpick Hkg)
    as (e & He & Hq & Hb).
  assert (Hsum : map (fun e' =>
                        match rrr_amount e', paydirect_amount e' with
                        | Some a, Some b => Some (a + b)%Q
                        | _, _ => None
                        end) (snd kg)
                 = map (fun e' => Some (both_amounts e')) (snd kg)).
  { apply map_ext_in. intros e' He'.
    destruct (stored_group_rows entries kg e' Hkg He') as [Hq' _].
    destruct (Hamt e' Hq') as [Hr Hp]. unfold both_amounts.
    destruct (rrr_amount e') as [a |]; [| now contradiction Hr].
    destruct (paydirect_amount e') as [b |]; [| now contradiction Hp].
    reflexivity. }
  destruct (sql_sum_of_values both_amounts (snd kg)) as [s [Hs _]].
  { intros Hnil. rewrite Hnil in He. contradiction. }
  exists (month_of e), s. rewrite Hb, Hsum, Hs.
  split; [reflexivity | exact (Hval e Hq)].
Qed.

Lemma entries_of_In (d : Database) (uid : Z) (e : TaxEntry) :
  In e (entries_of d uid) -> In e (tax_entries d).
Proof. unfold entries_of. intros H. apply filter_In in H. tauto. Qed.

(** One pass of the loop appends the summary of the ATO. *)
Lemma dashboards_ato_returns (bare_row : list TaxEntry -> option TaxEntry)
    (d : Database) (acc : AdminDashboards) (ato : User) :
  picks_member bare_row ->
  amounts_present (tax_entries d) -> months_valid (tax_entries d) ->
  List.length (b_chart_data acc) = 12%nat ->
  exists chart',
    dashboards_ato bare_row d acc ato
    = inr (mk_AdminDashboards (b_summaries acc ++ [summary_of d ato]) chart')
    /\ List.length chart' = 12%nat.
Proof.
  intros Hpick Hamt Hval Hlen. unfold dashboards_ato, summary_of.
  rewrite percent_if_target_spec. cbn [lift].
  destruct (chart_fold_returns
              (monthly_totals bare_row (entries_of d (user_id ato)))
              (b_chart_data acc) Hlen) as (chart' & Hfold & Hlen').
  { intros r Hr.
    apply (monthly_totals_rows bare_row (entries_of d (user_id ato)));
      [exact Hpick | | | exact Hr].
    - intros e He. apply Hamt. now apply entries_of_In in He.
    - intros e He. apply Hval. now apply entries_of_In in He. }
  rewrite Hfold. exists chart'. split; [reflexivity | exact Hlen'].
Qed.

(** The page: one summary per ATO, in the order of the user table, and a
    chart of twelve values. *)
Lemma dashboards_admin_returns (bare_row : list TaxEntry -> option TaxEntry)
    (d : Database) :
  picks_member bare_row ->
  amounts_present (tax_entries d) -> months_valid (tax_entries d) ->
  exists chart_data,
    dashboards_admin bare_row d
    = inr (mk_AdminDashboards
             (map (summary_of d) (filter is_ato (users d))) chart_data)
    /\ List.length chart_data = 12%nat.
Proof.
  intros Hpick Hamt Hval. unfold dashboards_admin.
  assert (G : forall atos acc,
             List.length (b_chart_data acc) = 12%nat ->
             exists chart_data,
               fold_left (fun acc ato =>
                            match acc with
                            | inl e => inl e
                            | inr so_far => dashboards_ato bare_row d so_far ato
                            end)
                         atos (inr acc)
               = inr (mk_AdminDashboards
                        (b_summaries acc ++ map (summary_of d) atos)
                        chart_data)
               /\ List.length chart_data = 12%nat).
  { induction atos as [| ato t IH]; intros acc Hlen.
    - exists (b_chart_data acc). simpl. rewrite app_nil_r.
      split; [now destruct acc | exact Hlen].
    - destruct (dashboards_ato_returns bare_row d acc ato
                  Hpick Hamt Hval Hlen) as (c1 & Hc1 & Hl1).
      simpl fold_left. rewrite Hc1.
      destruct (IH (mk_AdminDashboards
                      (b_summaries acc ++ [summary_of d ato]) c1) Hl1)
        as (c2 & Hc2 & Hl2).
      exists c2. split; [| exact Hl2].
      rewrite Hc2. cbn [b_summaries map]. now rewrite <- app_assoc. }
  destruct (G (filter is_ato (users d))
              (mk_AdminDashboards [] (repeat 0%Q 12)) eq_refl)
    as (c & Hc & Hl).
  exists c. split; [exact Hc | exact Hl].
Qed.

(** X5. Let the engine read the month of a group off one of its rows, and
    let every entry have both amounts and an upload date in one of the
    twelve months.  Then [dashboards] (admin view) returns, with a chart
    of twelve values and one summary per ATO, in the order of the user
    table, an ATO without entries included; each summary holds the
    per-channel verified sums of the ATO's entries, their sum as total,
    the target (0 without one) and a percent that is 0 for a target equal
    to 0.  (An entry with an amount that is NULL can make the chart
    raise: see [dashboards_raises_without_amount].) *)
Theorem dashboards_lists_every_ato
    (bare_row : list TaxEntry -> option TaxEntry) (d : Database) :
  picks_member bare_row ->
  amounts_present (tax_entries d) -> months_valid (tax_entries d) ->
  exists summaries chart_data,
    dashboards_admin bare_row d
    = inr (mk_AdminDashboards summaries chart_data)
    /\ List.length chart_data = 12%nat
    /\ Forall2 (fun ato s =>
                  s_username s = username ato
                  /\ s_rrr_total s
                     = verified_rrr_total (entries_of d (user_id ato))
                  /\ s_paydirect_total s
                     = verified_paydirect_total (entries_of d (user_id ato))
                  /\ s_total_amount s
                     = (s_rrr_total s + s_paydirect_total s)%Q
                  /\ s_target s = or_zero (get_target_for_ato d ato)
                  /\ (Qeq_bool (s_target s) 0 = true -> s_percent s = 0%Q))
               (filter is_ato (users d)) summaries.
Proof.
  intros Hpick Hamt Hval.
  destruct (dashboards_admin_returns bare_row d Hpick Hamt Hval)
    as (chart_data & Hrun & Hlen).
  exists (map (summary_of d) (filter is_ato (users d))), chart_data.
  split; [exact Hrun |]. split; [exact Hlen |].
  clear Hrun.
  induction (filter is_ato (users d)) as [| ato t IH]; simpl;
    [constructor |].
  constructor; [| exact IH].
  unfold summary_of. cbn [s_username s_rrr_total s_paydirect_total
                          s_total_amount s_target s_percent].
  split; [reflexivity |]. split; [reflexivity |]. split; [reflexivity |].
  split; [reflexivity |]. split; [reflexivity |].
  intros Hzero. rewrite percent_if_target_spec. now rewrite Hzero.
Qed.

(** The theorem for the payments of spring. *)
Lemma dashboards_witness :
  picks_member first_row
  /\ amounts_present (tax_entries spring_db)
  /\ months_valid (tax_entries spring_db)
  /\ exists summaries chart_data,
       dashboards_admin first_row spring_db
       = inr (mk_AdminDashboards summaries chart_data)
       /\ List.length chart_data = 12%nat
       /\ Forall2 (fun ato s =>
                     s_username s = username ato
                     /\ s_rrr_total s
                        = verified_rrr_total
                            (entries_of spring_db (user_id ato))
                     /\ s_paydirect_total s
                        = verified_paydirect_total
                            (entries_of spring_db (user_id ato))
                     /\ s_total_amount s
                        = (s_rrr_total s + s_paydirect_total s)%Q
                     /\ s_target s
                        = or_zero (get_target_for_ato spring_db ato)
                     /\ (Qeq_bool (s_target s) 0 = true ->
                         s_percent s = 0%Q))
                  (filter is_ato (users spring_db)) summaries.
Proof.
  assert (Ha : amounts_present (tax_entries spring_db)).
  { intros e He. simpl in He.
    destruct He as [<- | [<- | [<- | []]]]; split; discriminate. }
  assert (Hm : months_valid (tax_entries spring_db)).
  { intros e He. simpl in He.
    destruct He as [<- | [<- | [<- | []]]]; unfold month_of; simpl; lia. }
  split; [exact first_row_picks_member |].
  split; [exact Ha |]. split; [exact Hm |].
  exact (dashboards_lists_every_ato first_row spring_db
           first_row_picks_member Ha Hm).
Defined.

(** With a pending amount that is NULL the sum of the two amounts of the
    only row of March is NULL, on which [float] raises. *)
Remark dashboards_raises_without_amount :
  dashboards_admin first_row (half_verified_db None) = inl (Raised TypeError).
Proof. reflexivity. Qed.

Lemma summary_of_same (d d' : Database) (ato : User) :
  targets d = targets d' ->
  Forall2 same_verified (tax_entries d) (tax_entries d') ->
  summary_of d ato = summary_of d' ato.
Proof.
  intros Ht Hes.
  assert (Htarget : get_target_for_ato d ato = get_target_for_ato d' ato)
    by (unfold get_target_for_ato; now rewrite Ht).
  pose proof (entries_of_same _ _ (user_id ato) Hes) as Hsame.
  assert (Hr : verified_rrr_total (entries_of d (user_id ato))
               = verified_rrr_total (entries_of d' (user_id ato))).
  { apply verified_rrr_total_frame. unfold entries_of.
    eapply Forall2_impl; [| exact Hsame]. now intros e e' [_ [H _]]. }
  assert (Hp : verified_paydirect_total (entries_of d (user_id ato))
               = verified_paydirect_total (entries_of d' (user_id ato))).
  { apply verified_paydirect_total_frame. unfold entries_of.
    eapply Forall2_impl; [| exact Hsame]. now intros e e' [_ [_ H]]. }
  unfold summary_of. now rewrite Htarget, Hr, Hp.
Qed.

(** X6. The summaries of [dashboards] do not depend on the amount stored
    on an unverified channel.  Take two stores with the same users and
    targets whose entries agree pairwise on the uploader, on the verified
    flags and on the amounts of the verified channels, every entry with
    both amounts and an upload date in one of the twelve months, and let
    the engine read the month of a group off one of its rows: the page is
    returned for both stores, with the same summaries.  (The charts may
    differ: they add up both amounts, verified or not.) *)
Theorem dashboards_ignores_unverified_amounts
    (bare_row bare_row' : list TaxEntry -> option TaxEntry)
    (d d' : Database) :
  picks_member bare_row -> picks_member bare_row' ->
  users d = users d' ->
  targets d = targets d' ->
  Forall2 same_verified (tax_entries d) (tax_entries d') ->
  amounts_present (tax_entries d) -> amounts_present (tax_entries d') ->
  months_valid (tax_entries d) -> months_valid (tax_entries d') ->
  exists summaries chart_data chart_data',
    dashboards_admin bare_row d
    = inr (mk_AdminDashboards summaries chart_data)
    /\ dashboards_admin bare_row' d'
       = inr (mk_AdminDashboards summaries chart_data').
Proof.
  intros Hpick Hpick' Hu Ht Hes Ha Ha' Hm Hm'.
  destruct (dashboards_admin_returns bare_row d Hpick Ha Hm)
    as (c & Hc & _).
  destruct (dashboards_admin_returns bare_row' d' Hpick' Ha' Hm')
    as (c' & Hc' & _).
  exists (map (summary_of d) (filter is_ato (users d))), c, c'.
  split; [exact Hc |]. rewrite Hc', <- Hu. f_equal. f_equal.
  apply map_ext. intros ato. symmetry. now apply summary_of_same.
Qed.

(** The theorem for a pending PayDirect amount of 5000 against one of 0:
    the summaries agree and the charts do not. *)
Lemma dashboards_frame_witness :
  exists summaries chart_data chart_data',
    dashboards_admin first_row (half_verified_db (Some 5000%Q))
    = inr (mk_AdminDashboards summaries chart_data)
    /\ dashboards_admin first_row (half_verified_db (Some 0%Q))
       = inr (mk_AdminDashboards summaries chart_data').
Proof.
  assert (Hes : Forall2 same_verified
                  (tax_entries (half_verified_db (Some 5000%Q)))
                  (tax_entries (half_verified_db (Some 0%Q)))).
  { constructor; [| constructor].
    repeat split; simpl; intros H; try reflexivity; discriminate H. }
  assert (Ha : forall p, amounts_present
                           (tax_entries (half_verified_db (Some p)))).
  { intros p e He. simpl in He. destruct He as [<- | []].
    split; discriminate. }
  assert (Hm : forall p, months_valid
                           (tax_entries (half_verified_db (Some p)))).
  { intros p e He. simpl in He. destruct He as [<- | []].
    unfold month_of. simpl. lia. }
  exact (dashboards_ignores_unverified_amounts first_row first_row
           (half_verified_db (Some 5000%Q)) (half_verified_db (Some 0%Q))
           first_row_picks_member first_row_picks_member
           eq_refl eq_refl Hes (Ha 5000%Q) (Ha 0%Q) (Hm 5000%Q) (Hm 0%Q)).
Defined.

End DashboardsFacts.

(** ** Mock mode leaves no amount on an unverified channel *)

Module SettledFacts.
Import Py Models Sys Payment_api App Views Vocab Notions Samples Cases.
Import StoreFacts VerifierFacts RouteFacts RowFacts InvariantFacts.
Local Open Scope world_scope.

Lemma settled_snoc (es : list TaxEntry) (e : TaxEntry) :
  unverified_amounts_zero es ->
  (rrr_verified e = false -> (or_zero (rrr_amount e) == 0)%Q) ->
  (paydirect_verified e = false -> (or_zero (paydirect_amount e) == 0)%Q) ->
  unverified_amounts_zero (es ++ [e]).
Proof.
  intros Hz Hr Hp e0 He0. apply in_app_or in He0.
  destruct He0 as [H | [<- | []]]; [now apply Hz | now split].
Qed.

(** A channel that came back from a mock verification, or was not sent to
    one for want of a reference, is verified or holds 0. *)
Lemma mock_channel_settled (env : Env) (ref : option string)
    (v : Verification) :
  USE_LIVE_API env = false ->
  (truthy_str ref = false -> v = unverified) ->
  (USE_LIVE_API env = false -> truthy_str ref = true -> verified v = true) ->
  verified v = false -> (or_zero (Some (amount v)) == 0)%Q.
Proof.
  intros Hmock Habs Hm Hv. destruct (truthy_str ref).
  - rewrite Hm in Hv by auto. discriminate.
  - rewrite Habs by reflexivity. reflexivity.
Qed.

Lemma routes_keep_settled (env : Env) (w : World) :
  USE_LIVE_API env = false ->
  unverified_amounts_zero (tax_entries (db w)) ->
  forall q, unverified_amounts_zero (tax_entries (db (serve env w q))).
Proof.
  intros Hmock Hz [uid form | uid form | i | i]; cbn [serve].
  - destruct (submit_tax_item_cases env uid form w)
      as (r & w' & E & _ & _ & _ & _ & Hcases).
    rewrite E. cbn [snd].
    destruct Hcases as [[_ [-> _]] | [[_ [-> _]] | [[_ [He _]]
                       | [[_ [He _]] | [e [-> _]]]]]];
      try exact Hz; try (rewrite He; exact Hz).
    destruct (submit_tax_item_stored env uid form w w' E)
      as (v1 & v2 & today & now & uploaded & Hrow & _ & Hv1 & Hv2
          & Hm1 & Hm2).
    rewrite Hrow. apply settled_snoc; [exact Hz | |];
      cbn [rrr_verified rrr_amount paydirect_verified paydirect_amount].
    + exact (mock_channel_settled env _ v1 Hmock Hv1 Hm1).
    + exact (mock_channel_settled env _ v2 Hmock Hv2 Hm2).
  - rewrite (proj1 (submit_entry_ends env uid form w)).
    destruct (save_entry_cases env uid form w)
      as (r & w' & E & _ & _ & Hcases).
    rewrite E. cbn [snd].
    destruct Hcases as [[_ [He _]] | [[_ [He _]]
                       | (v1 & v2 & uploaded & _ & _ & Hrow & _ & _
                          & Hv1 & Hv2 & Hm1 & Hm2)]];
      try (rewrite He; exact Hz).
    rewrite Hrow. apply settled_snoc; [exact Hz | |];
      cbn [rrr_verified rrr_amount paydirect_verified paydirect_amount].
    + exact (mock_channel_settled env _ v1 Hmock Hv1 Hm1).
    + exact (mock_channel_settled env _ v2 Hmock Hv2 Hm2).
  - unfold delete_entry, bind, query_first, ret.
    destruct (find _ (tax_entries (db w))) as [entry |]; [| exact Hz].
    destruct (negb (rrr_verified entry) && negb (paydirect_verified entry));
      [| exact Hz].
    unfold delete_and_commit, set_tax_entries, set_db.
    cbn [snd db tax_entries].
    intros e He. apply filter_In in He. now apply Hz.
  - destruct (reverify_entry_cases env i w)
      as (r & w' & E & _ & _ & Hcases).
    rewrite E. cbn [snd].
    destruct Hcases as [[_ [_ ->]] | [entry [F [[_ [He _]]
                       | (v1 & v2 & _ & He & Hm1 & Hm2)]]]];
      try exact Hz; try (rewrite He; exact Hz).
    apply find_some in F. destruct F as [Hin _].
    rewrite He. intros e' He'. apply in_map_iff in He'.
    destruct He' as [e0 [<- He0]].
    destruct (id e0 =? id entry); [| now apply Hz].
    destruct (Hz entry Hin) as [H1 H2]. unfold reverified.
    destruct (truthy_str (rrr entry)) eqn:T1,
             (truthy_str (paydirect_ref entry)) eqn:T2;
      cbn [rrr_verified rrr_amount paydirect_verified paydirect_amount
           set_rrr_result set_paydirect_result];
      split; try assumption; intros Hv.
    all: try (rewrite (Hm1 Hmock eq_refl) in Hv; discriminate).
    all: rewrite (Hm2 Hmock eq_refl) in Hv; discriminate.
Qed.

(** X17. In mock mode the routes never leave an amount on a channel that
    is not verified: from a table in which every unverified channel holds
    no amount or 0, every sequence of requests to submit_tax_item,
    submit_entry, delete_entry and reverify_entry leads to such a table
    again. *)
Theorem mock_store_stays_settled (env : Env) (w : World)
    (qs : list Request) :
  USE_LIVE_API env = false ->
  unverified_amounts_zero (tax_entries (db w)) ->
  unverified_amounts_zero (tax_entries (db (serve_all env w qs))).
Proof.
  intros Hmock. unfold serve_all. revert w.
  induction qs as [| q t IH]; intros w Hz; simpl; [exact Hz |].
  apply IH. now apply routes_keep_settled.
Qed.

(** The theorem from the empty table, for a submission through each of
    the two forms, a re-verification and a deletion. *)
Lemma mock_store_witness :
  unverified_amounts_zero
    (tax_entries
       (db (serve_all mock_env (start_of one_ato_db)
              [SubmitTaxItem 1 both_channels_form;
               SubmitEntry 1 repeated_entry_form;
               ReverifyEntry 2; DeleteEntry 1]))).
Proof.
  apply (mock_store_stays_settled mock_env (start_of one_ato_db)).
  - reflexivity.
  - intros e [].
Defined.

End SettledFacts.

(** ** The detail page of an agent *)

Module DetailFacts.
Import Py Models Sys Payment_api App Views Vocab Notions Samples Cases.
Import SortFacts ResultFacts PercentFacts LeagueFacts.

Lemma latest_fold_In (rest : list datetime) (d x : datetime) :
  fold_left (fun a b => if datetime_leb b a then a else b) rest d = x ->
  In x (d :: rest).
Proof.
  revert d. induction rest as [| b t IH]; simpl; intros d H; [now left |].
  destruct (datetime_leb b d).
  - destruct (IH d H) as [Hd | Ht]; [now left | right; now right].
  - destruct (IH b H) as [Hb | Ht]; [right; now left | right; now right].
Qed.

Lemma latest_In (ds : list datetime) (x : datetime) :
  latest ds = Some x -> In x ds.
Proof.
  destruct ds as [| d rest]; simpl; intros H; [discriminate |].
  inversion H as [Hx]. rewrite Hx. now apply latest_fold_In.
Qed.

Lemma map_sum_combine {A} (f g : A -> Q) (l : list A) :
  map (fun e => (f e + g e)%Q) l
  = map (fun xy => (fst xy + snd xy)%Q) (combine (map f l) (map g l)).
Proof. induction l as [| x t IH]; simpl; [reflexivity | now rewrite IH]. Qed.

(** X18. The detail page never fails.  It is refused exactly when the id
    belongs to no user or to a user who is not an ATO.  On a page, the
    three chart series and the labels run over the same entries, each
    total is the sum of its two channel values, the last entry date is one
    of the labels and is missing only on an empty page, and a page that
    flashes the invalid date range shows every entry of the agent. *)
Theorem ato_detail_page_is_consistent (env : Env)
    (strptime_ymd_hm : string -> option datetime) (d : Database) (uid : Z)
    (from_date to_date : option string) :
  exists resp,
    ato_detail env strptime_ymd_hm d uid from_date to_date = inr resp
    /\ (resp = AtoNotFound
        <-> (find (fun u => user_id u =? uid) (users d) = None
             \/ exists u, find (fun u => user_id u =? uid) (users d) = Some u
                          /\ is_ato u = false))
    /\ forall page, resp = DetailPage page ->
         List.length (ad_chart_labels page)
         = List.length (ad_total_values page)
         /\ ad_total_values page
            = map (fun xy => (fst xy + snd xy)%Q)
                  (combine (ad_ebills_values page)
                           (ad_paydirect_values page))
         /\ (ad_last_entry page = None <-> ad_chart_labels page = [])
         /\ (forall s, ad_last_entry page = Some s ->
                       In s (ad_chart_labels page))
         /\ (ad_flash page = InvalidDateRange ->
             ad_chart_labels page
             = map (fun e => strftime_ymd (date_uploaded e))
                   (entries_of d uid)).
Proof.
  unfold ato_detail.
  destruct (find (fun u => user_id u =? uid) (users d)) as [user |] eqn:F.
  2: { exists AtoNotFound. split; [reflexivity |].
       split; [split; auto | intros page H; discriminate]. }
  destruct (is_ato user) eqn:Hato; cbn [negb].
  2: { exists AtoNotFound. split; [reflexivity |].
       split; [split; eauto | intros page H; discriminate]. }
  assert (Hid : user_id user = uid).
  { apply find_some in F. now apply Z.eqb_eq. }
  rewrite Hid.
  match goal with
  | |- context [fst ?f] => set (filtered := f)
  end.
  assert (Hflash : snd filtered = InvalidDateRange ->
                   fst filtered = entries_of d uid).
  { unfold filtered.
    destruct (truthy_str from_date && truthy_str to_date);
      [| discriminate].
    destruct (parse_bound env strptime_ymd_hm (str_of from_date));
      [| reflexivity].
    destruct (parse_bound env strptime_ymd_hm (str_of to_date));
      [discriminate | reflexivity]. }
  rewrite percent_if_target_spec. cbn [bind_result].
  eexists. split; [reflexivity |]. split.
  { split; [discriminate |].
    intros [H | [u [H Hu]]]; [discriminate | congruence]. }
  intros page Hpage. inversion Hpage; subst page; clear Hpage.
  cbn [ad_chart_labels ad_total_values ad_ebills_values ad_paydirect_values
       ad_last_entry ad_flash].
  split; [now rewrite !length_map |].
  split; [apply map_sum_combine |].
  split.
  { destruct (fst filtered) as [| e t]; simpl; split; auto; discriminate. }
  split.
  { intros s Hs.
    destruct (latest (map date_uploaded (fst filtered))) as [last |] eqn:L;
      [| discriminate].
    inversion Hs; subst s. apply latest_In in L.
    apply in_map_iff in L. destruct L as [e [He Hin]].
    apply in_map_iff. exists e. split; [now rewrite He | exact Hin]. }
  intros H. now rewrite (Hflash H).
Qed.

(** X19. Without a usable date range (a bound missing or empty, or one
    that does not read as a date) the detail page of an ATO covers all
    entries of the agent, and its returns, target and percent are those of
    the agent's row in [get_league_table_data].  Unreadable bounds are
    flashed, not raised. *)
Theorem ato_detail_without_range_matches_league (env : Env)
    (strptime_ymd_hm : string -> option datetime) (d : Database) (uid : Z)
    (from_date to_date : option string) (user : User) :
  find (fun u => user_id u =? uid) (users d) = Some user ->
  is_ato user = true ->
  truthy_str from_date = false \/ truthy_str to_date = false
  \/ parse_bound env strptime_ymd_hm (str_of from_date) = None
  \/ parse_bound env strptime_ymd_hm (str_of to_date) = None ->
  exists page board row,
    ato_detail env strptime_ymd_hm d uid from_date to_date
    = inr (DetailPage page)
    /\ ad_chart_labels page
       = map (fun e => strftime_ymd (date_uploaded e)) (entries_of d uid)
    /\ (ad_flash page = InvalidDateRange
        <-> truthy_str from_date = true /\ truthy_str to_date = true)
    /\ get_league_table_data d = inr board
    /\ In row board
    /\ ato_name row = username user
    /\ total_returns row = ad_total_returns page
    /\ target row = or_zero (ad_target page)
    /\ percent_met row = ad_percent_met page.
Proof.
  intros F Hato Hrange.
  assert (Hid : user_id user = uid).
  { apply find_some in F. now apply Z.eqb_eq. }
  assert (Hin : In user (filter is_ato (users d))).
  { apply filter_In. split; [| exact Hato]. now apply find_some in F. }
  destruct (league_data_rows d) as [league [Hboard Hall]].
  destruct (Forall2_In_l _ _ _ _ Hall Hin) as [row [Hrow [p [Hp ->]]]].
  rewrite Hid in Hp.
  unfold ato_detail. rewrite F, Hato. cbn [negb]. rewrite Hid.
  match goal with
  | |- context [fst ?f] => set (filtered := f)
  end.
  assert (Hall' : filtered
                  = (entries_of d uid,
                     if truthy_str from_date && truthy_str to_date
                     then InvalidDateRange else NoRangeFlash)).
  { unfold filtered.
    destruct (truthy_str from_date) eqn:T1, (truthy_str to_date) eqn:T2;
      cbn [andb]; try reflexivity.
    destruct (parse_bound env strptime_ymd_hm (str_of from_date)) eqn:P1;
      [| reflexivity].
    destruct (parse_bound env strptime_ymd_hm (str_of to_date)) eqn:P2;
      [| reflexivity].
    destruct Hrange as [H | [H | [H | H]]]; discriminate. }
  rewrite Hall'. cbn [fst snd]. rewrite Hp. cbn [bind_result].
  eexists. exists (sort_desc percent_met league). eexists.
  split; [reflexivity |].
  cbn [ad_chart_labels ad_flash ad_total_returns ad_target ad_percent_met].
  split; [reflexivity |]. split.
  { destruct (truthy_str from_date), (truthy_str to_date); cbn [andb];
      split; try discriminate; try (intros [H1 H2]; discriminate); auto. }
  split; [exact Hboard |].
  split; [eapply Permutation_in; [apply sort_desc_perm | exact Hrow] |].
  cbn [ato_name total_returns target percent_met]. rewrite Hid.
  repeat split.
Qed.

(** The theorem for the active agent of a small store and a page
    without bounds. *)
Lemma ato_detail_witness :
  exists page board row,
    ato_detail mock_env (fun _ => None) idle_agent_db 2 None None
    = inr (DetailPage page)
    /\ get_league_table_data idle_agent_db = inr board
    /\ In row board
    /\ ato_name row = "alice"%string
    /\ total_returns row = ad_total_returns page
    /\ percent_met row = ad_percent_met page.
Proof.
  destruct (ato_detail_without_range_matches_league mock_env (fun _ => None)
              idle_agent_db 2 None None alice eq_refl eq_refl
              (or_introl eq_refl))
    as (page & board & row & E & _ & _ & Hb & Hin & Hn & Ht & _ & Hp).
  exists page, board, row. repeat split; assumption.
Defined.

End DetailFacts.

(** ** The dashboard of an agent *)

Module AtoViewFacts.
Import Py Models Sys Payment_api App Views Vocab Notions Samples Cases.
Import SortFacts ResultFacts PercentFacts SqlFacts LeagueFacts AnalyticsFacts.
Import SumFacts LeagueValueFacts SeriesFacts AgreementFacts LeaderFacts.
Import DetailFacts.

Lemma month_keys_NoDup (es : list TaxEntry) :
  NoDup (Sql.distinct Z.eqb (map month_of es)).
Proof.
  rewrite <- (map_id (Sql.distinct Z.eqb (map month_of es))).
  apply distinct_proj_NoDup. intros a b _ _ ->. apply Z.eqb_refl.
Qed.

Lemma month_keys_cover (es : list TaxEntry) (e : TaxEntry) :
  In e es -> In (month_of e) (Sql.distinct Z.eqb (map month_of es)).
Proof.
  intros He.
  assert (Hk : In (month_of e) (map month_of es)) by now apply in_map.
  destruct (distinct_covers Z.eqb Z.eqb_refl
              (fun a b c H1 H2 =>
                 proj2 (Z.eqb_eq a c)
                   (eq_trans (proj1 (Z.eqb_eq a b) H1)
                             (proj1 (Z.eqb_eq b c) H2)))
              _ _ Hk) as [k [Hin Heq]].
  apply Z.eqb_eq in Heq. now subst k.
Qed.

(** A column of the grouped query adds up to the sum over the verified
    entries. *)
Lemma monthly_column_sum (es : list TaxEntry) (col : MonthSums -> option Q)
    (v : TaxEntry -> bool) (amt : TaxEntry -> option Q) :
  (col = g_rrr /\ v = rrr_verified /\ amt = rrr_amount)
  \/ (col = g_paydirect /\ v = paydirect_verified /\ amt = paydirect_amount) ->
  (Py.sum (map (fun r => or_zero (col r)) (monthly_sums es))
   == Py.sum (map (fun e => or_zero (amt e)) (filter v es)))%Q.
Proof.
  intros Hcol. unfold monthly_sums.
  rewrite <- (sum_perm _ _ (Permutation_map _ (order_by_perm g_month _))).
  unfold Sql.group_by. rewrite !map_map.
  rewrite <- sum_where.
  rewrite <- (group_sum month_of
                (fun e => if v e then or_zero (amt e) else 0%Q) es
                (Sql.distinct Z.eqb (map month_of es))
                (month_keys_NoDup es) (month_keys_cover es)).
  apply sum_map_ext. intros k _. rewrite sum_where.
  destruct Hcol as [[-> [-> ->]] | [-> [-> ->]]]; cbn [g_rrr g_paydirect];
    apply sum_case_verified.
Qed.

Lemma month_labels_valid (rows : list MonthSums) :
  (forall r, In r rows -> 1 <= g_month r <= 12) ->
  month_labels rows
  = inr (map (fun r => nth (Z.to_nat (g_month r)) month_name ""%string) rows).
Proof.
  induction rows as [| r t IH]; intros H; simpl; [reflexivity |].
  rewrite IH by (intros x Hx; apply H; now right).
  unfold month_name_at.
  assert (Hr : (0 <=? g_month r) && (g_month r <? 13) = true).
  { pose proof (H r (or_introl eq_refl)).
    apply andb_true_intro. split; [apply Z.leb_le | apply Z.ltb_lt]; lia. }
  now rewrite Hr.
Qed.

Lemma insert_asc_sorted {R} (key : R -> Z) (x : R) (l : list R) :
  StronglySorted (fun a b => key a <= key b) l ->
  StronglySorted (fun a b => key a <= key b)
                 (insert_by (fun y x => key y <? key x) x l).
Proof.
  induction 1 as [| y rest Hs IH Hall]; simpl.
  - constructor; constructor.
  - destruct (Z.ltb_spec (key y) (key x)) as [Hlt | Hge].
    + constructor; [exact IH |].
      eapply Permutation_Forall; [apply insert_by_any_perm |].
      constructor; [lia | exact Hall].
    + constructor; [constructor; assumption |].
      constructor; [lia |].
      eapply Forall_impl; [| exact Hall]. simpl. intros z Hz. lia.
Qed.

Lemma order_by_sorted {R} (key : R -> Z) (rows : list R) :
  StronglySorted (fun a b => key a <= key b) (Sql.order_by key rows).
Proof.
  unfold Sql.order_by. induction rows as [| x t IH]; simpl; [constructor |].
  now apply insert_asc_sorted.
Qed.

Lemma sorted_map {R} (key : R -> Z) (l : list R) :
  StronglySorted (fun a b => key a <= key b) l ->
  StronglySorted Z.le (map key l).
Proof.
  induction 1 as [| a t _ IH Hall]; simpl; constructor; [exact IH |].
  apply Forall_forall. intros k Hk. apply in_map_iff in Hk.
  destruct Hk as [b [<- Hb]]. rewrite Forall_forall in Hall. now apply Hall.
Qed.

Lemma monthly_sums_months (es : list TaxEntry) :
  Permutation (Sql.distinct Z.eqb (map month_of es))
              (map g_month (monthly_sums es)).
Proof.
  unfold monthly_sums.
  etransitivity; [| apply Permutation_map, order_by_perm].
  unfold Sql.group_by. rewrite !map_map. cbn [g_month].
  rewrite map_id. reflexivity.
Qed.

Lemma sum_of_verified_perm (l l' : list TaxEntry) :
  Permutation l l' ->
  (sum_of_verified_entries l == sum_of_verified_entries l')%Q.
Proof.
  intros H. unfold sum_of_verified_entries. rewrite <- !sum_where.
  apply sum_perm. now apply Permutation_map.
Qed.

(** X20. The dashboard of an ATO whose entries were uploaded in valid
    months never fails.  Its chart has one point for every month in which
    the agent has an entry and none for the other months, in ascending
    order of the month; the values of a channel add up to the sum over the
    agent's entries verified on that channel.  The headline total instead
    counts both amounts of every entry verified on either channel; it is
    the sum of the chart when no unverified channel holds an amount. *)
Theorem ato_dashboard_chart_adds_up (d : Database) (user : User) :
  months_valid (entries_of d (user_id user)) ->
  exists v months,
    dashboard_ato d user = inr v
    /\ Permutation (entries_of d (user_id user)) (v_records v)
    /\ StronglySorted Z.le months /\ NoDup months
    /\ (forall m, In m months
                  <-> exists e, In e (entries_of d (user_id user))
                                /\ month_of e = m)
    /\ v_chart_labels v
       = map (fun m => nth (Z.to_nat m) month_name ""%string) months
    /\ List.length (v_ebills_values v) = List.length months
    /\ List.length (v_paydirect_values v) = List.length months
    /\ List.length (v_total_values v) = List.length months
    /\ (Py.sum (v_ebills_values v)
        == verified_rrr_total (entries_of d (user_id user)))%Q
    /\ (Py.sum (v_paydirect_values v)
        == verified_paydirect_total (entries_of d (user_id user)))%Q
    /\ (Py.sum (v_total_values v)
        == verified_rrr_total (entries_of d (user_id user))
           + verified_paydirect_total (entries_of d (user_id user)))%Q
    /\ (unverified_amounts_zero (entries_of d (user_id user)) ->
        (v_total v == Py.sum (v_total_values v))%Q).
Proof.
  intros Hvalid. unfold dashboard_ato.
  set (es := entries_of d (user_id user)).
  assert (Hperm : Permutation es (order_by_date_desc es)).
  { unfold order_by_date_desc. clear.
    induction es as [| x t IH]; simpl; [constructor |].
    etransitivity; [apply perm_skip, IH | apply insert_by_any_perm]. }
  rewrite percent_if_target_spec. cbn [lift].
  assert (Hmonths : forall r, In r (monthly_sums es) -> 1 <= g_month r <= 12).
  { intros r Hr. destruct (monthly_sums_In _ _ Hr) as [e [He [Hm _]]].
    rewrite <- Hm. now apply Hvalid. }
  rewrite (month_labels_valid _ Hmonths).
  eexists. exists (map g_month (monthly_sums es)).
  split; [reflexivity |].
  cbn [v_records v_chart_labels v_ebills_values v_paydirect_values
       v_total_values v_total].
  assert (Hr : (Py.sum (map (fun row => or_zero (g_rrr row)) (monthly_sums es))
                == verified_rrr_total es)%Q)
    by (apply (monthly_column_sum es g_rrr); auto).
  assert (Hp : (Py.sum (map (fun row => or_zero (g_paydirect row))
                            (monthly_sums es))
                == verified_paydirect_total es)%Q)
    by (apply (monthly_column_sum es g_paydirect); auto).
  assert (Ht : (Py.sum (map (fun xy : Q * Q => (fst xy + snd xy)%Q)
                            (combine
                               (map (fun row => or_zero (g_rrr row))
                                    (monthly_sums es))
                               (map (fun row => or_zero (g_paydirect row))
                                    (monthly_sums es))))
                == verified_rrr_total es + verified_paydirect_total es)%Q).
  { rewrite <- map_sum_combine, sum_map_plus. now rewrite Hr, Hp. }
  split; [exact Hperm |].
  split; [apply sorted_map, order_by_sorted |].
  split.
  { eapply Permutation_NoDup; [apply monthly_sums_months |].
    apply month_keys_NoDup. }
  split.
  { intros m. split.
    - intros Hm. apply in_map_iff in Hm. destruct Hm as [r [<- Hr']].
      destruct (monthly_sums_In _ _ Hr') as [e [He [Hm _]]]. eauto.
    - intros [e [He <-]].
      destruct (monthly_sums_covers es e He) as [r [Hr' Hm]].
      apply in_map_iff. eauto. }
  split; [now rewrite map_map |].
  split; [now rewrite !length_map |].
  split; [now rewrite !length_map |].
  split.
  { rewrite length_map, length_combine, !length_map. apply Nat.min_id. }
  split; [exact Hr |]. split; [exact Hp |]. split; [exact Ht |].
  intros Hz. rewrite Ht, <- (sum_of_verified_perm _ _ Hperm).
  now apply sum_of_verified_settled.
Qed.

(** The theorem for an agent with payments in March and May and a
    pending entry of April. *)
Lemma ato_dashboard_witness :
  months_valid (entries_of spring_db (user_id bob))
  /\ exists v months,
       dashboard_ato spring_db bob = inr v
       /\ StronglySorted Z.le months
       /\ v_chart_labels v
          = map (fun m => nth (Z.to_nat m) month_name ""%string) months
       /\ (Py.sum (v_ebills_values v)
           == verified_rrr_total (entries_of spring_db (user_id bob)))%Q.
Proof.
  assert (H : months_valid (entries_of spring_db (user_id bob))).
  { intros e He. simpl in He.
    destruct He as [<- | [<- | [<- | []]]]; vm_compute; split; discriminate. }
  split; [exact H |].
  destruct (ato_dashboard_chart_adds_up spring_db bob H)
    as (v & months & E & _ & Hs & _ & _ & Hl & _ & _ & _ & Hr & _).
  exists v, months. repeat split; assumption.
Defined.

End AtoViewFacts.

(** ** The totals of analytics_admin *)

Module AdminFacts.
Import Py Models Sys Payment_api App Views Vocab Notions Samples Cases.
Import SortFacts ResultFacts SqlFacts LeagueFacts SumFacts LeagueValueFacts.
Import AgreementFacts LeaderFacts.

Lemma num_get_set_same (d : num_dict) (k : string) (v : Q) :
  num_dict_get (num_dict_set d k v) k = Some v.
Proof.
  induction d as [| [k' v'] t IH]; simpl.
  - now rewrite String.eqb_refl.
  - destruct (String.eqb_spec k' k) as [-> | Hne]; simpl.
    + now rewrite String.eqb_refl.
    + destruct (String.eqb_spec k' k); [contradiction | exact IH].
Qed.

Lemma num_get_set_other (d : num_dict) (k k' : string) (v : Q) :
  k <> k' -> num_dict_get (num_dict_set d k v) k' = num_dict_get d k'.
Proof.
  intros Hne. induction d as [| [k0 v0] t IH]; simpl.
  - destruct (String.eqb_spec k k'); [contradiction | reflexivity].
  - destruct (String.eqb_spec k0 k) as [-> | H0]; simpl.
    + destruct (String.eqb_spec k k'); [contradiction | reflexivity].
    + destruct (String.eqb_spec k0 k'); [reflexivity | exact IH].
Qed.

Lemma num_get_none (d : num_dict) (k : string) :
  num_dict_get d k = None <-> ~ In k (map fst d).
Proof.
  induction d as [| [k' v'] t IH]; simpl; [tauto |].
  destruct (String.eqb_spec k' k) as [-> | Hne].
  - split; [discriminate | intros H; exfalso; apply H; now left].
  - rewrite IH. tauto.
Qed.

Lemma num_keys_set (d : num_dict) (k : string) (v : Q) :
  map fst (num_dict_set d k v)
  = match num_dict_get d k with
    | Some _ => map fst d
    | None => map fst d ++ [k]
    end.
Proof.
  induction d as [| [k' v'] t IH]; simpl; [reflexivity |].
  destruct (String.eqb_spec k' k) as [-> | Hne]; simpl; [reflexivity |].
  rewrite IH. now destruct (num_dict_get t k).
Qed.

Lemma num_get_In (d : num_dict) (k : string) (t : Q) :
  NoDup (map fst d) -> In (k, t) d -> num_dict_get d k = Some t.
Proof.
  induction d as [| [k' v'] rest IH]; simpl; intros Hnd Hin; [contradiction |].
  inversion Hnd as [| ? ? Hnotin Hnd']; subst.
  destruct Hin as [Heq | Hin].
  - inversion Heq; subst. now rewrite String.eqb_refl.
  - destruct (String.eqb_spec k' k) as [-> | Hne]; [| now apply IH].
    exfalso. apply Hnotin. apply in_map_iff. now exists (k, t).
Qed.

Lemma sum_app (l l' : list Q) :
  (Py.sum (l ++ l') == Py.sum l + Py.sum l')%Q.
Proof.
  induction l as [| x t IH]; simpl.
  - unfold Py.sum at 2. simpl. ring.
  - rewrite !sum_cons, IH. ring.
Qed.

Lemma NoDup_map_inj {A B} (f : A -> B) (l : list A) (a b : A) :
  NoDup (map f l) -> In a l -> In b l -> f a = f b -> a = b.
Proof.
  induction l as [| x t IH]; simpl; intros Hnd Ha Hb Hf; [contradiction |].
  inversion Hnd as [| ? ? Hnotin Hnd']; subst.
  destruct Ha as [-> | Ha], Hb as [-> | Hb]; auto.
  - exfalso. apply Hnotin. rewrite Hf. now apply in_map.
  - exfalso. apply Hnotin. rewrite <- Hf. now apply in_map.
Qed.

Lemma find_user (us : list User) (u : User) :
  NoDup (map user_id us) -> In u us ->
  find (fun x => user_id x =? user_id u) us = Some u.
Proof.
  induction us as [| a t IH]; simpl; intros Hnd Hin; [contradiction |].
  inversion Hnd as [| ? ? Hnotin Hnd']; subst.
  destruct (Z.eqb_spec (user_id a) (user_id u)) as [Heq | Hne].
  - destruct Hin as [-> | Hin]; [reflexivity |].
    exfalso. apply Hnotin. rewrite Heq. now apply in_map.
  - destruct Hin as [-> | Hin]; [now contradiction Hne | now apply IH].
Qed.

(** One turn of the loop for an entry that is counted. *)
Lemma count_entry_counted (d : Database) (acc : num_dict) (e : TaxEntry)
    (ato : string) :
  counted_for d e = Some ato ->
  exists acc' t',
    count_entry d acc e = Some acc'
    /\ map fst acc'
       = match num_dict_get acc ato with
         | Some _ => map fst acc
         | None => map fst acc ++ [ato]
         end
    /\ (forall k, k <> ato -> num_dict_get acc' k = num_dict_get acc k)
    /\ num_dict_get acc' ato = Some t'
    /\ (t' == match num_dict_get acc ato with
              | Some t => t
              | None => 0
              end + verified_amount e)%Q.
Proof.
  unfold counted_for, count_entry, verified_amount.
  destruct (find _ (users d)) as [user |]; [| discriminate].
  destruct (is_ato user); [| discriminate].
  intros H. inversion H; subst ato; clear H. cbn [negb].
  set (ato := username user).
  set (acc1 := match num_dict_get acc ato with
               | Some _ => acc
               | None => num_dict_set acc ato 0%Q
               end).
  set (t0 := match num_dict_get acc ato with
             | Some t => t
             | None => 0%Q
             end).
  assert (G1 : num_dict_get acc1 ato = Some t0).
  { unfold acc1, t0. destruct (num_dict_get acc ato) eqn:G; [exact G |].
    apply num_get_set_same. }
  assert (K1 : map fst acc1
               = match num_dict_get acc ato with
                 | Some _ => map fst acc
                 | None => map fst acc ++ [ato]
                 end).
  { unfold acc1. destruct (num_dict_get acc ato) eqn:G; [reflexivity |].
    now rewrite num_keys_set, G. }
  assert (O1 : forall k, k <> ato -> num_dict_get acc1 k = num_dict_get acc k).
  { intros k Hk. unfold acc1. destruct (num_dict_get acc ato);
      [reflexivity |]. apply num_get_set_other. congruence. }
  unfold num_dict_add.
  destruct (rrr_verified e), (paydirect_verified e);
    rewrite ?G1, ?num_get_set_same.
  - eexists. eexists. split; [reflexivity |].
    rewrite !num_keys_set, num_get_set_same, G1.
    split; [exact K1 |]. split.
    + intros k Hk. rewrite !num_get_set_other by congruence. now apply O1.
    + split; [apply num_get_set_same | ring].
  - eexists. eexists. split; [reflexivity |].
    rewrite !num_keys_set, G1.
    split; [exact K1 |]. split.
    + intros k Hk. rewrite !num_get_set_other by congruence. now apply O1.
    + split; [apply num_get_set_same | ring].
  - eexists. eexists. split; [reflexivity |].
    rewrite !num_keys_set, G1.
    split; [exact K1 |]. split.
    + intros k Hk. rewrite !num_get_set_other by congruence. now apply O1.
    + split; [apply num_get_set_same | ring].
  - exists acc1, t0. split; [reflexivity |].
    split; [exact K1 |]. split; [exact O1 |].
    split; [exact G1 | ring].
Qed.

Lemma counted_for_name_true (d : Database) (k : string) (e : TaxEntry) :
  counted_for_name d k e = true <-> counted_for d e = Some k.
Proof.
  unfold counted_for_name. destruct (counted_for d e) as [k' |]; simpl.
  - rewrite String.eqb_eq. split; congruence.
  - split; discriminate.
Qed.

(** The loop keeps its totals right, one entry after the other. *)
Lemma count_entry_step (d : Database) (seen : list TaxEntry)
    (acc : num_dict) (e : TaxEntry) :
  counted d seen acc ->
  exists acc', count_entry d acc e = Some acc'
               /\ counted d (seen ++ [e]) acc'.
Proof.
  intros (Hnd & Hkeys & Hsum).
  destruct (counted_for d e) as [ato |] eqn:Hc.
  - destruct (count_entry_counted d acc e ato Hc)
      as (acc' & t' & E & K & O & G & Ht).
    exists acc'. split; [exact E |]. split; [| split].
    + rewrite K. destruct (num_dict_get acc ato) eqn:Ga; [exact Hnd |].
      apply InvariantFacts.NoDup_snoc; [exact Hnd |].
      now apply num_get_none.
    + intros k. rewrite K. split.
      * intros Hin.
        assert (Hk : In k (map fst acc) \/ k = ato).
        { destruct (num_dict_get acc ato); [now left |].
          apply in_app_or in Hin. destruct Hin as [H | [H | []]]; auto. }
        destruct Hk as [Hk | ->].
        -- apply Hkeys in Hk. destruct Hk as [e0 [He0 Hc0]].
           exists e0. split; [apply in_or_app; now left | exact Hc0].
        -- exists e. split; [apply in_or_app; right; now left | exact Hc].
      * intros [e0 [He0 Hc0]]. apply in_app_or in He0.
        destruct He0 as [He0 | [<- | []]].
        -- assert (Hk : In k (map fst acc)) by (apply Hkeys; eauto).
           destruct (num_dict_get acc ato); [exact Hk |].
           apply in_or_app. now left.
        -- assert (k = ato) by congruence. subst k.
           destruct (num_dict_get acc ato) eqn:Ga.
           ++ destruct (in_dec String.string_dec ato (map fst acc))
                as [Hi | Hn]; [exact Hi |].
              apply num_get_none in Hn. congruence.
           ++ apply in_or_app. right. now left.
    + intros k t Hg. rewrite filter_app, map_app, sum_app. simpl.
      destruct (String.eqb_spec k ato) as [-> | Hne].
      * rewrite (proj2 (counted_for_name_true d ato e) Hc). simpl.
        rewrite G in Hg. inversion Hg; subst t'. rewrite Ht.
        unfold Py.sum at 2. simpl.
        destruct (num_dict_get acc ato) as [t0 |] eqn:Ga.
        -- rewrite (Hsum ato t0 Ga). ring.
        -- rewrite (filter_none (counted_for_name d ato) seen).
           ++ unfold Py.sum. simpl. ring.
           ++ intros e0 He0.
              destruct (counted_for_name d ato e0) eqn:Hn; [| reflexivity].
              apply counted_for_name_true in Hn.
              exfalso. apply (proj1 (num_get_none acc ato) Ga).
              apply Hkeys. eauto.
      * assert (Hf : counted_for_name d k e = false).
        { destruct (counted_for_name d k e) eqn:Hn; [| reflexivity].
          apply counted_for_name_true in Hn. congruence. }
        rewrite Hf. simpl. rewrite O in Hg by exact Hne.
        rewrite (Hsum k t Hg). unfold Py.sum at 3. simpl. ring.
  - assert (E : count_entry d acc e = Some acc).
    { unfold count_entry. unfold counted_for in Hc.
      destruct (find _ (users d)) as [user |]; [| reflexivity].
      destruct (is_ato user); [discriminate | reflexivity]. }
    exists acc. split; [exact E |]. split; [exact Hnd |]. split.
    + intros k. rewrite Hkeys. split; intros [e0 [He0 Hc0]].
      * exists e0. split; [apply in_or_app; now left | exact Hc0].
      * apply in_app_or in He0. destruct He0 as [He0 | [<- | []]];
          [eauto | congruence].
    + intros k t Hg. rewrite filter_app, map_app, sum_app. simpl.
      assert (Hf : counted_for_name d k e = false).
      { unfold counted_for_name. now rewrite Hc. }
      rewrite Hf. simpl. rewrite (Hsum k t Hg).
      unfold Py.sum at 3. simpl. ring.
Qed.

Lemma count_all (d : Database) (l seen : list TaxEntry) (acc : num_dict) :
  counted d seen acc ->
  exists acc',
    fold_left (fun acc entry =>
                 match acc with
                 | Some ato_totals => count_entry d ato_totals entry
                 | None => None
                 end) l (Some acc) = Some acc'
    /\ counted d (seen ++ l) acc'.
Proof.
  revert seen acc. induction l as [| e t IH]; intros seen acc H.
  - exists acc. rewrite app_nil_r. now split.
  - destruct (count_entry_step d seen acc e H) as [acc1 [E H1]].
    destruct (IH (seen ++ [e]) acc1 H1) as [acc' [F H']].
    exists acc'. simpl. rewrite E. split; [exact F |].
    now rewrite <- app_assoc in H'.
Qed.

Lemma counted_for_user (d : Database) (u : User) (e : TaxEntry) :
  NoDup (map user_id (users d)) -> NoDup (map username (users d)) ->
  In u (users d) -> is_ato u = true ->
  counted_for d e = Some (username u) <-> uploaded_by e = user_id u.
Proof.
  intros Hid Hname Hin Hato. unfold counted_for. split.
  - destruct (find _ (users d)) as [u' |] eqn:F; [| discriminate].
    destruct (is_ato u'); [| discriminate].
    intros H. inversion H as [Hn].
    apply find_some in F. destruct F as [Hin' Heq]. apply Z.eqb_eq in Heq.
    assert (u' = u) by (eapply (NoDup_map_inj username); eauto).
    subst u'. now symmetry.
  - intros He. rewrite He, (find_user _ _ Hid Hin), Hato. reflexivity.
Qed.

Lemma counted_entries_of_user (d : Database) (u : User) :
  NoDup (map user_id (users d)) -> NoDup (map username (users d)) ->
  In u (users d) -> is_ato u = true ->
  filter (counted_for_name d (username u)) (tax_entries d)
  = entries_of d (user_id u).
Proof.
  intros Hid Hname Hin Hato. unfold entries_of. apply filter_ext.
  intros e.
  pose proof (counted_for_user d u e Hid Hname Hin Hato) as H.
  rewrite <- counted_for_name_true in H.
  destruct (counted_for_name d (username u) e),
           (Z.eqb_spec (uploaded_by e) (user_id u));
    try reflexivity.
  - exfalso. apply n. now apply H.
  - apply H in e0. discriminate.
Qed.

Lemma verified_amount_sum (es : list TaxEntry) :
  (Py.sum (map verified_amount es)
   == verified_rrr_total es + verified_paydirect_total es)%Q.
Proof.
  unfold verified_amount, verified_rrr_total, verified_paydirect_total.
  now rewrite sum_map_plus, !sum_where.
Qed.

(** X21. [analytics_admin] is open to admins and reviewers only.  Where
    user ids and user names are unique, its list has one row for every
    ATO with at least one entry and no other row, in descending order of
    the total, and the total of an ATO is the sum of the Remita amounts of
    the agent's entries verified on Remita plus the sum of the PayDirect
    amounts of those verified on PayDirect; the amount of an unverified
    channel is not counted.  The loop never meets a missing key. *)
Theorem admin_analytics_totals (d : Database) (current_user : User) :
  NoDup (map user_id (users d)) ->
  NoDup (map username (users d)) ->
  (str_in (role current_user) ["admin"; "reviewer"] = false ->
   analytics_admin d current_user = Some AccessDenied)
  /\ (str_in (role current_user) ["admin"; "reviewer"] = true ->
      exists rows,
        analytics_admin d current_user = Some (Analytics rows)
        /\ StronglySorted (descending (fun kv => snd kv)) rows
        /\ NoDup (map fst rows)
        /\ (forall u, In u (users d) -> is_ato u = true ->
              (In (username u) (map fst rows)
               <-> entries_of d (user_id u) <> []))
        /\ (forall name t, In (name, t) rows ->
              exists u, In u (users d) /\ is_ato u = true
                        /\ username u = name
                        /\ (t == verified_rrr_total (entries_of d (user_id u))
                                 + verified_paydirect_total
                                     (entries_of d (user_id u)))%Q)).
Proof.
  intros Hid Hname. unfold analytics_admin.
  split; [intros ->; reflexivity |]. intros ->. cbn [negb].
  destruct (count_all d (tax_entries d) [] []) as [acc [E (Hnd & Hkeys & Hsum)]].
  { split; [constructor |]. split.
    - intros k. split; [intros [] | intros [e [[] _]]].
    - intros k t H. discriminate. }
  match goal with
  | |- context [fold_left ?f ?l ?a] =>
      assert (E' : fold_left f l a = Some acc) by exact E; rewrite E'
  end.
  cbn [app] in Hkeys, Hsum.
  set (rows := sort_desc (fun kv : string * Q => snd kv) acc).
  assert (Hperm : Permutation acc rows) by apply sort_desc_perm.
  exists rows. split; [reflexivity |].
  split; [apply sort_desc_sorted |].
  split.
  { eapply Permutation_NoDup; [apply Permutation_map, Hperm | exact Hnd]. }
  split.
  - intros u Hin Hato.
    assert (Hrows : In (username u) (map fst rows)
                    <-> In (username u) (map fst acc)).
    { split; apply Permutation_in;
        [symmetry |]; apply Permutation_map, Hperm. }
    rewrite Hrows, Hkeys. split.
    + intros [e [He Hc]] Hnil.
      apply (counted_for_user d u e Hid Hname Hin Hato) in Hc.
      assert (Hmem : In e (entries_of d (user_id u))).
      { apply filter_In. split; [exact He | now apply Z.eqb_eq]. }
      rewrite Hnil in Hmem. contradiction.
    + intros Hne. destruct (entries_of d (user_id u)) as [| e t] eqn:Hes;
        [now contradiction Hne |].
      assert (Hmem : In e (entries_of d (user_id u)))
        by (rewrite Hes; now left).
      apply filter_In in Hmem. destruct Hmem as [He Hu].
      apply Z.eqb_eq in Hu. exists e. split; [exact He |].
      now apply (counted_for_user d u e Hid Hname Hin Hato).
  - intros name t Hrow.
    assert (Hacc : In (name, t) acc)
      by (eapply Permutation_in; [symmetry; exact Hperm | exact Hrow]).
    assert (Hk : In name (map fst acc)).
    { apply in_map_iff. now exists (name, t). }
    apply Hkeys in Hk. destruct Hk as [e [He Hc]].
    pose proof Hc as Hc'. unfold counted_for in Hc'.
    destruct (find _ (users d)) as [u |] eqn:F; [| discriminate].
    destruct (is_ato u) eqn:Hato; [| discriminate].
    inversion Hc' as [Hn]. apply find_some in F. destruct F as [Hin _].
    exists u. split; [exact Hin |]. split; [exact Hato |].
    split; [reflexivity |].
    rewrite (Hsum name t (num_get_In acc name t Hnd Hacc)), <- Hn.
    rewrite (counted_entries_of_user d u Hid Hname Hin Hato).
    apply verified_amount_sum.
Qed.

(** The theorem for an administrator and a store with an idle and an
    active agent: alice has a row, bob has none. *)
Lemma admin_analytics_witness :
  NoDup (map user_id (users idle_agent_db))
  /\ NoDup (map username (users idle_agent_db))
  /\ exists rows,
       analytics_admin idle_agent_db root = Some (Analytics rows)
       /\ (In "alice"%string (map fst rows)
           <-> entries_of idle_agent_db 2 <> [])
       /\ (In "bob"%string (map fst rows)
           <-> entries_of idle_agent_db 1 <> []).
Proof.
  assert (H1 : NoDup (map user_id (users idle_agent_db))).
  { simpl. repeat constructor; simpl; intuition discriminate. }
  assert (H2 : NoDup (map username (users idle_agent_db))).
  { simpl. repeat constructor; simpl; intuition discriminate. }
  split; [exact H1 |]. split; [exact H2 |].
  destruct (proj2 (admin_analytics_totals idle_agent_db root H1 H2) eq_refl)
    as (rows & E & _ & _ & Hdom & _).
  exists rows. split; [exact E |]. split.
  - apply (Hdom alice); [simpl; auto | reflexivity].
  - apply (Hdom bob); [simpl; auto | reflexivity].
Defined.

End AdminFacts.
